(** * Site extractors of yt_dlp/extractor: jtbc, kanal2, manoto, servus, vrt

    A shallow embedding of the five extractor modules and of the fragment of
    the Python runtime they rely on (values decoded from JSON, the [re]
    module, exceptions, the calendar), followed by the properties checked
    against the extractors' specification.

    Conventions of the embedding:
    - a Python [str] is a Rocq [string], a sequence of 8-bit characters: the
      urls, patterns and identifiers at stake are ASCII, and [\d], [\w],
      [\s], [str.isdigit] and [str.upper] are modelled on ASCII;
    - a Python [dict] is an association list in insertion order;
    - an exception is a value of [exn]; a method that performs requests or
      logs is a computation in the monad [M], which keeps the log of events
      also when an exception propagates;
    - the outside world (HTTP responses, cookies, manifests, the local time
      zone) is a record [Host] of oracles that see the history of events. *)

From Stdlib Require Import ZArith List String Ascii Bool Lia Arith.
From Stdlib Require Import DecimalString.
From Stdlib Require Decimal DecimalPos.
From Stdlib Require Import Floats.PrimFloat Numbers.Cyclic.Int63.Uint63.
From Stdlib Require Import Floats.SpecFloat Floats.FloatOps Floats.FloatAxioms.
From Equations Require Import Equations.
Import ListNotations.

Local Open Scope string_scope.
Local Open Scope list_scope.

(* ================================================================== *)
(** ** Characters and strings *)

Module Str.

Definition chars (s : string) : list ascii := list_ascii_of_string s.
Definition of_chars (l : list ascii) : string := string_of_list_ascii l.

(** The double quote character, for patterns that contain it. *)
Definition dquote : string := String (ascii_of_nat 34) EmptyString.

Definition LF : ascii := ascii_of_nat 10.

Definition in_range (lo hi c : ascii) : bool :=
  (nat_of_ascii lo <=? nat_of_ascii c)%nat && (nat_of_ascii c <=? nat_of_ascii hi)%nat.

Definition is_digit (c : ascii) : bool := in_range "0" "9" c.
Definition is_lower (c : ascii) : bool := in_range "a" "z" c.
Definition is_upper (c : ascii) : bool := in_range "A" "Z" c.
Definition is_word (c : ascii) : bool :=
  is_digit c || is_lower c || is_upper c || Ascii.eqb c "_".

(** [\s] and [str.strip]: space, \t, \n, \v, \f, \r. *)
Definition is_space (c : ascii) : bool :=
  let n := nat_of_ascii c in (n =? 32)%nat || ((9 <=? n)%nat && (n <=? 13)%nat).

Definition upper_char (c : ascii) : ascii :=
  if is_lower c then ascii_of_nat (nat_of_ascii c - 32) else c.

(** [str.upper] *)
Definition upper (s : string) : string := of_chars (map upper_char (chars s)).

(** [str.isdigit] *)
Definition isdigit (s : string) : bool :=
  match chars s with
  | [] => false
  | l => forallb is_digit l
  end.

(** [s.replace(c, '')] for a one-character [c] *)
Definition remove_char (c : ascii) (s : string) : string :=
  of_chars (filter (fun x => negb (Ascii.eqb x c)) (chars s)).

Fixpoint strip_left (l : list ascii) : list ascii :=
  match l with
  | c :: l' => if Ascii.eqb c "/" then strip_left l' else l
  | [] => []
  end.

(** [s.strip("/")] *)
Definition strip_slash (s : string) : string :=
  of_chars (rev (strip_left (rev (strip_left (chars s))))).

Definition digit_val (c : ascii) : Z := Z.of_nat (nat_of_ascii c - 48).

(** value of a string of decimal digits *)
Definition digits_val (l : list ascii) : Z :=
  fold_left (fun acc c => (10 * acc + digit_val c)%Z) l 0%Z.

(** [str(n)] for an [int] *)
Definition of_Z (z : Z) : string := NilZero.string_of_int (Z.to_int z).

(** [s * n] *)
Fixpoint repeat_str (s : string) (n : nat) : string :=
  match n with
  | O => ""
  | S n' => s ++ repeat_str s n'
  end.

End Str.

(* ================================================================== *)
(** ** Python values *)

#[local] Set Warnings "-register-all".

(** What [json.loads] returns, and what the extractors build from it.  The
    keys of a dict are values too: [subtitles.setdefault(label, [])] uses a
    decoded value as a key.  [PObject] stands for an object that is not
    data: a class or a function, known by its name. *)
Inductive pyval : Type :=
| PNone
| PBool (b : bool)
| PInt (z : Z)
| PFloat (f : float)
| PStr (s : string)
| PList (l : list pyval)
| PDict (d : list (pyval * pyval))
| PObject (name : string).

Definition float_of_Z (z : Z) : float :=
  if (z <? 0)%Z then PrimFloat.opp (PrimFloat.of_uint63 (Uint63.of_Z (- z)))
  else PrimFloat.of_uint63 (Uint63.of_Z z).

Module Py.

(** Truth value of an object ([if x], [not x], [x or y]). *)
Definition truthy (v : pyval) : bool :=
  match v with
  | PNone => false
  | PBool b => b
  | PInt z => negb (z =? 0)%Z
  | PFloat f => negb (PrimFloat.eqb f PrimFloat.zero)
  | PStr s => negb (String.eqb s "")
  | PList l => match l with [] => false | _ => true end
  | PDict d => match d with [] => false | _ => true end
  | PObject _ => true
  end.

(** [a or b] *)
Definition or_ (a b : pyval) : pyval := if truthy a then a else b.

(** [v == 'literal'] *)
Definition eq_str (v : pyval) (s : string) : bool :=
  match v with
  | PStr t => String.eqb t s
  | _ => false
  end.

Definition hashable (v : pyval) : bool :=
  match v with
  | PList _ | PDict _ => false
  | _ => true
  end.

Definition as_number (v : pyval) : option (Z + float) :=
  match v with
  | PBool b => Some (inl (if b then 1 else 0)%Z)
  | PInt z => Some (inl z)
  | PFloat f => Some (inr f)
  | _ => None
  end.

(** Equality of two dict keys.  [True == 1 == 1.0] are one key; an [int] and
    a [float] are compared through the float of the int, which is exact
    below 2^53. *)
Definition key_eqb (a b : pyval) : bool :=
  match a, b with
  | PNone, PNone => true
  | PStr s, PStr t => String.eqb s t
  | PObject s, PObject t => String.eqb s t
  | _, _ =>
    match as_number a, as_number b with
    | Some (inl x), Some (inl y) => (x =? y)%Z
    | Some (inl x), Some (inr g) => PrimFloat.eqb (float_of_Z x) g
    | Some (inr f), Some (inl y) => PrimFloat.eqb f (float_of_Z y)
    | Some (inr f), Some (inr g) => PrimFloat.eqb f g
    | _, _ => false
    end
  end.

Fixpoint lookup (d : list (pyval * pyval)) (k : pyval) : option pyval :=
  match d with
  | [] => None
  | (k', v) :: d' => if key_eqb k' k then Some v else lookup d' k
  end.

(** [d[k] = v]: the value is replaced in place, a new key goes last. *)
Fixpoint set (d : list (pyval * pyval)) (k v : pyval) : list (pyval * pyval) :=
  match d with
  | [] => [(k, v)]
  | (k', v') :: d' => if key_eqb k' k then (k', v) :: d' else (k', v') :: set d' k v
  end.

(** [{**d, **e}] *)
Definition update (d e : list (pyval * pyval)) : list (pyval * pyval) :=
  fold_left (fun acc kv => set acc (fst kv) (snd kv)) e d.

(** A dict display [{k1: v1, ...}] *)
Definition dict (items : list (string * pyval)) : pyval :=
  PDict (fold_left (fun acc kv => set acc (PStr (fst kv)) (snd kv)) items []).

(** Field of a returned record. *)
Definition field (v : pyval) (k : string) : option pyval :=
  match v with
  | PDict d => lookup d (PStr k)
  | _ => None
  end.

(** [k in d] for a dict; [None] when [d] does not support [in] the way the
    callers here need (they only test decoded JSON objects). *)
Definition contains (v : pyval) (k : string) : option bool :=
  match v with
  | PDict d => Some (match lookup d (PStr k) with Some _ => true | None => false end)
  | PList l => Some (existsb (fun x => key_eqb x (PStr k)) l)
  | PStr s => Some (match String.index 0 k s with Some _ => true | None => String.eqb k "" end)
  | _ => None
  end.

End Py.

(* ================================================================== *)
(** ** The [re] module: the fragment of the pattern language in use *)

Module Re.

Local Open Scope char_scope.

Inductive citem : Type :=
| CChar (c : ascii)
| CRange (lo hi : ascii)
| CDigit
| CWord
| CSpace.

Inductive regex : Type :=
| Eps
| Lit (c : ascii)
| Any                                   (* [.]: any character but a newline *)
| Cls (negated : bool) (items : list citem)
| Seq (r1 r2 : regex)
| Alt (r1 r2 : regex)                   (* ordered choice *)
| Star (greedy : bool) (r : regex)
| Group (n : nat) (r : regex)           (* capturing group number [n] *)
| Eos.                                  (* [$] *)

(** A compiled pattern: [re.compile(p)] *)
Record pattern : Type := mkPattern {
  body : regex;
  ngroups : nat;
  names : list (string * nat)
}.

(** *** Parsing a pattern string *)

Definition item_matches (c : ascii) (i : citem) : bool :=
  match i with
  | CChar a => Ascii.eqb a c
  | CRange lo hi => Str.in_range lo hi c
  | CDigit => Str.is_digit c
  | CWord => Str.is_word c
  | CSpace => Str.is_space c
  end.

Definition class_escape (c : ascii) : option citem :=
  if Ascii.eqb c "d" then Some CDigit
  else if Ascii.eqb c "w" then Some CWord
  else if Ascii.eqb c "s" then Some CSpace
  else if Str.is_word c then None          (* other letter escapes: not in use *)
  else Some (CChar c).

Fixpoint starts_with (p s : list ascii) : option (list ascii) :=
  match p, s with
  | [], _ => Some s
  | a :: p', b :: s' => if Ascii.eqb a b then starts_with p' s' else None
  | _ :: _, [] => None
  end.

(** The items of a class up to its closing bracket. *)
Fixpoint parse_class (fuel : nat) (s : list ascii) (acc : list citem)
  : option (list citem * list ascii) :=
  match fuel with
  | O => None
  | S f =>
    match s with
    | [] => None
    | c :: t =>
      if Ascii.eqb c "]" then Some (rev acc, t)
      else if Ascii.eqb c "\" then
        match t with
        | e :: t' =>
          match class_escape e with
          | Some i => parse_class f t' (i :: acc)
          | None => None
          end
        | [] => None
        end
      else
        match t with
        | d :: hi :: t' =>
          if Ascii.eqb d "-" && negb (Ascii.eqb hi "]")
          then parse_class f t' (CRange c hi :: acc)
          else parse_class f t (CChar c :: acc)
        | _ => parse_class f t (CChar c :: acc)
        end
    end
  end.

Fixpoint take_digits (s : list ascii) : list ascii * list ascii :=
  match s with
  | c :: t => if Str.is_digit c then let '(d, r) := take_digits t in (c :: d, r) else ([], s)
  | [] => ([], [])
  end.

Fixpoint take_until (stop : ascii) (s : list ascii) : option (list ascii * list ascii) :=
  match s with
  | c :: t =>
    if Ascii.eqb c stop then Some ([], t)
    else match take_until stop t with
         | Some (a, r) => Some (c :: a, r)
         | None => None
         end
  | [] => None
  end.

Fixpoint copies (n : nat) (r : regex) : regex :=
  match n with
  | O => Eps
  | S n' => Seq r (copies n' r)
  end.

(** A quantifier after an atom: [*], [+], [?], [{n}], each possibly lazy. *)
Definition parse_quant (a : regex) (s : list ascii) : option (regex * list ascii) :=
  let lazy (t : list ascii) : bool * list ascii :=
    match t with
    | c :: t' => if Ascii.eqb c "?" then (false, t') else (true, t)
    | [] => (true, t)
    end in
  match s with
  | c :: t =>
    if Ascii.eqb c "*" then let '(g, r) := lazy t in Some (Star g a, r)
    else if Ascii.eqb c "+" then let '(g, r) := lazy t in Some (Seq a (Star g a), r)
    else if Ascii.eqb c "?" then
      let '(g, r) := lazy t in Some (if g then Alt a Eps else Alt Eps a, r)
    else if Ascii.eqb c "{" then
      let '(d, r) := take_digits t in
      match d, r with
      | _ :: _, e :: r' =>
        if Ascii.eqb e "}" then Some (copies (Z.to_nat (Str.digits_val d)) a, r') else None
      | _, _ => None
      end
    else Some (a, s)
  | [] => Some (a, s)
  end.

Definition pstate : Type := nat * list (string * nat).

Definition expect_close (x : option (regex * pstate * list ascii))
  (wrap : regex -> regex) : option (regex * pstate * list ascii) :=
  match x with
  | Some (r, st, c :: t) => if Ascii.eqb c ")" then Some (wrap r, st, t) else None
  | _ => None
  end.

Fixpoint parse_alt (fuel : nat) (st : pstate) (s : list ascii)
  : option (regex * pstate * list ascii) :=
  match fuel with
  | O => None
  | S f =>
    match parse_seq f st s with
    | Some (r1, st1, s1) =>
      match s1 with
      | c :: s2 =>
        if Ascii.eqb c "|" then
          match parse_alt f st1 s2 with
          | Some (r2, st2, s3) => Some (Alt r1 r2, st2, s3)
          | None => None
          end
        else Some (r1, st1, s1)
      | [] => Some (r1, st1, s1)
      end
    | None => None
    end
  end
with parse_seq (fuel : nat) (st : pstate) (s : list ascii)
  : option (regex * pstate * list ascii) :=
  match fuel with
  | O => None
  | S f =>
    match s with
    | [] => Some (Eps, st, s)
    | c :: _ =>
      if Ascii.eqb c "|" || Ascii.eqb c ")" then Some (Eps, st, s)
      else
        match parse_atom f st s with
        | Some (a, st1, s1) =>
          match parse_quant a s1 with
          | Some (aq, s2) =>
            match parse_seq f st1 s2 with
            | Some (rest, st2, s3) => Some (Seq aq rest, st2, s3)
            | None => None
            end
          | None => None
          end
        | None => None
        end
    end
  end
with parse_atom (fuel : nat) (st : pstate) (s : list ascii)
  : option (regex * pstate * list ascii) :=
  match fuel with
  | O => None
  | S f =>
    match s with
    | [] => None
    | c :: t =>
      if Ascii.eqb c "(" then
        match starts_with (Str.chars "?:") t with
        | Some t1 => expect_close (parse_alt f st t1) (fun r => r)
        | None =>
          match starts_with (Str.chars "?P<") t with
          | Some t1 =>
            match take_until ">" t1 with
            | Some (name, t2) =>
              let n := fst st in
              expect_close (parse_alt f (S n, (Str.of_chars name, n) :: snd st) t2) (Group n)
            | None => None
            end
          | None =>
            match starts_with (Str.chars "?") t with
            | Some _ => None                 (* other extensions: not in use *)
            | None =>
              let n := fst st in
              expect_close (parse_alt f (S n, snd st) t) (Group n)
            end
          end
        end
      else if Ascii.eqb c "[" then
        let '(neg, t1) :=
          match t with
          | x :: t' => if Ascii.eqb x "^" then (true, t') else (false, t)
          | [] => (false, t)
          end in
        match parse_class f t1 [] with
        | Some (items, t2) => Some (Cls neg items, st, t2)
        | None => None
        end
      else if Ascii.eqb c "\" then
        match t with
        | e :: t' =>
          match class_escape e with
          | Some (CChar x) => Some (Lit x, st, t')
          | Some i => Some (Cls false [i], st, t')
          | None => None
          end
        | [] => None
        end
      else if Ascii.eqb c "." then Some (Any, st, t)
      else if Ascii.eqb c "$" then Some (Eos, st, t)
      else if Ascii.eqb c "*" || Ascii.eqb c "+" || Ascii.eqb c "?"
              || Ascii.eqb c "{" || Ascii.eqb c "^" then None
      else Some (Lit c, st, t)
    end
  end.

(** Verbose mode [(?x)]: white space outside a class is dropped unless it is
    escaped, and [#] starts a comment that runs to the end of the line. *)
Fixpoint strip_verbose (in_class : bool) (in_comment : bool) (s : list ascii) : list ascii :=
  match s with
  | [] => []
  | c :: t =>
    if in_comment then strip_verbose in_class (negb (Ascii.eqb c Str.LF)) t
    else if Ascii.eqb c "\" then
      match t with
      | e :: t' => c :: e :: strip_verbose in_class false t'
      | [] => [c]
      end
    else if in_class then c :: strip_verbose (negb (Ascii.eqb c "]")) false t
    else if Ascii.eqb c "[" then c :: strip_verbose true false t
    else if Str.is_space c then strip_verbose false false t
    else if Ascii.eqb c "#" then strip_verbose false true t
    else c :: strip_verbose false false t
  end.

(** [re.compile(p)]; [None] when [p] is outside the fragment. *)
Definition compile (p : string) : option pattern :=
  let s := Str.chars p in
  let s :=
    match starts_with (Str.chars "(?x)") s with
    | Some t => strip_verbose false false t
    | None => s
    end in
  match parse_alt (3 * List.length s + 3) (1%nat, []) s with
  | Some (r, (n, nm), []) => Some (mkPattern r (n - 1) nm)
  | _ => None
  end.

(** *** Matching

    A backtracking matcher in continuation-passing style: alternatives are
    tried in order, a greedy repetition tries one more round first, a lazy
    one tries the rest of the pattern first.  [caps] holds the text captured
    by each group, the latest capture first. *)

Definition caps : Type := list (nat * list ascii).

Definition result : Type := option (caps * list ascii).

Definition class_matches (neg : bool) (items : list citem) (c : ascii) : bool :=
  xorb neg (existsb (item_matches c) items).

Fixpoint run (r : regex) (s : list ascii) (c : caps)
  (k : list ascii -> caps -> result) {struct r} : result :=
  match r with
  | Eps => k s c
  | Lit a =>
    match s with
    | x :: s' => if Ascii.eqb x a then k s' c else None
    | [] => None
    end
  | Any =>
    match s with
    | x :: s' => if Ascii.eqb x Str.LF then None else k s' c
    | [] => None
    end
  | Cls neg items =>
    match s with
    | x :: s' => if class_matches neg items x then k s' c else None
    | [] => None
    end
  | Seq r1 r2 => run r1 s c (fun s' c' => run r2 s' c' k)
  | Alt r1 r2 =>
    match run r1 s c k with
    | Some m => Some m
    | None => run r2 s c k
    end
  | Star greedy r1 =>
    (fix loop (n : nat) (s : list ascii) (c : caps) {struct n} : result :=
       match n with
       | O => k s c
       | S n' =>
         let again (_ : unit) :=
           run r1 s c (fun s' c' =>
             if (List.length s' <? List.length s)%nat then loop n' s' c' else None) in
         if greedy then
           match again tt with
           | Some m => Some m
           | None => k s c
           end
         else
           match k s c with
           | Some m => Some m
           | None => again tt
           end
       end) (List.length s) s c
  | Group n r1 =>
    run r1 s c (fun s' c' =>
      k s' ((n, firstn (List.length s - List.length s') s) :: c'))
  | Eos =>
    match s with
    | [] => k s c
    | x :: [] => if Ascii.eqb x Str.LF then k s c else None
    | _ => None
    end
  end.

(** A match object: the captures, the matched text and what follows it. *)
Record mobj : Type := mkMobj {
  captures : caps;
  matched : string;
  after : list ascii
}.

Definition match_at (p : pattern) (s : list ascii) : option mobj :=
  match run (body p) s [] (fun s' c' => Some (c', s')) with
  | Some (c, rest) =>
    Some (mkMobj c (Str.of_chars (firstn (List.length s - List.length rest) s)) rest)
  | None => None
  end.

(** [p.match(s)]: a match that starts at the first character. *)
Definition match_ (p : pattern) (s : string) : option mobj :=
  match_at p (Str.chars s).

Fixpoint search_from (p : pattern) (s : list ascii) : option mobj :=
  match match_at p s with
  | Some m => Some m
  | None =>
    match s with
    | _ :: s' => search_from p s'
    | [] => None
    end
  end.

(** [p.search(s)]: the leftmost match. *)
Definition search (p : pattern) (s : string) : option mobj :=
  search_from p (Str.chars s).

Fixpoint cap_lookup (c : caps) (n : nat) : option string :=
  match c with
  | [] => None
  | (m, v) :: c' => if (m =? n)%nat then Some (Str.of_chars v) else cap_lookup c' n
  end.

(** [m.group(n)] for [n >= 1]; [None] is Python's [None] (group not set). *)
Definition group (m : mobj) (n : nat) : option string := cap_lookup (captures m) n.

(** [m.group('name')] *)
Definition group_named (p : pattern) (m : mobj) (name : string) : option string :=
  match find (fun x => String.eqb (fst x) name) (names p) with
  | Some (_, n) => group m n
  | None => None
  end.

(** [next(g for g in m.groups() if g is not None)] *)
Definition first_group (p : pattern) (m : mobj) : option string :=
  (fix go (n : nat) (i : nat) : option string :=
     match n with
     | O => None
     | S n' =>
       match group m i with
       | Some g => Some g
       | None => go n' (S i)
       end
     end) (ngroups p) 1%nat.

(** [p.sub(repl, s)] for a replacement without group references: every
    non-overlapping match, leftmost first, is replaced. *)
Fixpoint sub_from (fuel : nat) (p : pattern) (repl : list ascii) (s : list ascii)
  : list ascii :=
  match fuel with
  | O => s
  | S f =>
    match match_at p s with
    | Some m =>
      if (List.length (after m) <? List.length s)%nat
      then repl ++ sub_from f p repl (after m)
      else
        match s with
        | x :: s' => repl ++ x :: sub_from f p repl s'
        | [] => repl
        end
    | None =>
      match s with
      | x :: s' => x :: sub_from f p repl s'
      | [] => []
      end
    end
  end.

Definition sub (p : pattern) (repl s : string) : string :=
  Str.of_chars (sub_from (S (String.length s)) p (Str.chars repl) (Str.chars s)).

End Re.

(* ================================================================== *)
(** ** Exceptions, events and the extractor monad *)

(** [e.cause] of an [ExtractorError]. *)
Inductive cause : Type :=
| NoCause
| HTTPError (code : Z)
| OtherCause.

Inductive exn : Type :=
| ExtractorError (msg : pyval) (expected : bool) (c : cause)
| RegexNotFoundError (what : string)
| GeoRestrictedError (countries : list string)
| LoginRequiredError
| AttributeError (attr : string)
| KeyError (key : pyval)
| IndexError
| TypeError
| ValueError
| NameError (name : string)
| ReError
(** an exception of another class, by the name of the class *)
| OtherError (class : string).

(** The exceptions caught by [except ExtractorError]. *)
Definition is_ExtractorError (e : exn) : bool :=
  match e with
  | ExtractorError _ _ _ | RegexNotFoundError _ | GeoRestrictedError _
  | LoginRequiredError => true
  | _ => false
  end.

(** The errors the extractors do not raise themselves: they come out of the
    interpreter when a field is missing or has another type. *)
Definition is_uncaught_attribute_or_key_error (e : exn) : bool :=
  match e with
  | AttributeError _ | KeyError _ => true
  | _ => false
  end.

Record request : Type := mkRequest {
  req_url : string;
  req_query : list (string * pyval);
  req_headers : list (string * pyval);
  req_data : option pyval
}.

Definition GET (url : string) : request := mkRequest url [] [] None.

(** [headers.update({name: value})] *)
Fixpoint update_header (headers : list (string * pyval)) (name : string) (value : pyval)
  : list (string * pyval) :=
  match headers with
  | [] => [(name, value)]
  | (n, v) :: rest =>
    if String.eqb n name then (n, value) :: rest
    else (n, v) :: update_header rest name value
  end.

Inductive event : Type :=
| Requested (r : request)
| Manifest (kind : string) (url : pyval)
| Warning (msg : string)
| Sleep (seconds : Z).

(** The state an extractor instance threads: the log of what it did so far
    and the per-instance authentication flag. *)
Record state : Type := mkState {
  log : list event;
  _authenticated : bool
}.

Definition initial : state := mkState [] false.

Definition M (A : Type) : Type := state -> (exn + A) * state.

Definition ret {A} (a : A) : M A := fun st => (inr a, st).

Definition raise {A} (e : exn) : M A := fun st => (inl e, st).

Definition bind {A B} (m : M A) (f : A -> M B) : M B :=
  fun st =>
    match m st with
    | (inr a, st') => f a st'
    | (inl e, st') => (inl e, st')
    end.

(** [try: m  except: h] where [h] decides what it handles. *)
Definition try_except {A} (m : M A) (h : exn -> M A) : M A :=
  fun st =>
    match m st with
    | (inr a, st') => (inr a, st')
    | (inl e, st') => h e st'
    end.

Declare Scope py_scope.
Delimit Scope py_scope with py.
Notation "x <- c ;; k" := (bind c (fun x => k))
  (at level 61, c at next level, right associativity) : py_scope.
Notation "c ;;; k" := (bind c (fun _ => k))
  (at level 61, right associativity) : py_scope.
Local Open Scope py_scope.

Definition emit (e : event) : M unit :=
  fun st => (inr tt, mkState (log st ++ [e]) (_authenticated st)).

Definition history : M (list event) := fun st => (inr (log st), st).

Definition set_authenticated (b : bool) : M unit :=
  fun st => (inr tt, mkState (log st) b).

Definition get_authenticated : M bool := fun st => (inr (_authenticated st), st).

(** Lift a step of the interpreter that may raise. *)
Definition lift {A} (x : exn + A) : M A :=
  match x with
  | inl e => raise e
  | inr a => ret a
  end.

(** [for x in l: f(x)] *)
Fixpoint for_each {A} (f : A -> M unit) (l : list A) : M unit :=
  match l with
  | [] => ret tt
  | x :: l' => f x ;;; for_each f l'
  end.

(** [for x in l: a = f(a, x)]: a loop that updates its local variables *)
Fixpoint fold_m {A B} (f : A -> B -> M A) (l : list B) (a : A) : M A :=
  match l with
  | [] => ret a
  | x :: l' => a' <- f a x ;; fold_m f l' a'
  end.

(** [[f(x) for x in l]]: a list comprehension whose element may raise *)
Fixpoint map_m {A B} (f : A -> M B) (l : list A) : M (list B) :=
  match l with
  | [] => ret []
  | x :: l' => y <- f x ;; ys <- map_m f l' ;; ret (y :: ys)
  end.

(** Result and final log of a run from the initial state. *)
Definition result_of {A} (m : M A) : exn + A := fst (m initial).
Definition log_of {A} (m : M A) : list event := log (snd (m initial)).
Definition warnings (l : list event) : list string :=
  flat_map (fun e => match e with Warning m => [m] | _ => [] end) l.
Definition sleeps (l : list event) : list Z :=
  flat_map (fun e => match e with Sleep n => [n] | _ => [] end) l.

(* ================================================================== *)
(** ** Operations of the interpreter on decoded values *)

Module Obj.

(** [o.get(k)]: only a dict has [get]. *)
Definition get (o : pyval) (k : string) : exn + pyval :=
  match o with
  | PDict d => inr (match Py.lookup d (PStr k) with Some v => v | None => PNone end)
  | _ => inl (AttributeError "get")
  end.

(** [o.get(k, default)] *)
Definition get_default (o : pyval) (k : string) (default : pyval) : exn + pyval :=
  match o with
  | PDict d => inr (match Py.lookup d (PStr k) with Some v => v | None => default end)
  | _ => inl (AttributeError "get")
  end.

(** [o[k]] for a string [k] *)
Definition item (o : pyval) (k : string) : exn + pyval :=
  match o with
  | PDict d =>
    match Py.lookup d (PStr k) with
    | Some v => inr v
    | None => inl (KeyError (PStr k))
    end
  | _ => inl TypeError
  end.

(** [o[i]] for an integer literal [i >= 0] *)
Definition index (o : pyval) (i : nat) : exn + pyval :=
  match o with
  | PList l =>
    match nth_error l i with
    | Some v => inr v
    | None => inl IndexError
    end
  | PStr s =>
    match String.get i s with
    | Some c => inr (PStr (String c EmptyString))
    | None => inl IndexError
    end
  | PDict d =>
    match Py.lookup d (PInt (Z.of_nat i)) with
    | Some v => inr v
    | None => inl (KeyError (PInt (Z.of_nat i)))
    end
  | _ => inl TypeError
  end.

(** [s.isdigit()]: only a [str] has [isdigit]. *)
Definition isdigit (o : pyval) : exn + bool :=
  match o with
  | PStr s => inr (Str.isdigit s)
  | _ => inl (AttributeError "isdigit")
  end.

(** [a + b] where one operand is known to be a [str]: defined when the
    other one is a [str] too. *)
Definition concat (a b : pyval) : exn + string :=
  match a, b with
  | PStr s, PStr t => inr (String.append s t)
  | _, _ => inl TypeError
  end.

(** [o.upper()]: only a [str] has [upper]. *)
Definition upper (o : pyval) : exn + string :=
  match o with
  | PStr s => inr (Str.upper s)
  | _ => inl (AttributeError "upper")
  end.

(** [int(o)] where [o] is an [int] or a [str] of digits. *)
Definition int_ (o : pyval) : exn + pyval :=
  match o with
  | PInt z => inr (PInt z)
  | PBool b => inr (PInt (if b then 1 else 0))
  | PStr s => if Str.isdigit s then inr (PInt (Str.digits_val (Str.chars s))) else inl ValueError
  | _ => inl TypeError
  end.

(** [o * n] for an integer literal [n > 0] *)
Definition times (o : pyval) (n : nat) : exn + pyval :=
  match o with
  | PBool b => inr (PInt ((if b then 1 else 0) * Z.of_nat n))
  | PInt z => inr (PInt (z * Z.of_nat n))
  | PFloat f => inr (PFloat (PrimFloat.mul f (float_of_Z (Z.of_nat n))))
  | PStr s => inr (PStr (Str.repeat_str s n))
  | PList l => inr (PList (List.concat (List.repeat l n)))
  | PNone | PDict _ | PObject _ => inl TypeError
  end.

(** [for x in o]: the items a loop visits. *)
Definition iterate (o : pyval) : exn + list pyval :=
  match o with
  | PList l => inr l
  | PDict d => inr (map fst d)
  | PStr s => inr (map (fun c => PStr (String c EmptyString)) (Str.chars s))
  | _ => inl TypeError
  end.

(** [k in o]; a value that is not a container raises. *)
Definition contains (o : pyval) (k : string) : exn + bool :=
  match Py.contains o k with
  | Some b => inr b
  | None => inl TypeError
  end.

(** One step of [traverse_obj] along a string key: a dict is looked up,
    anything else yields [None]. *)
Definition traverse_key (o : pyval) (k : string) : pyval :=
  match o with
  | PDict d => match Py.lookup d (PStr k) with Some v => v | None => PNone end
  | _ => PNone
  end.

(** What [traverse_obj] leaves out of its results: [None] and the empty
    dict. *)
Definition is_nothing (v : pyval) : bool :=
  match v with
  | PNone => true
  | PDict [] => true
  | _ => false
  end.

(** What [traverse_obj] returns for a path of keys: the value at the end of
    the path, unless it is one of those left out. *)
Definition found (v : pyval) : pyval := if is_nothing v then PNone else v.

(** [traverse_obj(o, k1, k2)] for two alternative string keys: the value of
    the first key that gives one. *)
Definition traverse_either (o : pyval) (k1 k2 : string) : pyval :=
  let first := traverse_key o k1 in
  if is_nothing first then
    let second := traverse_key o k2 in
    if is_nothing second then PNone else second
  else first.

(** [d.setdefault(k, []).append(x)] *)
Definition setdefault_append (o k x : pyval) : exn + pyval :=
  match o with
  | PDict d =>
    if negb (Py.hashable k) then inl TypeError
    else
      match Py.lookup d k with
      | None => inr (PDict (Py.set d k (PList [x])))
      | Some (PList l) => inr (PDict (Py.set d k (PList (l ++ [x]))))
      | Some _ => inl (AttributeError "append")
      end
  | _ => inl (AttributeError "setdefault")
  end.

(** [a += s] for a string [s]: a [str] is extended by [s], a [list] by the
    characters of [s]. *)
Definition iadd_str (a : pyval) (s : string) : exn + pyval :=
  match a with
  | PStr t => inr (PStr (String.append t s))
  | PList l => inr (PList (l ++ map (fun c => PStr (String c EmptyString)) (Str.chars s)))
  | _ => inl TypeError
  end.

(** An optional integer, float or string as a value. *)
Definition of_int (o : option Z) : pyval :=
  match o with Some z => PInt z | None => PNone end.
Definition of_float (o : option float) : pyval :=
  match o with Some f => PFloat f | None => PNone end.
Definition of_str (o : option string) : pyval :=
  match o with Some s => PStr s | None => PNone end.

Definition is_None (v : pyval) : bool :=
  match v with
  | PNone => true
  | _ => false
  end.

End Obj.

(* ================================================================== *)
(** ** Names *)

Module Names.

(** The names of the module [builtins]. *)
Definition builtins : list string := [
  "abs"; "aiter"; "all"; "anext"; "any"; "ascii"; "bin"; "bool"; "breakpoint";
  "bytearray"; "bytes"; "callable"; "chr"; "classmethod"; "compile"; "complex";
  "copyright"; "credits"; "delattr"; "dict"; "dir"; "divmod"; "enumerate"; "eval";
  "exec"; "exit"; "filter"; "float"; "format"; "frozenset"; "getattr"; "globals";
  "hasattr"; "hash"; "help"; "hex"; "id"; "input"; "int"; "isinstance";
  "issubclass"; "iter"; "len"; "license"; "list"; "locals"; "map"; "max";
  "memoryview"; "min"; "next"; "object"; "oct"; "open"; "ord"; "pow"; "print";
  "property"; "quit"; "range"; "repr"; "reversed"; "round"; "set"; "setattr";
  "slice"; "sorted"; "staticmethod"; "str"; "sum"; "super"; "tuple"; "type";
  "vars"; "zip"; "__import__"; "__debug__"; "__name__"; "__doc__";
  "True"; "False"; "None"; "Ellipsis"; "NotImplemented";
  "BaseException"; "BaseExceptionGroup"; "Exception"; "ExceptionGroup";
  "GeneratorExit"; "KeyboardInterrupt"; "SystemExit"; "ArithmeticError";
  "AssertionError"; "AttributeError"; "BlockingIOError"; "BrokenPipeError";
  "BufferError"; "BytesWarning"; "ChildProcessError"; "ConnectionAbortedError";
  "ConnectionError"; "ConnectionRefusedError"; "ConnectionResetError";
  "DeprecationWarning"; "EOFError"; "EncodingWarning"; "EnvironmentError";
  "FileExistsError"; "FileNotFoundError"; "FloatingPointError"; "FutureWarning";
  "IOError"; "ImportError"; "ImportWarning"; "IndentationError"; "IndexError";
  "InterruptedError"; "IsADirectoryError"; "KeyError"; "LookupError";
  "MemoryError"; "ModuleNotFoundError"; "NameError"; "NotADirectoryError";
  "NotImplementedError"; "OSError"; "OverflowError"; "PendingDeprecationWarning";
  "PermissionError"; "ProcessLookupError"; "RecursionError"; "ReferenceError";
  "ResourceWarning"; "RuntimeError"; "RuntimeWarning"; "StopAsyncIteration";
  "StopIteration"; "SyntaxError"; "SyntaxWarning"; "SystemError"; "TabError";
  "TimeoutError"; "TypeError"; "UnboundLocalError"; "UnicodeDecodeError";
  "UnicodeEncodeError"; "UnicodeError"; "UnicodeTranslateError"; "UnicodeWarning";
  "UserWarning"; "ValueError"; "Warning"; "ZeroDivisionError"].

Definition mem (name : string) (names : list string) : bool :=
  existsb (String.eqb name) names.

(** Loading a name in the body of a function.  [local_names] are the names
    the function binds (its parameters and the targets of its assignments),
    [assigned] those bound when the name is loaded, [module_names] the names
    bound at the top of the module.  A name the function binds is local; any
    other is looked up in the module, then among the builtins. *)
Definition load (local_names assigned module_names : list string) (name : string)
  : M pyval :=
  if mem name local_names then
    if mem name assigned then ret (PObject name)
    else raise (OtherError "UnboundLocalError")
  else if mem name module_names || mem name builtins then ret (PObject name)
  else raise (NameError name).

End Names.

(* ================================================================== *)
(** ** The host: what the modules call but do not define *)

(** Everything the five modules import from the host framework's utilities
    or obtain from the outside world.  The oracles of the world receive the
    log so far, so that a server may answer the same request differently
    the second time. *)
Record Host : Type := mkHost {
  (** the outcome of the HTTP helper for a page, and for a JSON document *)
  http_page : list event -> request -> exn + string;
  http_json : list event -> request -> exn + pyval;
  (** the formats and subtitles the host parses out of a manifest *)
  manifest : list event -> string -> pyval -> exn + (list pyval * pyval);
  (** [self._get_cookies(url).get(name)] *)
  cookie : list event -> string -> string -> option string;
  (** [self._gigya_login(data)] of the Gigya base class *)
  gigya_login : list event -> pyval -> exn + pyval;
  geo_verification_headers : list (string * pyval);
  (** [str(e)] of an exception, for the warning of a non-fatal failure *)
  error_text : exn -> string;
  (** [str(x)] of a float or a container *)
  repr : pyval -> string;
  (** yt_dlp.utils: each of the [..._or_none] functions and of the parsers
      returns a value of one type, or [None] *)
  int_or_none : pyval -> option Z;
  float_or_none : pyval -> Z -> option float;
  str_or_none : pyval -> option string;
  url_or_none : pyval -> option string;
  parse_duration : pyval -> option float;
  parse_iso8601 : pyval -> option Z;
  unified_timestamp : pyval -> option Z;
  urlencode_postdata : pyval -> pyval;
  json_dumps : pyval -> pyval;
  (** [self._merge_subtitles(a, b)] and [self._sort_formats(formats)] *)
  merge_subtitles : pyval -> pyval -> pyval;
  sort_formats : list pyval -> exn + list pyval;
  (** [strftime('%Y%m%d', gmtime(t))] of the C library; [gmtime(None)] is
      the current time *)
  strftime_Ymd_gmtime : option Z -> exn + string;
  (** offset from UTC, in seconds, of the machine's local time zone at a
      local wall-clock time (given in seconds as if it were UTC): what
      [time.mktime] subtracts *)
  local_utcoffset : Z -> Z;
  (** [pytz.timezone('Europe/Tallinn').utcoffset(date)] in seconds when the
      package pytz is installed, [None] when importing it fails *)
  pytz_tallinn_utcoffset : option (Z -> exn + Z)
}.

(** [str(x)] as an f-string or [%s] formats it. *)
Definition py_str (host : Host) (v : pyval) : string :=
  match v with
  | PNone => "None"
  | PBool true => "True"
  | PBool false => "False"
  | PInt z => Str.of_Z z
  | PStr s => s
  | _ => repr host v
  end.

(** The methods the extractors inherit from the base class InfoExtractor of
    the host framework (yt_dlp/extractor/common.py), which is not part of
    the excerpt.  Each is modelled from the contract the spec gives for the
    host: "match a URL against a fixed pattern and extract an identifier",
    "perform one or more HTTP fetches", failures "surfaced by raising a
    generic extraction failed condition ... optionally marked as expected",
    "geo-restriction (mapped to a dedicated signal carrying allowed
    countries)", "content not yet published (logged as a warning, not
    fatal)", "a fixed one-second pause". *)
Module IE.

Section WithHost.

Variable host : Host.

(** Modelled from the spec: [self.report_warning(msg)] of the base class;
    the message is "logged as a warning, not fatal". *)
Definition report_warning (msg : string) : M unit := emit (Warning msg).

(** Modelled from the spec: [self._sleep(seconds, video_id)] of the base
    class, the "fixed one-second pause" of the login loop. *)
Definition _sleep (seconds : Z) : M unit := emit (Sleep seconds).

(** Modelled from the spec: [cls._match_valid_url(url).group('id')] of the
    base class; "match a URL against a fixed pattern and extract an
    identifier".  The pattern is matched from the first character of the
    url, as [re.match] does. *)
Definition match_id (_VALID_URL : string) (url : string) : exn + pyval :=
  match Re.compile _VALID_URL with
  | None => inl ReError
  | Some p =>
    match Re.match_ p url with
    | None => inl (AttributeError "group")
    | Some m =>
      match find (fun x => String.eqb (fst x) "id") (Re.names p) with
      | None => inl IndexError
      | Some (_, n) =>
        inr (match Re.group m n with Some g => PStr g | None => PNone end)
      end
    end
  end.

(** Modelled from the spec: [self._match_id(url)] of the base class. *)
Definition _match_id (_VALID_URL : string) (url : string) : M pyval :=
  lift (match_id _VALID_URL url).

(** Modelled from the spec: [cls.suitable(url)] of the base class; "the
    URL-matching pattern accepts" the url. *)
Definition suitable (_VALID_URL : string) (url : string) : bool :=
  match Re.compile _VALID_URL with
  | Some p => match Re.match_ p url with Some _ => true | None => false end
  | None => false
  end.

(** Modelled from the spec: [self._download_json(url, ...)] of the base
    class; one of the "HTTP fetches", whose failure propagates "to the
    external caller". *)
Definition _download_json (r : request) : M pyval :=
  h <- history ;;
  emit (Requested r) ;;;
  lift (http_json host h r).

(** Modelled from the spec: [self._download_json(url, ..., fatal=False)] of
    the base class: a failure is logged and [False] is returned. *)
Definition _download_json_nonfatal (r : request) : M pyval :=
  h <- history ;;
  emit (Requested r) ;;;
  match http_json host h r with
  | inr v => ret v
  | inl e => report_warning (error_text host e) ;;; ret (PBool false)
  end.

(** Modelled from the spec: [self._download_webpage(url, ...)] of the base
    class. *)
Definition _download_webpage (r : request) : M string :=
  h <- history ;;
  emit (Requested r) ;;;
  lift (http_page host h r).

(** Modelled from the spec: [self._request_webpage(url, ...)] of the base
    class; the response is not read. *)
Definition _request_webpage (r : request) : M unit :=
  h <- history ;;
  emit (Requested r) ;;;
  _ <- lift (http_page host h r) ;;
  ret tt.

(** Modelled from the spec: [self._search_regex(pattern, string, name)] of
    the base class and, with [Some d], the variant called with [default=d].
    The text of the first group that took part in the match is returned; a
    pattern that is not found raises the extraction error unless there is a
    default. *)
Definition search_regex (pattern : string) (s : pyval) (name : string)
  (default : option pyval) : exn + pyval :=
  match Re.compile pattern with
  | None => inl ReError
  | Some p =>
    let found :=
      match s with
      | PNone => inr None
      | PStr t => inr (Re.search p t)
      | _ => inl TypeError
      end in
    match found with
    | inl e => inl e
    | inr (Some m) =>
      match Re.first_group p m with
      | Some g => inr (PStr g)
      | None => inl (OtherError "StopIteration")
      end
    | inr None =>
      match default with
      | Some d => inr d
      | None => inl (RegexNotFoundError name)
      end
    end
  end.

(** Modelled from the spec: [self._search_regex] as a method. *)
Definition _search_regex (pattern : string) (s : pyval) (name : string)
  (default : option pyval) : M pyval :=
  lift (search_regex pattern s name default).

(** Modelled from the spec: the manifest helpers [_extract_m3u8_formats], [_extract_f4m_formats],
    [_extract_mpd_formats_and_subtitles], ... of the base class ("the
    manifest parsing itself is delegated to the external framework"): with
    [fatal=False] a failure is logged and nothing is returned. *)
Definition _extract_manifest (kind : string) (url : pyval) (fatal : bool)
  : M (list pyval * pyval) :=
  h <- history ;;
  emit (Manifest kind url) ;;;
  match manifest host h kind url with
  | inr r => ret r
  | inl e =>
    if fatal then raise e
    else report_warning (error_text host e) ;;; ret ([], PDict [])
  end.

(** Modelled from the spec: [self.raise_geo_restricted(countries=...)] of
    the base class; "geo-restriction (mapped to a dedicated signal carrying
    allowed countries)". *)
Definition raise_geo_restricted {A} (countries : list string) : M A :=
  raise (GeoRestrictedError countries).

(** Modelled from the spec: [self.raise_login_required()] of the base class;
    the anticipated failure "login-required". *)
Definition raise_login_required {A} : M A := raise LoginRequiredError.

End WithHost.

End IE.

(* ================================================================== *)
(** ** manoto.py *)

Module ManotoTVIE.

Definition _VALID_URL : string := "https?://(?:www\.)?manototv\.com/episode/(?P<id>[0-9]+)".

(** url and info_dict['id'] of [_TEST] *)
Definition _TEST : string * string := ("https://www.manototv.com/episode/12576", "12576").

Definition api : string :=
  "https://dak1vd5vmi7x6.cloudfront.net/api/v1/publicrole/showmodule/episodedetails?id=".

(** The names bound at the top of manoto.py: its imports and its classes. *)
Definition module_names : list string :=
  ["unicode_literals"; "InfoExtractor"; "ManotoTVIE"; "ManotoTVShowIE"; "ManotoTVLiveIE"].

(** The names [ManotoTVIE._real_extract] binds: its parameters and the
    targets of its assignments. *)
Definition local_names : list string :=
  ["self"; "url"; "video_id"; "episode_json"; "details"; "series"; "season_number";
   "episode_number"; "title"; "episode_id"; "description"; "duration"; "view_count";
   "categories"; "video_url"; "thumbnail"; "formats"].

Section WithHost.

Variable host : Host.

(** The expression [ext] in [_real_extract], where every local variable but
    [formats] has been assigned. *)
Definition ext : M pyval :=
  Names.load local_names (removelast local_names) module_names "ext".

Definition _real_extract (url : string) : M pyval :=
  video_id <- IE._match_id _VALID_URL url ;;
  api_url <- lift (Obj.concat (PStr api) video_id) ;;
  episode_json <- IE._download_json host (GET api_url) ;;
  details <- lift (Obj.get_default episode_json "details" (PDict [])) ;;
  series <- lift (Obj.get details "showTitle") ;;
  season_number <- lift (Obj.get details "analyticsSeasonNumber") ;;
  season_is_digit <- lift (Obj.isdigit season_number) ;;
  let season_number := if negb season_is_digit then PInt 0 else season_number in
  episode_number <- lift (Obj.get details "episodeNumber") ;;
  episode_is_digit <- lift (Obj.isdigit episode_number) ;;
  let episode_number := if negb episode_is_digit then PInt 0 else episode_number in
  title <- lift (Obj.get details "episodeTitle") ;;
  episode_id <- lift (Obj.get details "analyticsEpisodeTitle") ;;
  description <- lift (Obj.get details "episodeDescription") ;;
  minutes <- lift (Obj.get details "durationInMinutes") ;;
  duration <- lift (Obj.times minutes 60) ;;
  view_count <- lift (Obj.get details "viewCount") ;;
  category <- lift (Obj.get details "videoCategory") ;;
  let categories := PList [category] in
  video_url <- lift (Obj.get details "videoM3u8Url") ;;
  thumbnail <- lift (Obj.get details "episodelandscapeImgIxUrl") ;;
  (* the arguments of the call are evaluated first: video_url, video_id, ext *)
  ext_arg <- ext ;;
  fs <- IE._extract_manifest host "m3u8" video_url true ;;
  let formats := PList (fst fs) in
  season_int <- lift (Obj.int_ season_number) ;;
  episode_int <- lift (Obj.int_ episode_number) ;;
  ext_val <- ext ;;
  ret (Py.dict [
    ("id", video_id);
    ("series", series);
    ("season_number", season_int);
    ("episode_number", episode_int);
    ("episode_id", episode_id);
    ("duration", duration);
    ("view_count", view_count);
    ("categories", categories);
    ("title", title);
    ("description", description);
    ("thumbnail", thumbnail);
    ("ext", ext_val);
    ("formats", formats)]).

End WithHost.

(** The episode details for which every statement before the call of
    [_extract_m3u8_formats] succeeds: [details] is an object whose season
    and episode numbers are strings and whose duration can be multiplied. *)
Definition details_well_typed (episode_json : pyval) : bool :=
  match Obj.get_default episode_json "details" (PDict []) with
  | inr (PDict d) =>
    match Py.lookup d (PStr "analyticsSeasonNumber"), Py.lookup d (PStr "episodeNumber") with
    | Some (PStr _), Some (PStr _) =>
      match Obj.times (match Py.lookup d (PStr "durationInMinutes") with
                       | Some v => v | None => PNone end) 60 with
      | inr _ => true
      | inl _ => false
      end
    | _, _ => false
    end
  | _ => false
  end.

End ManotoTVIE.

Module ManotoTVShowIE.

Definition _VALID_URL : string := "https?://(?:www\.)?manototv\.com/show/(?P<id>[0-9]+)".

Definition _TESTS : list (string * string) := [("https://www.manototv.com/show/2526", "2526")].

Definition details_api : string :=
  "https://dak1vd5vmi7x6.cloudfront.net/api/v1/publicrole/showmodule/details?id=".
Definition serieslist_api : string :=
  "https://dak1vd5vmi7x6.cloudfront.net/api/v1/publicrole/showmodule/serieslist?id=".
Definition episodelist_api : string :=
  "https://dak1vd5vmi7x6.cloudfront.net/api/v1/publicrole/showmodule/episodelist?id=".

(** ['https://www.manototv.com/episode/%s' % slide_id], given [str(slide_id)] *)
Definition episode_url (slide_id : string) : string :=
  String.append "https://www.manototv.com/episode/" slide_id.

Section WithHost.

Variable host : Host.

(** [self.url_result(url, ie=..., video_id=...)] and
    [self.playlist_result(entries, playlist_id, title, description)] of the
    base class build the "playlist wrapper" of the records; what they build
    is left to the host.  The extractor an entry is addressed to is given by
    its name. *)
Variable url_result : string -> string -> pyval -> pyval.
Variable playlist_result : list pyval -> pyval -> pyval -> pyval -> pyval.

(** One element of the comprehension [[self.url_result(...) for item in
    playlist]]. *)
Definition entry (item : pyval) : M pyval :=
  slide_id <- lift (Obj.item item "slideID") ;;
  let url := episode_url (py_str host slide_id) in
  video_id <- lift (Obj.item item "slideID") ;;
  ret (url_result url "ManotoTVIE" video_id).

Definition _real_extract (url : string) : M pyval :=
  show_id <- IE._match_id _VALID_URL url ;;
  show_url <- lift (Obj.concat (PStr details_api) show_id) ;;
  show_json <- IE._download_json host (GET show_url) ;;
  show_details <- lift (Obj.get_default show_json "details" (PDict [])) ;;
  title <- lift (Obj.get show_details "showTitle") ;;
  description <- lift (Obj.get show_details "showSynopsis") ;;
  series_url <- lift (Obj.concat (PStr serieslist_api) show_id) ;;
  series_json <- IE._download_json host (GET series_url) ;;
  series_details <- lift (Obj.get_default series_json "details" (PDict [])) ;;
  series_list <- lift (Obj.get_default series_details "list" (PList [])) ;;
  first_series <- lift (Obj.index series_list 0) ;;
  first_id <- lift (Obj.get first_series "id") ;;
  let playlist_id := py_str host first_id in
  playlist_json <- IE._download_json host
    (GET (String.append episodelist_api playlist_id)) ;;
  playlist_details <- lift (Obj.get_default playlist_json "details" (PDict [])) ;;
  playlist <- lift (Obj.get_default playlist_details "list" (PList [])) ;;
  items <- lift (Obj.iterate playlist) ;;
  entries <- map_m entry items ;;
  ret (playlist_result entries show_id title description).

End WithHost.

End ManotoTVShowIE.

Module ManotoTVLiveIE.

Definition _VALID_URL : string := "https?://(?:www\.)?manototv\.com/live/".

(** The pattern has no group [id]; the record's id is the constant 'live'. *)
Definition _TEST : string * string := ("https://www.manototv.com/live/", "live").

Section WithHost.

Variable host : Host.

(** The sibling of [ManotoTVIE._real_extract]: here [ext] is assigned
    before it is used. *)
Definition _real_extract (url : string) : M pyval :=
  let video_id := PStr "live" in
  json <- IE._download_json host
    (GET "https://dak1vd5vmi7x6.cloudfront.net/api/v1/publicrole/livemodule/details") ;;
  details <- lift (Obj.get_default json "details" (PDict [])) ;;
  video_url <- lift (Obj.get details "liveUrl") ;;
  let ext := PStr "mp4" in
  fs <- IE._extract_manifest host "m3u8" video_url true ;;
  let formats := PList (fst fs) in
  ret (Py.dict [
    ("id", video_id);
    ("title", PStr "Manoto TV Live");
    ("ext", ext);
    ("formats", formats)]).

End WithHost.

End ManotoTVLiveIE.

(* ================================================================== *)
(** ** servus.py *)

Module ServusIE.

Definition _VALID_URL : string := "(?x)
                    https?://
                        (?:www\.)?
                        (?:
                            servus\.com/(?:(?:at|de)/p/[^/]+|tv/videos)|
                            (?:servustv|pm-wissen)\.com/(?:[^/]+/)?v(?:ideos)?
                        )
                        /(?P<id>[aA]{2}-?\w+|\d+-\d+)
                    ".

(** The urls of [_TESTS], with info_dict['id'] where the test has one. *)
Definition _TESTS : list (string * option string) := [
  ("https://www.servustv.com/natur/v/aa-28bycqnh92111/", Some "AA-28BYCQNH92111");
  ("https://www.pm-wissen.com/videos/aa-24mus4g2w2112/", None);
  ("https://www.servustv.com/natur/v/aa-1xg5xwmgw2112/", None);
  ("https://www.servustv.com/natur/v/aansszcx3yi9jmlmhdc1/", None)].

(** The names bound at the top of servus.py: its imports and its class. *)
Definition module_names : list string :=
  ["InfoExtractor"; "traverse_obj"; "float_or_none"; "int_or_none"; "unified_timestamp";
   "ServusIE"].

Section WithHost.

Variable host : Host.

(** The expression [ExtractorError] in [_report_errors]. *)
Definition ExtractorError_name : M pyval :=
  Names.load ["self"; "video"; "error"; "details"] ["self"; "video"; "error"; "details"]
    module_names "ExtractorError".

Definition _report_error (video : pyval) (error : pyval) : M unit :=
  if Py.eq_str error "FSK_BLOCKED" then
    all_details <- lift (Obj.item video "playabilityErrorDetails") ;;
    details <- lift (Obj.item all_details "FSK_BLOCKED") ;;
    has_hour <- lift (Obj.contains details "minEveningHour") ;;
    if has_hour then
      _ <- ExtractorError_name ;;
      min_hour <- lift (Obj.item details "minEveningHour") ;;
      max_hour <- lift (Obj.item details "maxMorningHour") ;;
      raise (ExtractorError
               (PStr (String.append "Only playable from "
                        (String.append (py_str host min_hour)
                           (String.append ":00 to "
                              (String.append (py_str host max_hour) ":00")))))
               true NoCause)
    else ret tt
  else if Py.eq_str error "NOT_YET_AVAILABLE" then
    sunrise <- lift (Obj.get video "currentSunrise") ;;
    msg <- lift (Obj.concat (PStr "Only available after ") sunrise) ;;
    IE.report_warning msg
  else
    IE.report_warning (String.append "Not playable: " (py_str host error)).

Definition _report_errors (video : pyval) : M unit :=
  has_errors <- lift (Obj.contains video "playabilityErrors") ;;
  (if negb has_errors
   then IE.report_warning "No videoUrl, and also no information about errors"
   else ret tt) ;;;
  errors <- lift (Obj.get video "playabilityErrors") ;;
  errors <- lift (Obj.iterate errors) ;;
  for_each (_report_error video) errors.

Definition _get_description (video_id : string) : M pyval :=
  info <- IE._download_json_nonfatal host
    (GET (String.append "https://backend.servustv.com/wp-json/rbmh/v2/media_asset/aa_id/"
            (String.append video_id "?fieldset=page"))) ;;
  ret (Obj.traverse_either info "stv_long_description" "stv_short_description").

Definition _real_extract (url : string) : M pyval :=
  matched <- IE._match_id _VALID_URL url ;;
  video_id <- lift (Obj.upper matched) ;;
  video <- IE._download_json host
    (GET (String.append
       "https://api-player.redbull.com/stv/servus-tv?timeZone=Europe/Berlin&videoId=" video_id)) ;;
  has_url <- lift (Obj.contains video "videoUrl") ;;
  (if negb has_url then _report_errors video else ret tt) ;;;
  video_url <- lift (Obj.item video "videoUrl") ;;
  fs <- IE._extract_manifest host "m3u8" video_url true ;;
  let formats := PList (fst fs) in
  let subtitles := snd fs in
  season <- lift (Obj.get video "season") ;;
  season_match <- IE._search_regex "Season (\d+)" (Py.or_ season (PStr ""))
                    "season number" (Some PNone) ;;
  let season_number := Obj.of_int (int_or_none host season_match) in
  episode <- lift (Obj.get video "chapter") ;;
  episode_match <- IE._search_regex "Episode (\d+)" (Py.or_ episode (PStr ""))
                     "episode number" (Some PNone) ;;
  let episode_number := Obj.of_int (int_or_none host episode_match) in
  title <- lift (Obj.get video "title") ;;
  long_description <- _get_description video_id ;;
  description <- (if Py.truthy long_description then ret long_description
                  else lift (Obj.get video "description")) ;;
  thumbnail <- lift (Obj.get video "poster") ;;
  duration <- lift (Obj.get video "duration") ;;
  sunrise <- lift (Obj.get video "currentSunrise") ;;
  ret (Py.dict [
    ("id", PStr video_id);
    ("title", title);
    ("description", description);
    ("thumbnail", thumbnail);
    ("duration", Obj.of_float (float_or_none host duration 1));
    ("timestamp", Obj.of_int (unified_timestamp host sunrise));
    ("series", season);
    ("season", season);
    ("season_number", season_number);
    ("episode", episode);
    ("episode_number", episode_number);
    ("formats", formats);
    ("subtitles", subtitles)]).

End WithHost.

End ServusIE.

(* ================================================================== *)
(** ** vrt.py *)

Module VRTIE.

Definition _VALID_URL : string :=
  "https?://(?:www\.)?vrt\.be/vrtnu/a-z/(?:[^/]+/){2}(?P<id>[^/?#&]+)".

(** url, info_dict['id'] and info_dict['display_id'] of [_TESTS] *)
Definition _TESTS : list (string * string * string) := [
  ("https://www.vrt.be/vrtnu/a-z/de-ideale-wereld/2023-vj/de-ideale-wereld-d20230116/",
   "pbs-pub-855b00a8-6ce2-4032-ac4f-1fcf3ae78524$vid-d2243aa1-ec46-4e34-a55b-92568459906f",
   "de-ideale-wereld-d20230116")].

Definition _APIKEY : string :=
  "3_0Z2HujMtiWq_pkAjgnS2Md2E11a1AwZjYiBETtwNE-EoEHDINgtnvcAOpNgmrVGy".
Definition _REST_API_BASE_TOKEN : string :=
  "https://media-services-public.vrt.be/vualto-video-aggregator-web/rest/external/v2".
Definition _REST_API_BASE_VIDEO : string :=
  "https://media-services-public.vrt.be/media-aggregator/v2".
Definition _HLS_ENTRY_PROTOCOLS_MAP : list (string * string) :=
  [("HLS", "m3u8_native"); ("HLS_AES", "m3u8_native")].

Definition xsrf_request : request :=
  mkRequest "https://token.vrt.be/vrtnuinitlogin"
    [("provider", PStr "site"); ("destination", PStr "https://www.vrt.be/vrtnu/")] [] None.

Definition login_request (data : pyval) : request :=
  mkRequest "https://login.vrt.be/perform_login" [("client_id", PStr "vrtnu-site")] []
    (Some data).

(** The local variables of [_real_extract] that are live after the video
    JSON has been downloaded. *)
Record locals : Type := mkLocals {
  video_id : string;
  display_id : pyval;
  timestamp : option Z;
  upload_date : string;
  title : pyval;
  description : pyval;
  series : pyval;
  season : pyval;
  season_number : pyval;
  season_id : pyval;
  episode : pyval;
  episode_number : pyval;
  episode_id : pyval;
  video_info : pyval
}.

(** How one round of the retry loop ends: by [break], or at the end of the
    [except] clause, after [login_attempt += 1]. *)
Inductive loop_exit : Type :=
| Break
| Again.

(** The rounds the loop [while login_attempt <= 3] still has to go. *)
Definition attempts_left (login_attempt : Z) : nat := Z.to_nat (4 - login_attempt).
Arguments attempts_left : simpl never.

Lemma attempts_left_decreases n :
  (n <= 3)%Z -> (attempts_left (n + 1) < attempts_left n)%nat.
Proof. unfold attempts_left. lia. Qed.

Definition is_xsrf_request (e : event) : bool :=
  match e with
  | Requested r => String.eqb (req_url r) "https://token.vrt.be/vrtnuinitlogin"
  | _ => false
  end.

Definition is_login_post (e : event) : bool :=
  match e with
  | Requested r => String.eqb (req_url r) "https://login.vrt.be/perform_login"
  | _ => false
  end.

Definition count (p : event -> bool) (l : list event) : nat := List.length (filter p l).

(** What the state is after the warning and the pause of a failed round. *)
Definition after_pause (st : state) : state :=
  mkState (log st ++ [Warning "Authentication failed"; Sleep 1]) (_authenticated st).

Section WithHost.

Variable host : Host.

(** [isinstance(e.cause, compat_HTTPError) and e.cause.code == 401] *)
Definition is_401 (e : exn) : bool :=
  match e with
  | ExtractorError _ _ (HTTPError code) => (code =? 401)%Z
  | _ => false
  end.

(** The body of the [try] statement. *)
Definition login_attempt_body (auth_info : pyval) : M unit :=
  IE._request_webpage host xsrf_request ;;;
  uid <- lift (Obj.item auth_info "UID") ;;
  signature <- lift (Obj.item auth_info "UIDSignature") ;;
  timestamp <- lift (Obj.item auth_info "signatureTimestamp") ;;
  h <- history ;;
  csrf <- match cookie host h "https://login.vrt.be" "OIDCXSRF" with
          | Some value => ret (PStr value)
          | None => raise (AttributeError "value")
          end ;;
  let post_data := Py.dict [
    ("UID", uid);
    ("UIDSignature", signature);
    ("signatureTimestamp", timestamp);
    ("_csrf", csrf)] in
  IE._request_webpage host (login_request (urlencode_postdata host post_data)).

(** One round: the [try] statement with its [except] and [else] clauses. *)
Definition login_round (auth_info : pyval) : M loop_exit :=
  try_except
    (login_attempt_body auth_info ;;; ret Break)
    (fun e =>
       if is_ExtractorError e then
         if is_401 e then
           IE.report_warning "Authentication failed" ;;;
           IE._sleep 1 ;;;
           ret Again
         else raise e
       else raise e).

(** [while login_attempt <= 3: try: ... except ExtractorError as e: ...
    else: break] *)
Equations? login_loop (auth_info : pyval) (login_attempt : Z) : M unit
  by wf (attempts_left login_attempt) lt :=
login_loop auth_info login_attempt with Z_le_gt_dec login_attempt 3 := {
  | left Hle =>
      exit <- login_round auth_info ;;
      match exit with
      | Break => ret tt
      | Again => login_loop auth_info (login_attempt + 1)
      end
  | right _ => ret tt }.
Proof. apply attempts_left_decreases. exact Hle. Defined.

Definition _perform_login (username password : string) : M unit :=
  h <- history ;;
  auth_info <- lift (gigya_login host h (Py.dict [
    ("APIKey", PStr _APIKEY);
    ("targetEnv", PStr "jssdk");
    ("loginID", PStr username);
    ("password", PStr password);
    ("authMode", PStr "cookie")])) ;;
  error_details <- lift (Obj.get auth_info "errorDetails") ;;
  (if Py.truthy error_details then
     msg <- lift (Obj.concat (PStr "Unable to login: VrtNU said: ") error_details) ;;
     raise (ExtractorError (PStr msg) true NoCause)
   else ret tt) ;;;
  (* Sometimes authentication fails for no good reason, retry *)
  login_loop auth_info 1 ;;;
  set_authenticated true.

Definition is_hls (format_type : string) : bool :=
  existsb (fun kv => String.eqb (fst kv) format_type) _HLS_ENTRY_PROTOCOLS_MAP.

(** One round of [for target in video_info['targetUrls']]. *)
Definition add_target (acc : list pyval * pyval) (target : pyval)
  : M (list pyval * pyval) :=
  let '(formats, subtitles) := acc in
  url <- lift (Obj.get target "url") ;;
  type <- lift (Obj.get target "type") ;;
  let format_url := Obj.of_str (url_or_none host url) in
  match str_or_none host type with
  | None => ret acc
  | Some format_type =>
    if negb (Py.truthy format_url) || String.eqb format_type "" then ret acc
    else
      let format_type := Str.upper format_type in
      if is_hls format_type then
        fs <- IE._extract_manifest host "m3u8" format_url false ;;
        ret (formats ++ fst fs, merge_subtitles host subtitles (snd fs))
      else if String.eqb format_type "HDS" then
        fs <- IE._extract_manifest host "f4m" format_url false ;;
        ret (formats ++ fst fs, subtitles)
      else if String.eqb format_type "MPEG_DASH" then
        fs <- IE._extract_manifest host "mpd" format_url false ;;
        ret (formats ++ fst fs, merge_subtitles host subtitles (snd fs))
      else if String.eqb format_type "HSS" then
        fs <- IE._extract_manifest host "ism" format_url false ;;
        ret (formats ++ fst fs, merge_subtitles host subtitles (snd fs))
      else
        ret (formats ++ [Py.dict [("format_id", PStr format_type); ("url", format_url)]],
             subtitles)
  end.

(** One round of [for subtitle in subtitle_urls]. *)
Definition add_subtitle (subtitles : pyval) (subtitle : pyval) : M pyval :=
  subtitle_url <- lift (Obj.get subtitle "url") ;;
  if Py.truthy subtitle_url then
    type <- lift (Obj.get subtitle "type") ;;
    if Py.eq_str type "CLOSED"
    then lift (Obj.setdefault_append subtitles (PStr "nl") (Py.dict [("url", subtitle_url)]))
    else ret subtitles
  else ret subtitles.

(** [if 'title' not in video_info: ...] *)
Definition check_playable (video_info : pyval) : M unit :=
  has_title <- lift (Obj.contains video_info "title") ;;
  if negb has_title then
    code <- lift (Obj.get video_info "code") ;;
    (if Py.eq_str code "AUTHENTICATION_REQUIRED" then IE.raise_login_required
     else if Py.eq_str code "INVALID_LOCATION" then IE.raise_geo_restricted ["BE"]
     else ret tt) ;;;
    message <- lift (Obj.get video_info "message") ;;
    raise (ExtractorError (Py.or_ message code) true NoCause)
  else ret tt.

(** [_real_extract], from its first statement to the download of the video
    JSON. *)
Definition download_video_info (url : string) : M locals :=
  display_id <- IE._match_id _VALID_URL url ;;
  model_json <- IE._download_json host
    (GET (String.append (Str.strip_slash url) ".model.json")) ;;
  details <- lift (Obj.get model_json "details") ;;
  actions <- lift (Obj.get details "actions") ;;
  title <- lift (Obj.get details "title") ;;
  action <- lift (Obj.index actions 2) ;;
  episode_publication_id <- lift (Obj.get action "episodePublicationId") ;;
  action <- lift (Obj.index actions 2) ;;
  episode_video_id <- lift (Obj.get action "episodeVideoId") ;;
  let video_id := String.append (py_str host episode_publication_id)
                    (String.append "$" (py_str host episode_video_id)) in
  description <- lift (Obj.get details "description") ;;
  data <- lift (Obj.get details "data") ;;
  episode <- lift (Obj.get data "episode") ;;
  display_id <- lift (Obj.get episode "name") ;;
  on_time <- lift (Obj.get episode "onTime") ;;
  raw <- lift (Obj.get on_time "raw") ;;
  let timestamp := parse_iso8601 host raw in
  upload_date <- lift (strftime_Ymd_gmtime host timestamp) ;;
  series_info <- lift (Obj.get details "data") ;;
  program <- lift (Obj.get series_info "program") ;;
  series <- lift (Obj.get program "title") ;;
  season_obj <- lift (Obj.get series_info "season") ;;
  season_title <- lift (Obj.get season_obj "title") ;;
  season <- lift (Obj.get season_title "value") ;;
  season_obj <- lift (Obj.get series_info "season") ;;
  season_title <- lift (Obj.get season_obj "title") ;;
  season_number <- lift (Obj.get season_title "raw") ;;
  season_obj <- lift (Obj.get series_info "season") ;;
  season_id <- lift (Obj.get season_obj "id") ;;
  episode_obj <- lift (Obj.get series_info "episode") ;;
  number <- lift (Obj.get episode_obj "number") ;;
  episode <- lift (Obj.get number "value") ;;
  episode_obj <- lift (Obj.get series_info "episode") ;;
  number <- lift (Obj.get episode_obj "number") ;;
  episode_number <- lift (Obj.get number "raw") ;;
  episode_obj <- lift (Obj.get series_info "episode") ;;
  episode_id <- lift (Obj.get episode_obj "id") ;;
  authenticated <- get_authenticated ;;
  vrtnutoken <- (if authenticated then
                   token_json <- IE._download_json host (GET "https://token.vrt.be/refreshtoken") ;;
                   lift (Obj.item token_json "vrtnutoken")
                 else ret (PStr "")) ;;
  let headers := update_header (geo_verification_headers host)
                   "Content-Type" (PStr "application/json; charset=utf-8") in
  token_json <- IE._download_json host
    (mkRequest (String.append _REST_API_BASE_TOKEN "/tokens") [] headers
       (Some (json_dumps host (Py.dict [("identityToken", vrtnutoken)])))) ;;
  vrtPlayerToken <- lift (Obj.item token_json "vrtPlayerToken") ;;
  video_info <- IE._download_json host
    (mkRequest (String.append _REST_API_BASE_VIDEO (String.append "/media-items/" video_id))
       [("vrtPlayerToken", vrtPlayerToken); ("client", PStr "vrtnu-web@PROD")] [] None) ;;
  ret (mkLocals video_id display_id timestamp upload_date title description series
         season season_number season_id episode episode_number episode_id video_info).

(** [_real_extract]: the statements of [download_video_info], then the test
    of the video JSON, the formats, the subtitles and the record. *)
Definition _real_extract (url : string) : M pyval :=
  v <- download_video_info url ;;
  let video_info := video_info v in
  check_playable video_info ;;;
  targets <- lift (Obj.item video_info "targetUrls") ;;
  targets <- lift (Obj.iterate targets) ;;
  fs <- fold_m add_target targets ([], PDict []) ;;
  let '(formats, subtitles) := fs in
  subtitle_urls <- lift (Obj.get video_info "subtitleUrls") ;;
  subtitles <- match subtitle_urls with
               | PList l => fold_m add_subtitle l subtitles
               | _ => ret subtitles
               end ;;
  duration <- lift (Obj.get video_info "duration") ;;
  thumbnail <- lift (Obj.get video_info "posterImageUrl") ;;
  ret (Py.dict [
    ("id", PStr (video_id v));
    ("display_id", display_id v);
    ("timestamp", Obj.of_int (timestamp v));
    ("release_timestamp", Obj.of_int (timestamp v));
    ("upload_date", PStr (upload_date v));
    ("release_date", PStr (upload_date v));
    ("title", title v);
    ("description", description v);
    ("series", series v);
    ("season", season v);
    ("season_number", Obj.of_int (int_or_none host (season_number v)));
    ("season_id", season_id v);
    ("episode", episode v);
    ("episode_number", episode_number v);
    ("episode_id", episode_id v);
    ("channel", PStr "VRT");
    ("formats", PList formats);
    ("duration", Obj.of_float (float_or_none host duration 1000));
    ("thumbnail", thumbnail);
    ("subtitles", subtitles)]).

End WithHost.

End VRTIE.

(* ================================================================== *)
(** ** The calendar: [datetime.strptime], [timetuple], [time.mktime] *)

Module Calendar.

Local Open Scope Z_scope.

Record datetime : Type := mkDatetime {
  year : Z;
  month : Z;
  day : Z;
  hour : Z;
  minute : Z
}.

Definition is_leap (y : Z) : bool :=
  (y mod 4 =? 0) && (negb (y mod 100 =? 0) || (y mod 400 =? 0)).

Definition days_in_month (y m : Z) : Z :=
  if m =? 2 then (if is_leap y then 29 else 28)
  else if (m =? 4) || (m =? 6) || (m =? 9) || (m =? 11) then 30
  else 31.

(** Days from 1970-01-01 to the given date of the proleptic Gregorian
    calendar. *)
Definition days_from_civil (y m d : Z) : Z :=
  let y' := if m <=? 2 then y - 1 else y in
  let era := y' / 400 in
  let yoe := y' - era * 400 in
  let doy := (153 * (if m >? 2 then m - 3 else m + 9) + 2) / 5 + d - 1 in
  let doe := yoe * 365 + yoe / 4 - yoe / 100 + doy in
  era * 146097 + doe - 719468.

(** Seconds from the epoch to the wall-clock time read as UTC. *)
Definition timegm (t : datetime) : Z :=
  days_from_civil (year t) (month t) (day t) * 86400 + hour t * 3600 + minute t * 60.

(** The pattern [_strptime] builds for the format '%d.%m.%Y %H:%M'. *)
Definition format_regex : string :=
  "(?P<d>3[0-1]|[1-2]\d|0[1-9]|[1-9]| [1-9])\.(?P<m>1[0-2]|0[1-9]|[1-9])\.(?P<Y>\d\d\d\d)\s+(?P<H>2[0-3]|[0-1]\d|\d):(?P<M>[0-5]\d|\d)".

Definition number (p : Re.pattern) (m : Re.mobj) (name : string) : Z :=
  match Re.group_named p m name with
  | Some s => Str.digits_val (filter Str.is_digit (Str.chars s))
  | None => 0
  end.

(** [datetime.strptime(s, '%d.%m.%Y %H:%M')] *)
Definition strptime (s : string) : exn + datetime :=
  match Re.compile format_regex with
  | None => inl ReError
  | Some p =>
    match Re.match_ p s with
    | None => inl ValueError
    | Some m =>
      match Re.after m with
      | _ :: _ => inl ValueError          (* unconverted data remains *)
      | [] =>
        let t := mkDatetime (number p m "Y") (number p m "m") (number p m "d")
                   (number p m "H") (number p m "M") in
        if (1 <=? year t) && (day t <=? days_in_month (year t) (month t))
        then inr t
        else inl ValueError
      end
    end
  end.

(** A [timedelta], normalised. *)
Record timedelta : Type := mkTimedelta {
  days : Z;
  seconds : Z;
  microseconds : Z
}.

(** The [timedelta] of a whole number of seconds. *)
Definition timedelta_of_seconds (s : Z) : timedelta :=
  mkTimedelta (s / 86400) (s mod 86400) 0.

End Calendar.

(* ================================================================== *)
(** ** kanal2.py *)

Module Kanal2IE.

Definition SUBTITLE_DATE_RE : string := "\((\d{2}\.\d{2}\.\d{4}\s\d{2}:\d{2})\)$".

Definition _VALID_URL : string := "https?://.+\.postimees\.ee/[^?]+\?(.*?&)?id=(?P<id>\d+)".

(** url, info_dict['id'] and info_dict['timestamp'] of [_TESTS] *)
Definition _TESTS : list (string * string * Z) :=
  [("https://kanal2.postimees.ee/pluss/video/?id=40792", "40792", 1470416400%Z)].

Definition IE_NAME : string := "Kanal2".

Section WithHost.

Variable host : Host.

Definition get_title (info : pyval) : M pyval :=
  title <- lift (Obj.item info "title") ;;
  subtitle <- lift (Obj.item info "subtitle") ;;
  if Py.truthy subtitle then
    subtitle <- lift (Obj.item info "subtitle") ;;
    suffix <- lift (Obj.concat (PStr " / ") subtitle) ;;
    lift (Obj.iadd_str title suffix)
  else ret title.

Definition get_timestamp (subtitle : pyval) : M pyval :=
  if negb (Py.truthy subtitle) then ret PNone
  else
    (* Extract timestamp from:  "subtitle": "Osa 53  (05.08.2016 20:00)" *)
    found <- IE._search_regex SUBTITLE_DATE_RE subtitle "dateandtime" (Some PNone) ;;
    match found with
    | PStr text =>
      if String.eqb text "" then ret PNone
      else
        date <- lift (Calendar.strptime text) ;;
        let naive := Calendar.timegm date in
        (* time.mktime reads the time tuple in the local zone of the machine *)
        let unixtime := float_of_Z (naive - local_utcoffset host naive)%Z in
        match pytz_tallinn_utcoffset host with
        | Some utcoffset =>
          (* the time is always in this timezone *)
          offset <- lift (utcoffset naive) ;;
          let delta := Calendar.timedelta_of_seconds offset in
          ret (PFloat (PrimFloat.add unixtime (float_of_Z (Calendar.microseconds delta))))
        | None =>                                  (* except ImportError: pass *)
          ret (PFloat unixtime)
        end
    | _ => ret PNone
    end.

Definition get_session (path : pyval) : M pyval :=
  session <- IE._download_json host
    (mkRequest "https://sts.postimees.ee/session/register" []
       [("X-Original-URI", path); ("Accept", PStr "application/json")] None) ;;
  reason <- lift (Obj.item session "reason") ;;
  if negb (Py.eq_str reason "OK")
  then raise (ExtractorError (PStr (String.append IE_NAME ": Unable to obtain session"))
                false NoCause)
  else ret session.

(** One round of [for stream in ...]. *)
Definition add_stream (sid : pyval) (formats : list pyval) (stream : pyval)
  : M (list pyval) :=
  file <- lift (Obj.get stream "file") ;;
  if negb (Py.truthy file) then ret formats
  else
    file <- lift (Obj.get stream "file") ;;
    with_s <- lift (Obj.concat file (PStr "&s=")) ;;
    full <- lift (Obj.concat (PStr with_s) sid) ;;
    ret (formats ++ [Py.dict [
      ("protocol", PStr "m3u8");
      ("ext", PStr "mp4");
      ("url", Obj.of_str (url_or_none host (PStr full)))]]).

Definition get_formats (playlist : pyval) : M pyval :=
  session <- get_session
    (Obj.found (Obj.traverse_key (Obj.traverse_key playlist "data") "path")) ;;
  sid <- lift (Obj.get session "session") ;;
  let streams := Obj.found (Obj.traverse_key (Obj.traverse_key playlist "data") "streams") in
  let streams := if Obj.is_None streams then PList [] else streams in
  streams <- lift (Obj.iterate streams) ;;
  formats <- fold_m (add_stream sid) streams [] ;;
  formats <- lift (sort_formats host formats) ;;
  ret (PList formats).

Definition get_playlist (video_id : pyval) : M pyval :=
  IE._download_json host
    (mkRequest (String.append "https://kanal2.postimees.ee/player/playlist/"
                  (py_str host video_id))
       [("type", PStr "episodes")] [("X-Requested-With", PStr "XMLHttpRequest")] None).

Definition _real_extract (url : string) : M pyval :=
  video_id <- IE._match_id _VALID_URL url ;;
  playlist <- get_playlist video_id ;;
  info <- lift (Obj.get playlist "info") ;;
  title <- get_title info ;;
  let description :=
    Obj.found (Obj.traverse_key (Obj.traverse_key playlist "info") "description") in
  let webpage_url := Obj.found (Obj.traverse_key (Obj.traverse_key playlist "data") "url") in
  let thumbnail := Obj.found (Obj.traverse_key (Obj.traverse_key playlist "data") "image") in
  formats <- get_formats playlist ;;
  timestamp <- get_timestamp
    (Obj.found (Obj.traverse_key (Obj.traverse_key playlist "info") "subtitle")) ;;
  ret (Py.dict [
    ("id", video_id);
    ("title", title);
    ("description", description);
    ("webpage_url", webpage_url);
    ("thumbnail", thumbnail);
    ("formats", formats);
    ("timestamp", timestamp)]).

End WithHost.

End Kanal2IE.

(* ================================================================== *)
(** ** jtbc.py *)

Module JTBCIE.

Definition _VALID_URL : string := "(?x)
        https?://(?:
            vod\.jtbc\.co\.kr/player/(?:program|clip)
            |tv\.jtbc\.co\.kr/(?:replay|trailer|clip)/pr\d+/pm\d+
        )/(?P<id>(?:ep|vo)\d+)".

(** A test: its url, and the id, duration and release_date of its
    info_dict. *)
Record test : Type := mkTest {
  t_url : string;
  t_id : string;
  t_duration : float;
  t_release_date : string
}.

Definition _TESTS : list test := [
  mkTest "https://tv.jtbc.co.kr/replay/pr10011629/pm10067930/ep20216321/view"
    "ep20216321" 3770.0 "20231008";
  mkTest "https://vod.jtbc.co.kr/player/program/ep20216733"
    "ep20216733" 2720.0 "20231009";
  mkTest "https://vod.jtbc.co.kr/player/clip/vo10721270"
    "vo10721270" 46.0 "20231015";
  mkTest "https://tv.jtbc.co.kr/trailer/pr10010392/pm10032526/vo10720912/view"
    "vo10720912" 148.0 "20231014"].

(** The pattern of the vod id: data-vod=, a quoted group VO\d+ *)
Definition vod_pattern : string :=
  String.append "data-vod=" (String.append Str.dquote (String.append "(VO\d+)" Str.dquote)).

Definition detail_api : string := "https://now-api.jtbc.co.kr/v1/vod/detail?vodFileId=".
Definition vod_api : string := "https://api.jtbc.co.kr/vod/".

(** [lambda _, v: v['file']] as [traverse_obj] applies it: an item on which
    it raises is skipped. *)
Definition has_file (v : pyval) : bool :=
  match Obj.item v "file" with
  | inr f => Py.truthy f
  | inl _ => false
  end.

(** The branch [lambda _, v: v['file']] of a path: the items of a list, or
    the values of a dict, that pass. *)
Definition with_file (o : pyval) : list pyval :=
  match o with
  | PList l => filter has_file l
  | PDict d => filter has_file (map snd d)
  | _ => []
  end.

(** [lambda x: re.match(r'\d{8}', x.replace('.', ''))] followed by the key
    [0]: the text of the match; [None] when the function raises or does not
    match. *)
Definition release_date (x : pyval) : pyval :=
  match x with
  | PStr s =>
    match Re.compile "\d{8}" with
    | Some p =>
      match Re.match_ p (Str.remove_char "." s) with
      | Some m => PStr (Re.matched m)
      | None => PNone
      end
    | None => PNone
    end
  | _ => PNone
  end.

(** The dict a [traverse_obj] template produces: the keys whose value is
    [None] or the empty dict are left out. *)
Definition template (fields : list (string * pyval)) : list (pyval * pyval) :=
  map (fun kv => (PStr (fst kv), snd kv))
      (filter (fun kv => negb (Obj.is_nothing (snd kv))) fields).

(** The playback data on which the two loops of [_real_extract] run to
    their end: it is an object, every track with a file has a label that can
    be a key, and every HLS source with a file has a string for it. *)
Definition track_ok (sub : pyval) : bool :=
  match Obj.get_default sub "label" (PStr "und") with
  | inr label => Py.hashable label
  | inl _ => false
  end.

Definition stream_ok (stream : pyval) : bool :=
  match Obj.item stream "file" with
  | inr (PStr _) => true
  | _ => false
  end.

Definition playback_well_formed (playback_data : pyval) : bool :=
  match playback_data with
  | PDict _ =>
    forallb track_ok (with_file (Obj.traverse_key playback_data "tracks"))
    && forallb stream_ok
         (with_file (Obj.traverse_key (Obj.traverse_key playback_data "sources") "HLS"))
  | _ => false
  end.

(** All the values of a dict are lists: [setdefault(k, []).append(x)] works
    on such a dict and keeps it so. *)
Definition lists_only (d : list (pyval * pyval)) : Prop :=
  Forall (fun kv => exists l, snd kv = PList l) d.

Section WithHost.

Variable host : Host.

(** One round of [for sub in ...]. *)
Definition add_track (subtitles : pyval) (sub : pyval) : M pyval :=
  label <- lift (Obj.get_default sub "label" (PStr "und")) ;;
  file <- lift (Obj.item sub "file") ;;
  lift (Obj.setdefault_append subtitles label (Py.dict [("url", file)])).

(** One round of [for stream in ...]. *)
Definition add_stream (formats : list pyval) (stream : pyval) : M (list pyval) :=
  file <- lift (Obj.item stream "file") ;;
  m3u8_url <- match file, Re.compile "/playlist(?:_pd\d+)?\.m3u8" with
              | PStr f, Some p => ret (Re.sub p "/index.m3u8" f)
              | PStr _, None => raise ReError
              | _, _ => raise TypeError
              end ;;
  fs <- IE._extract_manifest host "m3u8" (PStr m3u8_url) false ;;
  ret (formats ++ fst fs).

Definition vod_detail (metadata : pyval) : list (pyval * pyval) :=
  let d := Obj.traverse_key metadata "vodDetail" in
  template [
    ("title", Obj.traverse_key d "vodTitleView");
    ("series", Obj.traverse_key d "programTitle");
    ("age_limit", Obj.of_int (int_or_none host (Obj.traverse_key d "watchAge")));
    ("release_date", release_date (Obj.traverse_key d "broadcastDate"));
    ("description", Obj.traverse_key d "episodeContents");
    ("thumbnail", Obj.of_str (url_or_none host (Obj.traverse_key d "imgFileUrl")))].

Definition _real_extract (url : string) : M pyval :=
  video_id <- IE._match_id _VALID_URL url ;;
  webpage <- IE._download_webpage host (GET url) ;;
  file_id <- IE._search_regex vod_pattern (PStr webpage) "vod id" None ;;
  metadata <- IE._download_json_nonfatal host
    (GET (String.append detail_api (py_str host file_id))) ;;
  playback_data <- IE._download_json host
    (GET (String.append vod_api (py_str host file_id))) ;;
  subtitles <- fold_m add_track
                 (with_file (Obj.traverse_key playback_data "tracks")) (PDict []) ;;
  formats <- fold_m add_stream
               (with_file (Obj.traverse_key (Obj.traverse_key playback_data "sources") "HLS"))
               [] ;;
  play_time <- lift (Obj.get playback_data "playTime") ;;
  ret (PDict
    (Py.update
       (Py.update [(PStr "id", video_id)] (vod_detail metadata))
       [(PStr "duration", Obj.of_float (parse_duration host play_time));
        (PStr "formats", PList formats);
        (PStr "subtitles", subtitles)])).

End WithHost.

End JTBCIE.

Module JTBCProgramIE.

Definition _VALID_URL : string :=
  "https?://(?:vod\.jtbc\.co\.kr/program|tv\.jtbc\.co\.kr/replay)/(?P<id>pr\d+)/(?:replay|pm\d+)/?(?:$|[?#])".

Definition _TESTS : list (string * string) := [
  ("https://tv.jtbc.co.kr/replay/pr10010392/pm10032710", "pr10010392");
  ("https://vod.jtbc.co.kr/program/pr10011491/replay", "pr10011491")].

Definition vod_list_api : string :=
  "https://now-api.jtbc.co.kr/v1/vodClip/programHome/programReplayVodList".

(** [f'https://vod.jtbc.co.kr/player/program/{video_id}'], given
    [str(video_id)] *)
Definition episode_url (video_id : string) : string :=
  String.append "https://vod.jtbc.co.kr/player/program/" video_id.

(** The branch [...] of a path: the items of a list, or the values of a
    dict. *)
Definition each (o : pyval) : list pyval :=
  match o with
  | PList l => l
  | PDict d => map snd d
  | _ => []
  end.

(** What [traverse_obj] leaves out of the results of a branch: [None] and
    the empty dict. *)
Definition is_nothing (v : pyval) : bool :=
  match v with
  | PNone => true
  | PDict [] => true
  | _ => false
  end.

(** [traverse_obj(vod_list, ('programReplayVodList', ..., 'episodeId'))] *)
Definition episode_ids (vod_list : pyval) : list pyval :=
  filter (fun v => negb (is_nothing v))
    (map (fun item => Obj.traverse_key item "episodeId")
       (each (Obj.traverse_key vod_list "programReplayVodList"))).

Section WithHost.

Variable host : Host.

(** [self.url_result(url, ie, video_id)] and
    [self.playlist_result(entries, playlist_id)] of the base class build the
    "playlist wrapper" of the records; what they build is left to the host.
    The extractor an entry is addressed to is given by its name. *)
Variable url_result : string -> string -> pyval -> pyval.
Variable playlist_result : list pyval -> pyval -> pyval.

Definition entry (video_id : pyval) : pyval :=
  url_result (episode_url (py_str host video_id)) "JTBCIE" video_id.

Definition _real_extract (url : string) : M pyval :=
  program_id <- IE._match_id _VALID_URL url ;;
  vod_list <- IE._download_json host
    (mkRequest vod_list_api
       [("programId", program_id); ("rowCount", PStr "10000")] [] None) ;;
  let entries := map entry (episode_ids vod_list) in
  ret (playlist_result entries program_id).

End WithHost.

End JTBCProgramIE.

(* ================================================================== *)
(** ** The documented examples *)

(** An example url of a module: the pattern of its class, the url, and the
    id of the test's info_dict when the test has one. *)
Record example : Type := mkExample {
  ex_pattern : string;
  ex_url : string;
  ex_id : option string
}.

Definition examples_of (pattern : string) (tests : list (string * string)) : list example :=
  map (fun t => mkExample pattern (fst t) (Some (snd t))) tests.

(** The examples of the classes whose record id is the text of the url. *)
Definition plain_examples : list example :=
  examples_of JTBCIE._VALID_URL
    (map (fun t => (JTBCIE.t_url t, JTBCIE.t_id t)) JTBCIE._TESTS)
  ++ examples_of JTBCProgramIE._VALID_URL JTBCProgramIE._TESTS
  ++ examples_of ManotoTVIE._VALID_URL [ManotoTVIE._TEST]
  ++ examples_of ManotoTVShowIE._VALID_URL ManotoTVShowIE._TESTS
  ++ examples_of Kanal2IE._VALID_URL (map fst Kanal2IE._TESTS).

Definition servus_examples : list example :=
  map (fun t => mkExample ServusIE._VALID_URL (fst t) (snd t)) ServusIE._TESTS.

Definition vrt_examples : list example :=
  map (fun t => mkExample VRTIE._VALID_URL (fst (fst t)) (Some (snd (fst t)))) VRTIE._TESTS.

Definition live_examples : list example :=
  examples_of ManotoTVLiveIE._VALID_URL [ManotoTVLiveIE._TEST].

Definition documented_examples : list example :=
  plain_examples ++ servus_examples ++ vrt_examples ++ live_examples.

Definition accepted (e : example) : bool := IE.suitable (ex_pattern e) (ex_url e).

(** The group [id] of the pattern captures the id the test expects. *)
Definition captures_expected_id (e : example) : bool :=
  match ex_id e with
  | None => true
  | Some id =>
    match IE.match_id (ex_pattern e) (ex_url e) with
    | inr (PStr g) => String.eqb g id
    | _ => false
    end
  end.

(* ================================================================== *)
(** ** Sample hosts

    Concrete hosts on which the extractors can be run.  The utilities are
    small stand-ins of the ones in yt_dlp.utils, enough for the sample
    responses below. *)

Module Sample.

Definition simple_int (v : pyval) : option Z :=
  match v with
  | PInt z => Some z
  | PStr s => if Str.isdigit s then Some (Str.digits_val (Str.chars s)) else None
  | _ => None
  end.

Definition simple_float (v : pyval) (scale : Z) : option float :=
  match v with
  | PInt z => Some (PrimFloat.div (float_of_Z z) (float_of_Z scale))
  | PFloat f => Some (PrimFloat.div f (float_of_Z scale))
  | _ => None
  end.

Definition simple_str (v : pyval) : option string :=
  match v with
  | PStr s => Some s
  | _ => None
  end.

(** The fields of a duration written H:MM:SS, as numbers. *)
Fixpoint clock_fields (l : list ascii) (cur : Z) : option (list Z) :=
  match l with
  | [] => Some [cur]
  | c :: l' =>
    if Ascii.eqb c ":" then option_map (cons cur) (clock_fields l' 0)
    else if Str.is_digit c then clock_fields l' (10 * cur + Str.digit_val c)
    else None
  end.

Definition clock_duration (v : pyval) : option float :=
  match v with
  | PStr s =>
    match clock_fields (Str.chars s) 0 with
    | Some fields => Some (float_of_Z (fold_left (fun acc x => (60 * acc + x)%Z) fields 0%Z))
    | None => None
    end
  | _ => None
  end.

Definition describe (e : exn) : string :=
  match e with
  | ExtractorError (PStr m) _ _ => m
  | _ => "request failed"
  end.

(** A host given by its responses; everything else is fixed. *)
Definition make
  (page : list event -> request -> exn + string)
  (json : list event -> request -> exn + pyval)
  (cookies : list (string * string))
  (auth_info : exn + pyval)
  (local_offset : Z)
  (tallinn : option (Z -> exn + Z)) : Host :=
  {| http_page := page;
     http_json := json;
     manifest := fun _ kind url =>
       inr ([Py.dict [("format_id", PStr kind); ("url", url)]], PDict []);
     cookie := fun _ _ name =>
       option_map snd (find (fun kv => String.eqb (fst kv) name) cookies);
     gigya_login := fun _ _ => auth_info;
     geo_verification_headers := [];
     error_text := describe;
     repr := fun _ => "<object>";
     int_or_none := simple_int;
     float_or_none := simple_float;
     str_or_none := simple_str;
     url_or_none := simple_str;
     parse_duration := clock_duration;
     parse_iso8601 := fun _ => None;
     unified_timestamp := fun _ => None;
     urlencode_postdata := fun v => v;
     json_dumps := fun v => v;
     merge_subtitles := fun a _ => a;
     sort_formats := fun l => inr l;
     strftime_Ymd_gmtime := fun _ => inr "19700101";
     local_utcoffset := fun _ => local_offset;
     pytz_tallinn_utcoffset := tallinn |}.

(** A host that answers every JSON request with the same document. *)
Definition always (json : pyval) : Host :=
  make (fun _ _ => inr "") (fun _ _ => inr json) [] (inr (PDict [])) 0 None.

(** A JSON object *)
Definition obj (items : list (string * pyval)) : pyval := Py.dict items.

Definition not_found : exn := ExtractorError (PStr "HTTP Error 404: Not Found") false (HTTPError 404).

(** Responses by the first characters of the url of the request. *)
Definition by_url {A} (table : list (string * A)) (h : list event) (r : request) : exn + A :=
  match find (fun kv => String.prefix (fst kv) (req_url r)) table with
  | Some (_, a) => inr a
  | None => inl not_found
  end.

(** *** manoto.py *)

Definition manoto_empty : Host := always (obj []).

Definition manoto_episode_json : pyval :=
  obj [("details", obj [
    ("showTitle", PStr "Films");
    ("analyticsSeasonNumber", PStr "");
    ("episodeNumber", PStr "");
    ("episodeTitle", PStr "Seh Mah Taatili");
    ("durationInMinutes", PInt 90);
    ("viewCount", PInt 10550);
    ("videoM3u8Url", PStr "https://cdn.example/12576/master.m3u8")])].

Definition manoto_episode : Host := always manoto_episode_json.

(** *** servus.py *)

Definition servus_url : string := "https://www.servustv.com/natur/v/aa-28bycqnh92111/".

Definition servus_not_yet_available : Host :=
  always (obj [
    ("playabilityErrors", PList [PStr "NOT_YET_AVAILABLE"]);
    ("currentSunrise", PStr "2022-06-20T19:12:13Z")]).

Definition servus_playable : Host :=
  always (obj [
    ("videoUrl", PStr "https://cdn.example/AA-28BYCQNH92111/master.m3u8");
    ("title", PStr "Klettersteige in den Alpen");
    ("season", PStr "Season 11");
    ("chapter", PStr "Episode 8 - Vie Ferrate");
    ("duration", PInt 2823)]).

(** What a run returned, for the runs that return. *)
Definition returned (m : M pyval) : pyval :=
  match result_of m with
  | inr record => record
  | inl _ => PNone
  end.

Definition servus_record : pyval := returned (ServusIE._real_extract servus_playable servus_url).

(** *** vrt.py *)

Definition vrt_url : string :=
  "https://www.vrt.be/vrtnu/a-z/de-ideale-wereld/2023-vj/de-ideale-wereld-d20230116/".

Definition unauthorized : exn :=
  ExtractorError (PStr "perform login failed") false (HTTPError 401).

Definition server_error : exn :=
  ExtractorError (PStr "perform login failed") false (HTTPError 500).

Definition auth_info : pyval :=
  obj [("UID", PStr "uid"); ("UIDSignature", PStr "sig");
       ("signatureTimestamp", PStr "1673905125")].

(** A login server that answers the k-th login POST with the k-th outcome
    of the list, and accepts any further one. *)
Definition login_server (outcomes : list (exn + string)) : Host :=
  make
    (fun h r =>
       if String.eqb (req_url r) "https://login.vrt.be/perform_login"
       then nth (VRTIE.count VRTIE.is_login_post h) outcomes (inr "")
       else inr "")
    (fun _ _ => inl not_found)
    [("OIDCXSRF", "xsrf-token")]
    (inr auth_info)
    0 None.

Definition vrt_model_json : pyval :=
  obj [("details", obj [
    ("title", PStr "Tom Waes");
    ("description", PStr "Satirisch actualiteitenmagazine met Ella Leyers.");
    ("actions", PList [obj []; obj []; obj [
       ("episodePublicationId", PStr "pbs-pub-855b00a8-6ce2-4032-ac4f-1fcf3ae78524");
       ("episodeVideoId", PStr "vid-d2243aa1-ec46-4e34-a55b-92568459906f")]]);
    ("data", obj [
       ("episode", obj [
          ("name", PStr "de-ideale-wereld-d20230116");
          ("onTime", obj [("raw", PStr "2023-01-16T22:38:45+01:00")]);
          ("number", obj [("value", PStr "Aflevering 1"); ("raw", PInt 1)]);
          ("id", PStr "1672830988861")]);
       ("program", obj [("title", PStr "De ideale wereld")]);
       ("season", obj [
          ("title", obj [("value", PStr "2023"); ("raw", PInt 2023)]);
          ("id", PStr "1672830988794")])])])].

(** A server whose answer to the request for the media item is [video_info]. *)
Definition vrt_server (model_json video_info : pyval) : Host :=
  make (fun _ _ => inr "")
    (by_url [
       ("https://www.vrt.be/", model_json);
       ("https://media-services-public.vrt.be/vualto-video-aggregator-web/",
        obj [("vrtPlayerToken", PStr "player-token")]);
       ("https://media-services-public.vrt.be/media-aggregator/", video_info)])
    [] (inr (PDict [])) 0 None.

Definition vrt_geo_blocked : pyval :=
  obj [("code", PStr "INVALID_LOCATION");
       ("message", PStr "The content is not available in your country")].

(** *** kanal2.py *)

Definition kanal2_url : string := "https://kanal2.postimees.ee/pluss/video/?id=40792".

(** The timestamp the test of kanal2.py expects. *)
Definition kanal2_expected_timestamp : Z := 1470416400.

Definition kanal2_playlist : pyval :=
  obj [
    ("info", obj [
       ("title", PStr "Aedniku aabits");
       ("subtitle", PStr "Osa 53  (05.08.2016 20:00)");
       ("description", PStr "Aedniku aabits")]);
    ("data", obj [
       ("url", PStr "https://kanal2.postimees.ee/pluss/video/?id=40792");
       ("image", PStr "https://kanal2.postimees.ee/40792.jpg");
       ("path", PStr "/40792/");
       ("streams", PList [obj [("file", PStr "https://cdn.example/40792/playlist.m3u8?x=1")]])])].

(** A playlist with the subtitle of the test, served to a machine whose
    local zone is [local_offset] seconds east of UTC. *)
Definition kanal2_server (local_offset : Z) (tallinn : option (Z -> exn + Z)) : Host :=
  make (fun _ _ => inr "")
    (by_url [
       ("https://kanal2.postimees.ee/player/playlist/", kanal2_playlist);
       ("https://sts.postimees.ee/session/register",
        obj [("reason", PStr "OK"); ("session", PStr "0123456789abcdef")])])
    [] (inr (PDict [])) local_offset tallinn.

(** Europe/Tallinn in the summer of 2016: EEST, three hours east of UTC. *)
Definition eest : Z -> exn + Z := fun _ => inr 10800%Z.

(** *** jtbc.py *)

Definition jtbc_url : string :=
  "https://tv.jtbc.co.kr/replay/pr10011629/pm10067930/ep20216321/view".

Definition jtbc_page : string :=
  String.append "<div class=player data-vod="
    (String.append Str.dquote (String.append "VO10721270" (String.append Str.dquote "></div>"))).

Definition jtbc_server : Host :=
  make (fun _ _ => inr jtbc_page)
    (by_url [
       ("https://now-api.jtbc.co.kr/v1/vod/detail",
        obj [("vodDetail", obj [
          ("vodTitleView", PStr "Strong Girl Nam-soon 2");
          ("programTitle", PStr "Strong Girl Nam-soon");
          ("watchAge", PStr "15");
          ("broadcastDate", PStr "2023.10.08");
          ("imgFileUrl", PStr "https://fs.jtbc.co.kr//joydata/20231008_163541_522_1.jpg")])]);
       ("https://api.jtbc.co.kr/vod/",
        obj [("playTime", PStr "1:02:50");
             ("sources", obj [("HLS", PList [
                obj [("file", PStr "https://cdn.example/vod/playlist_pd1080.m3u8")]])]);
             ("tracks", PList [
                obj [("file", PStr "https://cdn.example/vod/ko.vtt"); ("label", PStr "ko")]])])])
    [] (inr (PDict [])) 0 None.

End Sample.

(* ================================================================== *)
(** ** Statements of the specification that the code does not meet *)

(** The Manoto sentence as the spec words it: whenever the fetch of the episode details
    succeeds, the run ends with the unbound name. *)
Definition always_unbound_name : Prop :=
  forall host url st id episode_json,
    IE.match_id ManotoTVIE._VALID_URL url = inr (PStr id) ->
    http_json host (log st) (GET (String.append ManotoTVIE.api id)) = inr episode_json ->
    fst (ManotoTVIE._real_extract host url st) = inl (NameError "ext").

(** The sentence on url patterns as the spec words it: every documented example is accepted and the
    group [id] captures the id its test expects. *)
Definition every_example_captures_its_id : Prop :=
  forallb (fun e => accepted e && captures_expected_id e) documented_examples = true.

(* ================================================================== *)
(** ** What a run does *)

(** The behaviour of a computation, whatever the state it starts from: run
    with the authentication flag at [b], it leaves the flag as it is, adds
    to the log only events that satisfy [P], returns only values that
    satisfy [Q] and raises only exceptions that satisfy [E]. *)
Definition behaves {A} (b : bool) (P : event -> Prop) (Q : A -> Prop) (E : exn -> Prop)
  (m : M A) : Prop :=
  forall st, _authenticated st = b ->
    exists new,
      snd (m st) = mkState (log st ++ new) b
      /\ Forall P new
      /\ match fst (m st) with
         | inr a => Q a
         | inl e => E e
         end.

Definition anything {A} : A -> Prop := fun _ => True.
Definition nothing {A} : A -> Prop := fun _ => False.

(** No event at all. *)
Definition no_event (e : event) : Prop := False.

(** An event that is a warning. *)
Definition is_warning (e : event) : Prop := exists msg, e = Warning msg.

(** An exception that [except ExtractorError] does not catch. *)
Definition not_extraction_error (e : exn) : Prop := is_ExtractorError e = false.

(** A decoded JSON object. *)
Definition is_object (v : pyval) : Prop := exists d, v = PDict d.

(** ** What a pattern matches *)

Module ReSem.

Import Re.

(** The matches of a pattern, without the order in which the matcher tries
    them: [matches r s c s' c'] when [r] can consume the characters of [s]
    up to [s'], turning the captures [c] into [c']. *)
Inductive matches : regex -> list ascii -> caps -> list ascii -> caps -> Prop :=
| m_eps s c : matches Eps s c s c
| m_lit a s c : matches (Lit a) (a :: s) c s c
| m_any x s c : Ascii.eqb x Str.LF = false -> matches Any (x :: s) c s c
| m_cls neg items x s c :
    class_matches neg items x = true -> matches (Cls neg items) (x :: s) c s c
| m_seq r1 r2 s c s1 c1 s2 c2 :
    matches r1 s c s1 c1 -> matches r2 s1 c1 s2 c2 -> matches (Seq r1 r2) s c s2 c2
| m_alt_l r1 r2 s c s' c' : matches r1 s c s' c' -> matches (Alt r1 r2) s c s' c'
| m_alt_r r1 r2 s c s' c' : matches r2 s c s' c' -> matches (Alt r1 r2) s c s' c'
| m_star_stop g r s c : matches (Star g r) s c s c
| m_star_more g r s c s1 c1 s2 c2 :
    matches r s c s1 c1 -> matches (Star g r) s1 c1 s2 c2 -> matches (Star g r) s c s2 c2
| m_group n r s c s' c' :
    matches r s c s' c' ->
    matches (Group n r) s c s' ((n, firstn (List.length s - List.length s') s) :: c')
| m_eos_end c : matches Eos [] c [] c
| m_eos_newline x c : Ascii.eqb x Str.LF = true -> matches Eos [x] c [x] c.

(** The loop [run] makes for a repetition, by the rounds it may still
    make. *)
Section Loop.

Variable greedy : bool.
Variable step : list ascii -> caps -> (list ascii -> caps -> result) -> result.
Variable k : list ascii -> caps -> result.

Fixpoint star_loop (n : nat) (s : list ascii) (c : caps) : result :=
  match n with
  | O => k s c
  | S n' =>
    let again (_ : unit) :=
      step s c (fun s' c' =>
        if (List.length s' <? List.length s)%nat then star_loop n' s' c' else None) in
    if greedy then
      match again tt with
      | Some m => Some m
      | None => k s c
      end
    else
      match k s c with
      | Some m => Some m
      | None => again tt
      end
  end.

End Loop.

(** A pattern without a capturing group. *)
Fixpoint no_group (r : regex) : bool :=
  match r with
  | Seq r1 r2 | Alt r1 r2 => no_group r1 && no_group r2
  | Star _ r1 => no_group r1
  | Group _ _ => false
  | _ => true
  end.

End ReSem.

(** ** The requests of the extractors, by name *)

Module Json.

(** [d.get(k)] for the items [d] of a decoded object. *)
Definition get (d : list (pyval * pyval)) (k : string) : pyval :=
  match Py.lookup d (PStr k) with
  | Some v => v
  | None => PNone
  end.

End Json.

Module ManotoShow.

(** The slide ids the API is expected to give: a number, or its digits. *)
Definition is_episode_id (v : pyval) : bool :=
  match v with
  | PStr d => Str.isdigit d
  | PInt z => (0 <=? z)%Z
  | _ => false
  end.

(** The show JSON has details to read the title from. *)
Definition has_details (show_json : pyval) : bool :=
  match Obj.get_default show_json "details" (PDict []) with
  | inr (PDict _) => true
  | _ => false
  end.

(** The list of series is missing or empty. *)
Definition no_series (series_json : pyval) : bool :=
  match Obj.get_default series_json "details" (PDict []) with
  | inr details =>
    match Obj.get_default details "list" (PList []) with
    | inr (PList []) => true
    | _ => false
    end
  | inl _ => false
  end.

End ManotoShow.

Module ManotoLive.

Definition details_request : request :=
  GET "https://dak1vd5vmi7x6.cloudfront.net/api/v1/publicrole/livemodule/details".

End ManotoLive.

Module ServusRequests.

Definition video_request (video_id : string) : request :=
  GET (String.append
         "https://api-player.redbull.com/stv/servus-tv?timeZone=Europe/Berlin&videoId="
         video_id).

Definition description_request (video_id : string) : request :=
  GET (String.append "https://backend.servustv.com/wp-json/rbmh/v2/media_asset/aa_id/"
         (String.append video_id "?fieldset=page")).

(** [value or ''] is a text to search: the value is falsy, or a [str]. *)
Definition searchable (value : pyval) : bool :=
  match Py.or_ value (PStr "") with
  | PStr _ => true
  | _ => false
  end.

End ServusRequests.

Module Kanal2Requests.

Definition playlist_request (host : Host) (video_id : pyval) : request :=
  mkRequest (String.append "https://kanal2.postimees.ee/player/playlist/"
               (py_str host video_id))
    [("type", PStr "episodes")] [("X-Requested-With", PStr "XMLHttpRequest")] None.

Definition session_request (playlist : pyval) : request :=
  mkRequest "https://sts.postimees.ee/session/register" []
    [("X-Original-URI",
      Obj.found (Obj.traverse_key (Obj.traverse_key playlist "data") "path"));
     ("Accept", PStr "application/json")] None.

(** The error of [get_session]. *)
Definition no_session : exn :=
  ExtractorError (PStr "Kanal2: Unable to obtain session") false NoCause.

(** The files of the streams that have one. *)
Definition files (streams : list pyval) : list pyval :=
  filter Py.truthy (map (fun stream => Obj.traverse_key stream "file") streams).

(** The format of the stream whose file is [file], for the session id
    [sid]. *)
Definition stream_format (host : Host) (sid file : string) : pyval :=
  Py.dict [
    ("protocol", PStr "m3u8");
    ("ext", PStr "mp4");
    ("url", Obj.of_str (url_or_none host
                          (PStr (String.append (String.append file "&s=") sid))))].

(** [format] is the format of [file] for the session id [sid], both of
    them texts. *)
Definition is_format_of (host : Host) (sid file format : pyval) : Prop :=
  exists s f, sid = PStr s /\ file = PStr f /\ format = stream_format host s f.

End Kanal2Requests.

Module JTBCRequests.

Definition vod_list_request (program_id : pyval) : request :=
  mkRequest JTBCProgramIE.vod_list_api
    [("programId", program_id); ("rowCount", PStr "10000")] [] None.

(** An item of the replay list that carries the episode id [id]: a value
    that is neither [None] nor the empty object. *)
Definition has_episode_id (item id : pyval) : Prop :=
  Py.field item "episodeId" = Some id /\ id <> PNone /\ id <> PDict [].

End JTBCRequests.

Module VRTRequests.

Import VRTIE.

(** The data [_perform_login] passes to the Gigya login. *)
Definition login_data (username password : string) : pyval :=
  Py.dict [
    ("APIKey", PStr _APIKEY);
    ("targetEnv", PStr "jssdk");
    ("loginID", PStr username);
    ("password", PStr password);
    ("authMode", PStr "cookie")].

Definition refresh_request : request := GET "https://token.vrt.be/refreshtoken".

Definition model_request (url : string) : request :=
  GET (String.append (Str.strip_slash url) ".model.json").

(** The request for a player token made with the identity token [token]. *)
Definition token_request (host : Host) (token : pyval) : request :=
  mkRequest (String.append _REST_API_BASE_TOKEN "/tokens") []
    (update_header (geo_verification_headers host)
       "Content-Type" (PStr "application/json; charset=utf-8"))
    (Some (json_dumps host (Py.dict [("identityToken", token)]))).

Definition media_request (video_id : string) (player_token : pyval) : request :=
  mkRequest (String.append _REST_API_BASE_VIDEO (String.append "/media-items/" video_id))
    [("vrtPlayerToken", player_token); ("client", PStr "vrtnu-web@PROD")] [] None.

(** What an extraction on an instance that has not logged in may log. *)
Definition anonymous_event (host : Host) (url : string) (e : event) : Prop :=
  match e with
  | Requested r =>
    r = model_request url
    \/ r = token_request host (PStr "")
    \/ exists video_id player_token, r = media_request video_id player_token
  | Manifest _ _ => True
  | Warning _ => True
  | Sleep _ => False
  end.

End VRTRequests.

(** The log of a login whose attempts are answered one after the other. *)
Module VRTLogin.

Import VRTIE.

(** The form an attempt posts. *)
Definition post_data (host : Host) (uid signature timestamp : pyval) (csrf : string)
  : pyval :=
  urlencode_postdata host (Py.dict [
    ("UID", uid);
    ("UIDSignature", signature);
    ("signatureTimestamp", timestamp);
    ("_csrf", PStr csrf)]).

(** What an attempt logs: the XSRF request and the login POST. *)
Definition attempt (data : pyval) : list event :=
  [Requested xsrf_request; Requested (login_request data)].

(** What an attempt answered with 401 logs: the two requests, the warning
    and the pause of one second. *)
Definition failed_attempt (data : pyval) : list event :=
  attempt data ++ [Warning "Authentication failed"; Sleep 1].

Fixpoint failed_attempts (data : pyval) (k : nat) : list event :=
  match k with
  | O => []
  | S k' => failed_attempt data ++ failed_attempts data k'
  end.

(** The answer of the site to the login POST of the attempt that follows
    [k] failed ones, in a login that started with the log [before]. *)
Definition answer (host : Host) (before : list event) (data : pyval) (k : nat)
  : exn + string :=
  http_page host (before ++ failed_attempts data k ++ [Requested xsrf_request])
    (login_request data).

(** An extraction error caused by an HTTP 401. *)
Definition unauthorized (e : exn) : Prop :=
  exists msg expected, e = ExtractorError msg expected (HTTPError 401).

(** The answer is such an error. *)
Definition refused (a : exn + string) : Prop :=
  exists e, a = inl e /\ unauthorized e.

End VRTLogin.

(** ** More sample hosts *)

Module Cases.

Import Sample.

(** Stand-ins for [url_result] and [playlist_result]. *)
Definition url_entry (url ie : string) (video_id : pyval) : pyval :=
  obj [("_type", PStr "url"); ("url", PStr url); ("ie_key", PStr ie); ("id", video_id)].

Definition playlist (entries : list pyval) (id title description : pyval) : pyval :=
  obj [("_type", PStr "playlist"); ("id", id); ("title", title);
       ("description", description); ("entries", PList entries)].

Definition playlist_of (entries : list pyval) (id : pyval) : pyval :=
  playlist entries id PNone PNone.

(** *** manoto.py *)

Definition manoto_live_url : string := "https://www.manototv.com/live/".

Definition manoto_live : Host :=
  always (obj [("details", obj [("liveUrl", PStr "https://cdn.example/live/master.m3u8")])]).

Definition manoto_show_url : string := "https://www.manototv.com/show/2526".

Definition manoto_show_json : pyval :=
  obj [("details", obj [("showTitle", PStr "Films"); ("showSynopsis", PStr "Classics")])].

Definition manoto_server (series_json : pyval) : Host :=
  make (fun _ _ => inr "")
    (by_url [
       (ManotoTVShowIE.details_api, manoto_show_json);
       (ManotoTVShowIE.serieslist_api, series_json);
       (ManotoTVShowIE.episodelist_api,
        obj [("details", obj [("list", PList [
          obj [("slideID", PInt 12576)]; obj [("slideID", PStr "12577")]])])])])
    [] (inr (PDict [])) 0 None.

Definition manoto_no_series : pyval := obj [("details", obj [("list", PList [])])].

Definition manoto_one_series : pyval :=
  obj [("details", obj [("list", PList [obj [("id", PInt 7)]])])].

(** *** jtbc.py *)

Definition jtbc_program_url : string := "https://vod.jtbc.co.kr/program/pr10011491/replay".

Definition jtbc_vod_list : pyval :=
  obj [("programReplayVodList", PList [
    obj [("episodeId", PStr "ep20216733")];
    obj [("episodeId", PStr "ep20216321")]])].

Definition jtbc_program : Host := always jtbc_vod_list.

(** *** kanal2.py *)

Definition kanal2_refused : Host :=
  make (fun _ _ => inr "")
    (by_url [
       ("https://kanal2.postimees.ee/player/playlist/", kanal2_playlist);
       ("https://sts.postimees.ee/session/register",
        obj [("reason", PStr "DENIED")])])
    [] (inr (PDict [])) 0 None.

(** A subtitle whose date the pattern accepts and the calendar does not
    have. *)
Definition kanal2_february_31 : pyval := PStr "Osa 1 (31.02.2016 20:00)".

(** Streams with and without a file. *)
Definition kanal2_streams : list pyval := [
  obj [("file", PStr "https://cdn.example/40792/playlist.m3u8?x=1")];
  obj [("quality", PStr "hd")];
  obj [("file", PStr "")];
  obj [("file", PStr "https://cdn.example/40792/low.m3u8?x=1")]].

Definition kanal2_two_streams : pyval :=
  obj [("data", obj [("path", PStr "/40792/"); ("streams", PList kanal2_streams)])].

(** *** servus.py *)

Definition servus_age_blocked_json : pyval :=
  obj [("playabilityErrors", PList [PStr "FSK_BLOCKED"]);
       ("playabilityErrorDetails", obj [
          ("FSK_BLOCKED", obj [("minEveningHour", PInt 22); ("maxMorningHour", PInt 6)])])].

Definition servus_age_blocked : Host := always servus_age_blocked_json.

Definition servus_video : list (pyval * pyval) :=
  [(PStr "videoUrl", PStr "https://cdn.example/AA-28BYCQNH92111/master.m3u8");
   (PStr "title", PStr "Klettersteige in den Alpen");
   (PStr "description", PStr "Die schoensten Klettersteige");
   (PStr "season", PStr "Season 11");
   (PStr "chapter", PStr "Episode 8 - Vie Ferrate")].

(** A server that has the video and not its description. *)
Definition servus_without_description : Host :=
  make (fun _ _ => inr "")
    (by_url [("https://api-player.redbull.com/stv/servus-tv", PDict servus_video)])
    [] (inr (PDict [])) 0 None.

(** *** vrt.py *)

Definition vrt_rejected : Host :=
  make (fun _ _ => inr "") (fun _ _ => inl not_found) []
    (inr (obj [("errorDetails", PStr "invalid loginID or password")])) 0 None.

(** The form posted to the login servers of the samples. *)
Definition vrt_login_form : pyval :=
  VRTLogin.post_data (login_server []) (PStr "uid") (PStr "sig") (PStr "1673905125")
    "xsrf-token".

(** A login server that sets no cookie. *)
Definition vrt_no_cookie : Host :=
  make (fun _ _ => inr "") (fun _ _ => inl not_found) [] (inr auth_info) 0 None.

Definition vrt_targets : list pyval := [
  obj [("type", PStr "hls"); ("url", PStr "https://cdn.example/vrt/master.m3u8")];
  obj [("type", PStr "mpeg_dash"); ("url", PStr "https://cdn.example/vrt/manifest.mpd")];
  obj [("type", PStr "progressive"); ("url", PStr "https://cdn.example/vrt/video.mp4")];
  obj []].

(** A server for an instance that has logged in. *)
Definition vrt_member : Host :=
  make (fun _ _ => inr "")
    (by_url [
       ("https://token.vrt.be/refreshtoken", obj [("vrtnutoken", PStr "identity-token")]);
       ("https://www.vrt.be/", vrt_model_json);
       ("https://media-services-public.vrt.be/vualto-video-aggregator-web/",
        obj [("vrtPlayerToken", PStr "player-token")]);
       ("https://media-services-public.vrt.be/media-aggregator/", vrt_geo_blocked)])
    [] (inr (PDict [])) 0 None.

Definition logged_in : state := mkState [] true.

Definition vrt_member_locals : VRTIE.locals :=
  match fst (VRTIE.download_video_info vrt_member vrt_url logged_in) with
  | inr v => v
  | inl _ =>
    VRTIE.mkLocals "" PNone None "" PNone PNone PNone PNone PNone PNone PNone PNone PNone PNone
  end.

End Cases.

(* ================================================================== *)
(** * Properties *)

(** ** Reasoning about runs *)

Lemma bind_ok {A B} (m : M A) (f : A -> M B) st b st' :
  bind m f st = (inr b, st') ->
  exists a st1, m st = (inr a, st1) /\ f a st1 = (inr b, st').
Proof.
  unfold bind. destruct (m st) as [[e | a] st1]; intros H.
  - discriminate.
  - exists a, st1. split; [reflexivity | exact H].
Qed.

Lemma bind_err {A B} (m : M A) (f : A -> M B) st e st1 :
  m st = (inl e, st1) -> bind m f st = (inl e, st1).
Proof. unfold bind. intros ->. reflexivity. Qed.

Lemma bind_val {A B} (m : M A) (f : A -> M B) st a st1 :
  m st = (inr a, st1) -> bind m f st = f a st1.
Proof. unfold bind. intros ->. reflexivity. Qed.

Lemma lift_ok {A} (x : exn + A) st a st' :
  lift x st = (inr a, st') -> x = inr a /\ st' = st.
Proof.
  destruct x as [e | a0]; unfold lift, raise, ret; intros H; inversion H; auto.
Qed.

Lemma raise_not_ok {A} (e : exn) st (a : A) st' : raise e st = (inr a, st') -> False.
Proof. unfold raise. discriminate. Qed.

Lemma download_json_ok host r st v st' :
  IE._download_json host r st = (inr v, st') ->
  http_json host (log st) r = inr v
  /\ st' = mkState (log st ++ [Requested r]) (_authenticated st).
Proof.
  unfold IE._download_json, history, emit, bind, lift. cbn [log _authenticated].
  destruct (http_json host (log st) r) as [e | v0]; unfold raise, ret; intros H;
    inversion H; auto.
Qed.

Lemma bind_lift {A B} (x : A) (f : A -> M B) st : bind (lift (inr x)) f st = f x st.
Proof. reflexivity. Qed.

Lemma download_webpage_run host r st page :
  http_page host (log st) r = inr page ->
  IE._download_webpage host r st
  = (inr page, mkState (log st ++ [Requested r]) (_authenticated st)).
Proof.
  intros H. unfold IE._download_webpage, history, emit, bind, lift.
  cbn [log _authenticated]. rewrite H. reflexivity.
Qed.

Lemma download_json_run host r st v :
  http_json host (log st) r = inr v ->
  IE._download_json host r st
  = (inr v, mkState (log st ++ [Requested r]) (_authenticated st)).
Proof.
  intros H. unfold IE._download_json, history, emit, bind, lift.
  cbn [log _authenticated]. rewrite H. reflexivity.
Qed.

Lemma download_json_nonfatal_run host r st v :
  http_json host (log st) r = inr v ->
  IE._download_json_nonfatal host r st
  = (inr v, mkState (log st ++ [Requested r]) (_authenticated st)).
Proof.
  intros H. unfold IE._download_json_nonfatal, history, emit, bind.
  cbn [log _authenticated]. rewrite H. reflexivity.
Qed.

(** Peel the first statement off a run that returned. *)
Ltac step H :=
  let a := fresh "v" in
  let s := fresh "s" in
  let E := fresh "E" in
  apply bind_ok in H; destruct H as (a & s & E & H); cbv beta zeta in H.

(** ** manoto.py *)

Module ManotoFacts.

Import ManotoTVIE.

(** The extraction of an episode never returns a record. *)
Lemma never_returns host url st : exists e, fst (_real_extract host url st) = inl e.
Proof.
  destruct (_real_extract host url st) as [[e | r] st'] eqn:H.
  - exists e. reflexivity.
  - exfalso. unfold _real_extract in H.
    do 18 step H.
    apply bind_ok in H. destruct H as (a & s' & Hext & _).
    exact (raise_not_ok _ _ _ _ Hext).
Qed.

(** With well-typed details the run gets as far as the name [ext]. *)
Lemma reaches_ext host url st id episode_json :
  IE.match_id _VALID_URL url = inr (PStr id) ->
  http_json host (log st) (GET (String.append api id)) = inr episode_json ->
  details_well_typed episode_json = true ->
  fst (_real_extract host url st) = inl (NameError "ext").
Proof.
  intros Hid Hjson Hwt.
  unfold details_well_typed in Hwt.
  destruct (Obj.get_default episode_json "details" (PDict [])) as [e | details] eqn:Hd;
    try discriminate.
  destruct details as [ | | | | | | d | ]; try discriminate.
  destruct (Py.lookup d (PStr "analyticsSeasonNumber")) as [[ | | | | sn | | | ] |] eqn:Hs;
    try discriminate.
  destruct (Py.lookup d (PStr "episodeNumber")) as [[ | | | | en | | | ] |] eqn:He;
    try discriminate.
  destruct (Obj.times _ 60) as [e | d60] eqn:Ht; try discriminate.
  unfold _real_extract, IE._match_id. rewrite Hid.
  unfold IE._download_json, history, emit, bind, lift, ret, raise, Obj.concat, ext.
  cbn [log _authenticated]. rewrite Hjson, Hd.
  unfold Obj.get, Obj.isdigit. rewrite Hs, He, Ht. reflexivity.
Qed.

End ManotoFacts.

(** C4 (counterexample): the fetch succeeds with an object that has no
    season number; the run stops at [season_number.isdigit()] with an
    AttributeError and never gets to [ext]. *)
Lemma manoto_missing_season_stops_before_ext : ~ always_unbound_name.
Proof.
  intros H.
  specialize (H Sample.manoto_empty (fst ManotoTVIE._TEST) initial "12576" (Sample.obj [])).
  assert (E : fst (ManotoTVIE._real_extract Sample.manoto_empty (fst ManotoTVIE._TEST) initial)
              = inl (AttributeError "isdigit")) by (vm_compute; reflexivity).
  rewrite E in H. discriminate H; vm_compute; reflexivity.
Qed.

(** C4 (amended): for every episode url whose details are fetched, the
    extraction never returns a record; and when the details are well typed
    (season and episode numbers are strings, the duration can be multiplied)
    the run reaches [ext] and ends with NameError. *)
Theorem manoto_ext_is_unbound host url st id episode_json :
  IE.match_id ManotoTVIE._VALID_URL url = inr (PStr id) ->
  http_json host (log st) (GET (String.append ManotoTVIE.api id)) = inr episode_json ->
  (exists e, fst (ManotoTVIE._real_extract host url st) = inl e) /\
  (ManotoTVIE.details_well_typed episode_json = true ->
   fst (ManotoTVIE._real_extract host url st) = inl (NameError "ext")).
Proof.
  intros Hid Hjson. split.
  - apply ManotoFacts.never_returns.
  - intros Hwt. eapply ManotoFacts.reaches_ext; eassumption.
Qed.

Lemma manoto_ext_is_unbound_witness :
  fst (ManotoTVIE._real_extract Sample.manoto_episode (fst ManotoTVIE._TEST) initial)
  = inl (NameError "ext").
Proof.
  apply (manoto_ext_is_unbound Sample.manoto_episode (fst ManotoTVIE._TEST) initial "12576"
           Sample.manoto_episode_json).
  - vm_compute. reflexivity.
  - reflexivity.
  - vm_compute. reflexivity.
Defined.

(** ** The url patterns *)

(** C9 (counterexample): the VRT test expects the id built from the
    publication and video ids of the page's JSON, while the group [id] of
    the url is the last path segment (the test's display_id); the Servus
    test expects the id in upper case. *)
Lemma vrt_example_id_is_not_in_the_url : ~ every_example_captures_its_id.
Proof.
  unfold every_example_captures_its_id.
  assert (E : forallb (fun e => accepted e && captures_expected_id e) documented_examples
              = false) by (vm_compute; reflexivity).
  rewrite E. discriminate.
Qed.

(** C9 (amended): every documented example url is accepted by the pattern
    of its class.  The group [id] captures the id the test expects for the
    JTBC, JTBC program, Manoto episode, Manoto show and Kanal2 examples; for
    the Servus example it captures the lower-case text of the url, whose
    upper case is the expected id; for the VRT example it captures the
    test's display_id; the Manoto live pattern has no group [id]. *)
Theorem valid_url_accepts_documented_examples :
  forallb accepted documented_examples = true /\
  forallb captures_expected_id plain_examples = true /\
  IE.match_id JTBCIE._VALID_URL Sample.jtbc_url = inr (PStr "ep20216321") /\
  IE.match_id ManotoTVIE._VALID_URL (fst ManotoTVIE._TEST) = inr (PStr "12576") /\
  (IE.match_id ServusIE._VALID_URL Sample.servus_url = inr (PStr "aa-28bycqnh92111") /\
   map ex_id servus_examples
   = [Some (Str.upper "aa-28bycqnh92111"); None; None; None]) /\
  map (fun t => IE.match_id VRTIE._VALID_URL (fst (fst t))) VRTIE._TESTS
  = map (fun t => inr (PStr (snd t))) VRTIE._TESTS /\
  IE.match_id ManotoTVLiveIE._VALID_URL (fst ManotoTVLiveIE._TEST) = inl IndexError.
Proof.
  repeat split; vm_compute; reflexivity.
Qed.

(** ** servus.py *)

Module ServusFacts.

Import ServusIE.

(** A video object without 'videoUrl' never yields a record: whatever
    [_report_errors] does, [video['videoUrl']] raises after it. *)
Lemma no_videoUrl_never_returns host url st id video :
  IE.match_id _VALID_URL url = inr (PStr id) ->
  http_json host (log st)
    (GET (String.append
       "https://api-player.redbull.com/stv/servus-tv?timeZone=Europe/Berlin&videoId="
       (Str.upper id))) = inr video ->
  Py.contains video "videoUrl" = Some false ->
  exists e, fst (_real_extract host url st) = inl e.
Proof.
  intros Hid Hjson Hno.
  destruct (_real_extract host url st) as [[e | r] st'] eqn:H.
  - exists e. reflexivity.
  - exfalso. unfold _real_extract in H.
    step H. apply lift_ok in E. destruct E as [E ->].
    rewrite Hid in E. injection E as <-.
    step H. apply lift_ok in E. destruct E as [E ->].
    injection E as <-.
    step H. apply download_json_ok in E. destruct E as [E _].
    rewrite Hjson in E. injection E as <-.
    do 2 step H. step H. apply lift_ok in E1. destruct E1 as [E1 _].
    unfold Py.contains in Hno. unfold Obj.item in E1.
    destruct video as [ | | | | text | items | d | obj]; try discriminate E1.
    destruct (Py.lookup d (PStr "videoUrl")); [discriminate Hno | discriminate E1].
Qed.

(** The record's id is the upper case of what the url pattern captured. *)
Lemma id_is_upper host url st record :
  fst (_real_extract host url st) = inr record ->
  exists g, IE.match_id _VALID_URL url = inr (PStr g)
            /\ Py.field record "id" = Some (PStr (Str.upper g)).
Proof.
  intros Hrun.
  destruct (_real_extract host url st) as [res st'] eqn:H. simpl in Hrun. subst res.
  unfold _real_extract in H.
  step H. apply lift_ok in E. destruct E as [E _].
  step H. apply lift_ok in E0. destruct E0 as [E0 _].
  destruct v as [ | | | | g | | | ]; try discriminate E0.
  injection E0 as <-.
  do 15 step H.
  unfold ret in H. injection H as <- _.
  exists g. split; [exact E | reflexivity].
Qed.

End ServusFacts.

(** C3 (the code at the failing input): the video JSON has no 'videoUrl' and
    reports NOT_YET_AVAILABLE.  The warning is logged, and then
    [video['videoUrl']] raises KeyError, which nothing catches. *)
Theorem servus_not_yet_available_raises_KeyError :
  result_of (ServusIE._real_extract Sample.servus_not_yet_available Sample.servus_url)
  = inl (KeyError (PStr "videoUrl")) /\
  warnings (log_of (ServusIE._real_extract Sample.servus_not_yet_available Sample.servus_url))
  = ["Only available after 2022-06-20T19:12:13Z"].
Proof.
  split; vm_compute; reflexivity.
Qed.

(** C10: whenever the Servus extractor returns a record, the record's id is
    the identifier captured from the url converted to upper case; for the
    documented url the captured 'aa-28bycqnh92111' gives the record id
    'AA-28BYCQNH92111', which differs from the text of the url. *)
Theorem servus_id_is_upper_case host url st record :
  fst (ServusIE._real_extract host url st) = inr record ->
  (exists g, IE.match_id ServusIE._VALID_URL url = inr (PStr g)
             /\ Py.field record "id" = Some (PStr (Str.upper g))) /\
  (url = Sample.servus_url ->
   Py.field record "id" = Some (PStr "AA-28BYCQNH92111")
   /\ IE.match_id ServusIE._VALID_URL url = inr (PStr "aa-28bycqnh92111")
   /\ "AA-28BYCQNH92111" <> "aa-28bycqnh92111").
Proof.
  intros Hrun. split.
  - eapply ServusFacts.id_is_upper; eassumption.
  - intros ->.
    destruct (ServusFacts.id_is_upper _ _ _ _ Hrun) as (g & Hg & Hid).
    assert (E : IE.match_id ServusIE._VALID_URL Sample.servus_url
                = inr (PStr "aa-28bycqnh92111")) by (vm_compute; reflexivity).
    rewrite E in Hg. injection Hg as <-.
    split; [exact Hid | split; [exact E | discriminate]].
Qed.

Lemma servus_id_is_upper_case_witness :
  fst (ServusIE._real_extract Sample.servus_playable Sample.servus_url initial)
  = inr Sample.servus_record
  /\ Py.field Sample.servus_record "id" = Some (PStr "AA-28BYCQNH92111").
Proof.
  assert (Hrun : fst (ServusIE._real_extract Sample.servus_playable Sample.servus_url initial)
                 = inr Sample.servus_record) by (vm_compute; reflexivity).
  split; [exact Hrun |].
  exact (proj1 (proj2 (servus_id_is_upper_case Sample.servus_playable Sample.servus_url
                         initial Sample.servus_record Hrun) eq_refl)).
Defined.

(** ** vrt.py: the login *)

Module VRTFacts.

Import VRTIE.

Lemma is_401_is_ExtractorError e : is_401 e = true -> is_ExtractorError e = true.
Proof. destruct e; simpl; congruence. Qed.

(** The loop, one round unfolded. *)
Lemma loop_unfold host auth_info n :
  login_loop host auth_info n =
  if (n <=? 3)%Z then
    bind (login_round host auth_info)
      (fun exit => match exit with
                   | Break => ret tt
                   | Again => login_loop host auth_info (n + 1)
                   end)
  else ret tt.
Proof.
  rewrite login_loop_equation_1. unfold login_loop_unfold_clause_1.
  destruct (Z_le_gt_dec n 3); destruct (Z.leb_spec n 3); try lia; reflexivity.
Qed.

Lemma round_ok host auth_info st st2 :
  login_attempt_body host auth_info st = (inr tt, st2) ->
  login_round host auth_info st = (inr Break, st2).
Proof.
  intros H. unfold login_round, try_except, bind. rewrite H. reflexivity.
Qed.

Lemma round_error host auth_info st st2 e :
  login_attempt_body host auth_info st = (inl e, st2) ->
  is_401 e = false ->
  login_round host auth_info st = (inl e, st2).
Proof.
  intros H He. unfold login_round, try_except, bind. rewrite H, He.
  destruct (is_ExtractorError e); reflexivity.
Qed.

Lemma round_401 host auth_info st st2 e :
  login_attempt_body host auth_info st = (inl e, st2) ->
  is_401 e = true ->
  login_round host auth_info st = (inr Again, after_pause st2).
Proof.
  intros H He. unfold login_round, try_except, bind at 1. rewrite H, He.
  rewrite (is_401_is_ExtractorError _ He).
  unfold after_pause, IE.report_warning, IE._sleep, emit, bind, ret.
  cbn [log _authenticated]. rewrite <- app_assoc. reflexivity.
Qed.

(** One round sends the XSRF request once and the login POST at most once,
    and does not pause. *)
Lemma body_trace host auth_info st :
  exists evs res,
    login_attempt_body host auth_info st
    = (res, mkState (log st ++ evs) (_authenticated st))
    /\ count is_xsrf_request evs = 1%nat
    /\ (count is_login_post evs <= 1)%nat
    /\ sleeps evs = [].
Proof.
  unfold login_attempt_body, IE._request_webpage, history, emit, bind, lift.
  cbn [log _authenticated].
  destruct (http_page host (log st) xsrf_request) as [e | page].
  { exists [Requested xsrf_request]. eexists. repeat split. auto. }
  unfold ret at 1 2.
  destruct (Obj.item auth_info "UID") as [e | uid].
  { exists [Requested xsrf_request]. eexists. repeat split. auto. }
  unfold ret at 1.
  destruct (Obj.item auth_info "UIDSignature") as [e | sig].
  { exists [Requested xsrf_request]. eexists. repeat split. auto. }
  unfold ret at 1.
  destruct (Obj.item auth_info "signatureTimestamp") as [e | ts].
  { exists [Requested xsrf_request]. eexists. repeat split. auto. }
  unfold ret at 1.
  destruct (cookie host _ "https://login.vrt.be" "OIDCXSRF") as [value |].
  2:{ exists [Requested xsrf_request]. eexists. repeat split. auto. }
  unfold ret at 1. cbn [log _authenticated].
  match goal with
  | |- context [Requested (login_request ?d)] =>
    exists [Requested xsrf_request; Requested (login_request d)]
  end.
  rewrite <- app_assoc. cbn [app].
  match goal with
  | |- context [http_page host ?h ?r] => destruct (http_page host h r) as [e | page']
  end; eexists; repeat split; auto.
Qed.

(** When every attempt is answered with 401, the loop gives up without
    raising. *)
Lemma all_401_returns host auth_info k : forall n st,
  (attempts_left n <= k)%nat ->
  (forall s, exists e s', login_attempt_body host auth_info s = (inl e, s')
                          /\ is_401 e = true) ->
  fst (login_loop host auth_info n st) = inr tt.
Proof.
  induction k as [| k IH]; intros n st Hk Hall; rewrite loop_unfold;
    destruct (Z.leb_spec n 3) as [Hle | Hgt]; try reflexivity.
  - unfold attempts_left in Hk. lia.
  - destruct (Hall st) as (e & s' & Hbody & He).
    rewrite (bind_val _ _ _ _ _ (round_401 _ _ _ _ _ Hbody He)).
    apply IH; [| exact Hall].
    pose proof (attempts_left_decreases n Hle). lia.
Qed.

End VRTFacts.

(** The attempts of a login, against a site that answers the XSRF request
    and sets the cookie. *)
Module VRTRetry.

Import VRTIE VRTFacts VRTLogin.

Section Site.

Variable host : Host.
Variables (auth_info uid signature timestamp : pyval) (csrf : string).

Hypothesis Huid : Py.field auth_info "UID" = Some uid.
Hypothesis Hsignature : Py.field auth_info "UIDSignature" = Some signature.
Hypothesis Htimestamp : Py.field auth_info "signatureTimestamp" = Some timestamp.
Hypothesis Hxsrf : forall h, exists page, http_page host h xsrf_request = inr page.
Hypothesis Hcookie : forall h, cookie host h "https://login.vrt.be" "OIDCXSRF" = Some csrf.

Let data : pyval := post_data host uid signature timestamp csrf.

(** One attempt: both requests are made, and the attempt ends as the login
    POST does. *)
Lemma attempt_run st :
  login_attempt_body host auth_info st
  = (match http_page host (log st ++ [Requested xsrf_request]) (login_request data) with
     | inr _ => inr tt
     | inl e => inl e
     end,
     mkState (log st ++ attempt data) (_authenticated st)).
Proof.
  unfold login_attempt_body, IE._request_webpage, history, emit, bind, lift.
  cbn [log _authenticated].
  destruct (Hxsrf (log st)) as [page ->]. unfold ret at 1 2.
  destruct auth_info as [ | | | | | | d | ]; try discriminate Huid.
  cbn [Py.field] in Huid, Hsignature, Htimestamp. cbn [Obj.item].
  rewrite Huid, Hsignature, Htimestamp. unfold ret at 1 2 3.
  cbn [log]. rewrite Hcookie. unfold ret at 1. cbn [log _authenticated].
  fold (post_data host uid signature timestamp csrf). fold data.
  unfold attempt. rewrite <- app_assoc. cbn [app].
  destruct (http_page host (log st ++ [Requested xsrf_request]) (login_request data));
    reflexivity.
Qed.

Lemma unauthorized_is_401 e : unauthorized e -> is_401 e = true.
Proof. intros (msg & expected & ->). reflexivity. Qed.

Lemma not_unauthorized e : ~ unauthorized e -> is_401 e = false.
Proof.
  intros H. destruct e as [msg expected [| code |] | | | | | | | | | | |]; try reflexivity.
  cbn. destruct (Z.eqb_spec code 401) as [-> |]; [| reflexivity].
  exfalso. apply H. exists msg, expected. reflexivity.
Qed.

(** The loop after [k] attempts answered with 401: it is at the attempt
    [n + k], and has logged [k] failed attempts. *)
Lemma loop_after_failures k : forall n st,
  (n + Z.of_nat k <= 4)%Z ->
  (forall j, (j < k)%nat -> refused (answer host (log st) data j)) ->
  login_loop host auth_info n st
  = login_loop host auth_info (n + Z.of_nat k)
      (mkState (log st ++ failed_attempts data k) (_authenticated st)).
Proof.
  induction k as [| k IH]; intros n st Hn Hrefused.
  - cbn [failed_attempts Z.of_nat]. rewrite Z.add_0_r, app_nil_r. destruct st; reflexivity.
  - rewrite loop_unfold. destruct (Z.leb_spec n 3) as [_ | Hgt]; [| lia].
    destruct (Hrefused 0%nat (Nat.lt_0_succ k)) as (e & Hanswer & He).
    unfold answer in Hanswer. cbn [failed_attempts app] in Hanswer.
    pose proof (attempt_run st) as Hbody. rewrite Hanswer in Hbody.
    rewrite (bind_val _ _ _ _ _ (round_401 _ _ _ _ _ Hbody (unauthorized_is_401 _ He))).
    rewrite IH.
    + unfold after_pause. cbn [log _authenticated failed_attempts].
      unfold failed_attempt. rewrite <- !app_assoc.
      replace (n + 1 + Z.of_nat k)%Z with (n + Z.of_nat (S k))%Z by lia. reflexivity.
    + lia.
    + intros j Hj. specialize (Hrefused (S j) (proj1 (Nat.succ_lt_mono j k) Hj)).
      unfold answer in *. unfold after_pause. cbn [log _authenticated failed_attempts] in *.
      unfold failed_attempt in Hrefused. rewrite <- !app_assoc in *. exact Hrefused.
Qed.

End Site.

End VRTRetry.

(** C5: a login against a site that answers the XSRF request and sets the
    OIDCXSRF cookie.  The login POST is repeated while it is answered with
    HTTP 401, up to three times, and each attempt answered with 401 is
    followed by the warning and a pause of one second, so that there is such
    a pause between any two consecutive attempts.  When the POST of the
    attempt after k < 3 refused ones succeeds, the login returns at once:
    no further request, no further pause.  When it fails with an error that
    is not caused by a 401, that error is raised at once and the instance is
    not marked as authenticated.  After three refused attempts there is no
    fourth one.  In each case the log of the login is exactly the requests,
    warnings and pauses of these attempts. *)
Theorem vrt_login_retries_on_401 host username password st auth_info uid signature
  timestamp csrf :
  gigya_login host (log st) (VRTRequests.login_data username password) = inr auth_info ->
  (forall details, Py.field auth_info "errorDetails" = Some details ->
                   Py.truthy details = false) ->
  Py.field auth_info "UID" = Some uid ->
  Py.field auth_info "UIDSignature" = Some signature ->
  Py.field auth_info "signatureTimestamp" = Some timestamp ->
  (forall h, exists page, http_page host h VRTIE.xsrf_request = inr page) ->
  (forall h, cookie host h "https://login.vrt.be" "OIDCXSRF" = Some csrf) ->
  let data := VRTLogin.post_data host uid signature timestamp csrf in
  let answer := VRTLogin.answer host (log st) data in
  let run := VRTIE._perform_login host username password st in
  (forall k page,
      (k < 3)%nat ->
      (forall j, (j < k)%nat -> VRTLogin.refused (answer j)) ->
      answer k = inr page ->
      run = (inr tt,
             mkState (log st ++ VRTLogin.failed_attempts data k ++ VRTLogin.attempt data)
               true)) /\
  (forall k e,
      (k < 3)%nat ->
      (forall j, (j < k)%nat -> VRTLogin.refused (answer j)) ->
      answer k = inl e ->
      ~ VRTLogin.unauthorized e ->
      run = (inl e,
             mkState (log st ++ VRTLogin.failed_attempts data k ++ VRTLogin.attempt data)
               (_authenticated st))) /\
  ((forall j, (j < 3)%nat -> VRTLogin.refused (answer j)) ->
   run = (inr tt, mkState (log st ++ VRTLogin.failed_attempts data 3) true)).
Proof.
  intros Hgigya Hdetails Huid Hsignature Htimestamp Hxsrf Hcookie data answer run.
  assert (Hrun : run = bind (VRTIE.login_loop host auth_info 1)
                         (fun _ => set_authenticated true) st).
  { subst run. unfold VRTIE._perform_login, history. unfold bind at 1.
    fold (VRTRequests.login_data username password). rewrite Hgigya, bind_lift.
    destruct auth_info as [ | | | | | | d | ]; try discriminate Huid.
    cbn [Obj.get Py.field] in *. rewrite bind_lift.
    destruct (Py.lookup d (PStr "errorDetails")) as [details |].
    - rewrite (Hdetails details eq_refl). reflexivity.
    - reflexivity. }
  rewrite Hrun. clear Hrun run.
  pose proof (VRTRetry.loop_after_failures host auth_info uid signature timestamp csrf
                Huid Hsignature Htimestamp Hxsrf Hcookie) as Hloop.
  pose proof (VRTRetry.attempt_run host auth_info uid signature timestamp csrf
                Huid Hsignature Htimestamp Hxsrf Hcookie) as Hbody.
  fold data in Hloop, Hbody.
  split; [| split].
  - intros k page Hk Hrefused Hanswer. unfold bind at 1.
    rewrite (Hloop k 1%Z st) by (assumption || lia).
    rewrite VRTFacts.loop_unfold. destruct (Z.leb_spec (1 + Z.of_nat k) 3); [| lia].
    match goal with
    | |- context [VRTIE.login_round host auth_info] =>
      specialize (Hbody (mkState (log st ++ VRTLogin.failed_attempts data k)
                           (_authenticated st)))
    end.
    cbn [log _authenticated] in Hbody. rewrite <- app_assoc in Hbody.
    subst answer. unfold VRTLogin.answer in Hanswer. rewrite Hanswer in Hbody.
    rewrite (bind_val _ _ _ _ _ (VRTFacts.round_ok _ _ _ _ Hbody)).
    unfold ret, set_authenticated. cbn [log]. rewrite <- app_assoc. reflexivity.
  - intros k e Hk Hrefused Hanswer He. unfold bind at 1.
    rewrite (Hloop k 1%Z st) by (assumption || lia).
    rewrite VRTFacts.loop_unfold. destruct (Z.leb_spec (1 + Z.of_nat k) 3); [| lia].
    specialize (Hbody (mkState (log st ++ VRTLogin.failed_attempts data k)
                         (_authenticated st))).
    cbn [log _authenticated] in Hbody. rewrite <- app_assoc in Hbody.
    subst answer. unfold VRTLogin.answer in Hanswer. rewrite Hanswer in Hbody.
    rewrite (bind_err _ _ _ _ _
               (VRTFacts.round_error _ _ _ _ _ Hbody (VRTRetry.not_unauthorized _ He))).
    cbn [log _authenticated]. rewrite <- app_assoc. reflexivity.
  - intros Hrefused. unfold bind at 1.
    rewrite (Hloop 3%nat 1%Z st) by (assumption || lia).
    rewrite VRTFacts.loop_unfold. reflexivity.
Qed.

Lemma vrt_login_retries_on_401_witness :
  VRTIE._perform_login (Sample.login_server [inl Sample.unauthorized; inr "welcome"])
    "user" "password" initial
  = (inr tt,
     mkState (log initial ++ VRTLogin.failed_attempts Cases.vrt_login_form 1
                          ++ VRTLogin.attempt Cases.vrt_login_form) true)
  /\ VRTIE._perform_login
       (Sample.login_server [inl Sample.unauthorized; inl Sample.unauthorized;
                             inl Sample.server_error])
       "user" "password" initial
     = (inl Sample.server_error,
        mkState (log initial ++ VRTLogin.failed_attempts Cases.vrt_login_form 2
                             ++ VRTLogin.attempt Cases.vrt_login_form)
          (_authenticated initial))
  /\ VRTIE._perform_login
       (Sample.login_server [inl Sample.unauthorized; inl Sample.unauthorized;
                             inl Sample.unauthorized])
       "user" "password" initial
     = (inr tt,
        mkState (log initial ++ VRTLogin.failed_attempts Cases.vrt_login_form 3) true).
Proof.
  assert (Hdetails : forall details,
             Py.field Sample.auth_info "errorDetails" = Some details ->
             Py.truthy details = false)
    by (intros details H; discriminate H).
  assert (Hrefused : forall outcomes j,
             nth j outcomes (inr "") = inl Sample.unauthorized ->
             VRTLogin.refused (nth j outcomes (inr ""))).
  { intros outcomes j ->. exists Sample.unauthorized. split; [reflexivity |].
    eexists. eexists. reflexivity. }
  pose proof (fun outcomes =>
    vrt_login_retries_on_401 (Sample.login_server outcomes) "user" "password" initial
      Sample.auth_info (PStr "uid") (PStr "sig") (PStr "1673905125") "xsrf-token"
      eq_refl Hdetails eq_refl eq_refl eq_refl
      (fun h => ex_intro _ "" eq_refl) (fun h => eq_refl)) as site.
  cbv zeta in site. cbv zeta. split; [| split].
  - apply (proj1 (site [inl Sample.unauthorized; inr "welcome"])) with (k := 1%nat)
      (page := "welcome").
    + lia.
    + intros [| j] Hj; [| lia].
      apply (Hrefused [inl Sample.unauthorized; inr "welcome"] 0%nat). reflexivity.
    + reflexivity.
  - apply (proj1 (proj2 (site [inl Sample.unauthorized; inl Sample.unauthorized;
                               inl Sample.server_error]))) with (k := 2%nat).
    + lia.
    + intros [| [| j]] Hj; [| | lia].
      * apply (Hrefused [inl Sample.unauthorized; inl Sample.unauthorized;
                         inl Sample.server_error] 0%nat). reflexivity.
      * apply (Hrefused [inl Sample.unauthorized; inl Sample.unauthorized;
                         inl Sample.server_error] 1%nat). reflexivity.
    + reflexivity.
    + intros (msg & expected & H). discriminate H.
  - apply (proj2 (proj2 (site [inl Sample.unauthorized; inl Sample.unauthorized;
                               inl Sample.unauthorized]))).
    intros [| [| [| j]]] Hj; [| | | lia].
    + apply (Hrefused [inl Sample.unauthorized; inl Sample.unauthorized;
                       inl Sample.unauthorized] 0%nat). reflexivity.
    + apply (Hrefused [inl Sample.unauthorized; inl Sample.unauthorized;
                       inl Sample.unauthorized] 1%nat). reflexivity.
    + apply (Hrefused [inl Sample.unauthorized; inl Sample.unauthorized;
                       inl Sample.unauthorized] 2%nat). reflexivity.
Defined.

(** C2 (the code at the failing input): every login POST is answered with
    HTTP 401.  After the third attempt the loop ends, nothing is raised,
    [_perform_login] returns and the instance is marked as authenticated;
    the failure only shows as three warnings. *)
Theorem vrt_login_failure_is_swallowed :
  let host := Sample.login_server
                [inl Sample.unauthorized; inl Sample.unauthorized; inl Sample.unauthorized] in
  let run := VRTIE._perform_login host "user" "password" initial in
  fst run = inr tt
  /\ _authenticated (snd run) = true
  /\ VRTIE.count VRTIE.is_login_post (log (snd run)) = 3%nat
  /\ warnings (log (snd run))
     = ["Authentication failed"; "Authentication failed"; "Authentication failed"]
  /\ sleeps (log (snd run)) = [1%Z; 1%Z; 1%Z].
Proof.
  repeat split; vm_compute; reflexivity.
Qed.

(** ** vrt.py: the video JSON *)

(** C6: when the response for the media item is an object without 'title',
    the code 'INVALID_LOCATION' raises the geo-restriction error carrying
    the countries ['BE'], the code 'AUTHENTICATION_REQUIRED' raises the
    login-required error, and any other code raises an ExtractorError that
    is marked as expected and carries the upstream message (or the code,
    when there is no message). *)
Theorem vrt_error_mapping host url st v st1 d :
  VRTIE.download_video_info host url st = (inr v, st1) ->
  VRTIE.video_info v = PDict d ->
  Py.lookup d (PStr "title") = None ->
  let code := Obj.traverse_key (PDict d) "code" in
  let message := Obj.traverse_key (PDict d) "message" in
  (Py.eq_str code "INVALID_LOCATION" = true ->
   fst (VRTIE._real_extract host url st) = inl (GeoRestrictedError ["BE"])) /\
  (Py.eq_str code "AUTHENTICATION_REQUIRED" = true ->
   fst (VRTIE._real_extract host url st) = inl LoginRequiredError) /\
  (Py.eq_str code "INVALID_LOCATION" = false ->
   Py.eq_str code "AUTHENTICATION_REQUIRED" = false ->
   fst (VRTIE._real_extract host url st)
   = inl (ExtractorError (Py.or_ message code) true NoCause)
   /\ (Py.truthy message = true -> Py.or_ message code = message)).
Proof.
  intros Hdl Hinfo Htitle code message.
  assert (Hrun : forall e,
            fst (VRTIE.check_playable (PDict d) st1) = inl e ->
            fst (VRTIE._real_extract host url st) = inl e).
  { intros e He. unfold VRTIE._real_extract.
    rewrite (bind_val _ _ _ _ _ Hdl). cbv zeta. rewrite Hinfo.
    unfold bind at 1.
    destruct (VRTIE.check_playable (PDict d) st1) as [[e' | []] s'];
      simpl in He; [| discriminate].
    injection He as ->. reflexivity. }
  assert (Hcheck : fst (VRTIE.check_playable (PDict d) st1)
            = inl (if Py.eq_str code "AUTHENTICATION_REQUIRED" then LoginRequiredError
                   else if Py.eq_str code "INVALID_LOCATION" then GeoRestrictedError ["BE"]
                   else ExtractorError (Py.or_ message code) true NoCause)).
  { unfold VRTIE.check_playable, Obj.contains, Py.contains. rewrite Htitle.
    unfold lift at 1, bind at 1, ret at 1. cbn [negb].
    unfold Obj.get. fold code. unfold lift at 1, bind at 1, ret at 1.
    change (match Py.lookup d (PStr "code") with Some v0 => v0 | None => PNone end)
      with code.
    destruct (Py.eq_str code "AUTHENTICATION_REQUIRED"); [reflexivity |].
    destruct (Py.eq_str code "INVALID_LOCATION"); reflexivity. }
  repeat split.
  - intros Hgeo. apply Hrun. rewrite Hcheck, Hgeo.
    destruct code as [ | | | | c | | | ]; try discriminate.
    simpl in Hgeo. apply String.eqb_eq in Hgeo. subst c. reflexivity.
  - intros Hauth. apply Hrun. rewrite Hcheck, Hauth. reflexivity.
  - apply Hrun. rewrite Hcheck, H, H0. reflexivity.
  - intros Ht. unfold Py.or_. rewrite Ht. reflexivity.
Qed.

Lemma vrt_error_mapping_witness :
  fst (VRTIE._real_extract (Sample.vrt_server Sample.vrt_model_json Sample.vrt_geo_blocked)
         Sample.vrt_url initial)
  = inl (GeoRestrictedError ["BE"]).
Proof.
  eapply (vrt_error_mapping (Sample.vrt_server Sample.vrt_model_json Sample.vrt_geo_blocked)
            Sample.vrt_url initial).
  - vm_compute. reflexivity.
  - vm_compute. reflexivity.
  - vm_compute. reflexivity.
  - vm_compute. reflexivity.
Defined.

(** ** Missing fields *)

(** C8: there are well-formed urls and upstream responses lacking an
    expected field on which the extraction ends with an AttributeError that
    nothing catches, not with an extraction error: the VRT page JSON without
    'details', and the Manoto episode JSON without 'analyticsSeasonNumber'. *)
Theorem missing_field_raises_uncaught_error :
  (exists host url e,
      IE.suitable VRTIE._VALID_URL url = true
      /\ http_json host [] (GET (String.append (Str.strip_slash url) ".model.json"))
         = inr (PDict [])
      /\ result_of (VRTIE._real_extract host url) = inl e
      /\ is_uncaught_attribute_or_key_error e = true
      /\ is_ExtractorError e = false) /\
  (exists host url e,
      IE.suitable ManotoTVIE._VALID_URL url = true
      /\ http_json host [] (GET (String.append ManotoTVIE.api "12576")) = inr (PDict [])
      /\ result_of (ManotoTVIE._real_extract host url) = inl e
      /\ is_uncaught_attribute_or_key_error e = true
      /\ is_ExtractorError e = false).
Proof.
  split.
  - exists (Sample.vrt_server (Sample.obj []) Sample.vrt_geo_blocked), Sample.vrt_url,
      (AttributeError "get").
    repeat split; vm_compute; reflexivity.
  - exists Sample.manoto_empty, (fst ManotoTVIE._TEST), (AttributeError "isdigit").
    repeat split; vm_compute; reflexivity.
Qed.

(** ** kanal2.py *)

Module Kanal2Facts.

Import Kanal2IE.

Lemma sample_date :
  IE.search_regex SUBTITLE_DATE_RE (PStr "Osa 53  (05.08.2016 20:00)") "dateandtime"
    (Some PNone) = inr (PStr "05.08.2016 20:00")
  /\ Calendar.strptime "05.08.2016 20:00" = inr (Calendar.mkDatetime 2016 8 5 20 0)
  /\ Calendar.timegm (Calendar.mkDatetime 2016 8 5 20 0) = 1470427200%Z.
Proof. repeat split; vm_compute; reflexivity. Qed.

(** On a machine whose local zone is [offset] seconds east of UTC when the
    episode was aired, the time stamp of the sample subtitle is
    1470427200 - offset, with pytz and without: the microseconds of the
    Tallinn offset are zero. *)
Lemma sample_timestamp host st offset :
  local_utcoffset host 1470427200 = offset ->
  (offset = 0%Z \/ offset = 10800%Z) ->
  (forall f, pytz_tallinn_utcoffset host = Some f -> exists o, f 1470427200%Z = inr o) ->
  get_timestamp host (PStr "Osa 53  (05.08.2016 20:00)") st
  = (inr (PFloat (float_of_Z (1470427200 - offset))), st).
Proof.
  intros Hlocal Hoff Hpytz.
  destruct sample_date as (Hre & Hdate & Hgm).
  unfold get_timestamp, IE._search_regex. cbn [Py.truthy String.eqb negb Ascii.eqb Bool.eqb].
  rewrite Hre. unfold lift at 1, bind at 1, ret at 1.
  cbn [String.eqb]. rewrite Hdate. unfold lift at 1, bind at 1, ret at 1.
  rewrite Hgm, Hlocal.
  destruct (pytz_tallinn_utcoffset host) as [f |] eqn:Hf.
  - destruct (Hpytz f eq_refl) as (o & Ho). rewrite Ho.
    unfold lift, bind, ret. cbn [Calendar.microseconds Calendar.timedelta_of_seconds].
    destruct Hoff as [-> | ->]; vm_compute; reflexivity.
  - reflexivity.
Qed.

End Kanal2Facts.

(** C7 (the code at the failing input): a playlist whose info subtitle is
    'Osa 53  (05.08.2016 20:00)', extracted on a machine whose local time
    zone is UTC.  [time.mktime] reads 20:00 as UTC, the
    microseconds of the Tallinn offset add nothing, and the record's
    timestamp is 1470427200, three hours after the 1470416400 of the test;
    only on a machine whose own zone is three hours east of UTC does the
    test's value come out. *)
Theorem kanal2_timestamp_depends_on_local_zone :
  Py.field (Sample.returned (Kanal2IE._real_extract (Sample.kanal2_server 0 None)
                               Sample.kanal2_url)) "timestamp"
  = Some (PFloat (float_of_Z 1470427200))
  /\ Py.field (Sample.returned (Kanal2IE._real_extract
                                  (Sample.kanal2_server 0 (Some Sample.eest))
                                  Sample.kanal2_url)) "timestamp"
     = Some (PFloat (float_of_Z 1470427200))
  /\ Py.field (Sample.returned (Kanal2IE._real_extract
                                  (Sample.kanal2_server 10800 (Some Sample.eest))
                                  Sample.kanal2_url)) "timestamp"
     = Some (PFloat (float_of_Z Sample.kanal2_expected_timestamp))
  /\ map snd Kanal2IE._TESTS = [Sample.kanal2_expected_timestamp]
  /\ PrimFloat.eqb (float_of_Z 1470427200) (float_of_Z Sample.kanal2_expected_timestamp)
     = false.
Proof.
  repeat split; vm_compute; reflexivity.
Qed.

(** ** jtbc.py *)

Module JTBCFacts.

Import JTBCIE.

Lemma lists_only_lookup d k v :
  lists_only d -> Py.lookup d k = Some v -> exists l, v = PList l.
Proof.
  induction 1 as [| [k' v'] d' Hv Hd IH]; simpl; [discriminate |].
  destruct (Py.key_eqb k' k).
  - intros E. injection E as <-. exact Hv.
  - exact IH.
Qed.

Lemma lists_only_set d k l : lists_only d -> lists_only (Py.set d k (PList l)).
Proof.
  induction 1 as [| [k' v'] d' Hv Hd IH]; simpl.
  - constructor; [exists l; reflexivity | constructor].
  - destruct (Py.key_eqb k' k); constructor; simpl; eauto.
Qed.

Lemma tracks_loop_returns tracks : forall d st,
  forallb has_file tracks = true ->
  forallb track_ok tracks = true ->
  lists_only d ->
  exists d', fold_m add_track tracks (PDict d) st = (inr (PDict d'), st) /\ lists_only d'.
Proof.
  induction tracks as [| sub tracks IH]; intros d st Hfile Hok Hd; simpl.
  - exists d. split; [reflexivity | exact Hd].
  - simpl in Hfile, Hok.
    apply andb_prop in Hfile. destruct Hfile as [Hf Hfile].
    apply andb_prop in Hok. destruct Hok as [Ho Hok].
    unfold add_track, has_file, track_ok in *.
    destruct (Obj.get_default sub "label" (PStr "und")) as [e | label]; [discriminate |].
    destruct (Obj.item sub "file") as [e | file]; [discriminate |].
    unfold lift at 1 2, bind at 1 2 3, ret at 1 2.
    unfold Obj.setdefault_append. rewrite Ho. cbn [negb].
    destruct (Py.lookup d label) as [v |] eqn:Hl.
    + destruct (lists_only_lookup _ _ _ Hd Hl) as (l & ->).
      unfold lift, ret.
      apply IH; auto using lists_only_set.
    + unfold lift, ret. apply IH; auto using lists_only_set.
Qed.

Lemma streams_loop_returns host streams : forall formats st,
  forallb stream_ok streams = true ->
  exists formats' st', fold_m (add_stream host) streams formats st = (inr formats', st').
Proof.
  induction streams as [| stream streams IH]; intros formats st Hok; simpl.
  - exists formats, st. reflexivity.
  - simpl in Hok. apply andb_prop in Hok. destruct Hok as [Ho Hok].
    unfold add_stream, stream_ok in *.
    destruct (Obj.item stream "file") as [e | [ | | | | f | | | ]]; try discriminate.
    unfold lift at 1, bind at 1 2, ret at 1.
    destruct (Re.compile "/playlist(?:_pd\d+)?\.m3u8") as [p |] eqn:Hp;
      [| vm_compute in Hp; discriminate].
    unfold ret at 1, bind at 1.
    unfold IE._extract_manifest, history, emit, bind, IE.report_warning, emit, ret.
    cbn [log _authenticated].
    match goal with
    | |- context [manifest host ?h ?k ?u] => destruct (manifest host h k u) as [e | fs]
    end; apply IH; exact Hok.
Qed.

Lemma with_file_has_file o : forallb has_file (with_file o) = true.
Proof.
  assert (H : forall l, forallb has_file (filter has_file l) = true).
  { induction l as [| x l IH]; simpl; [reflexivity |].
    destruct (has_file x) eqn:E; simpl; [rewrite E |]; exact IH. }
  destruct o; simpl; auto.
Qed.

(** The date of a broadcast whose text, once the dots are removed, starts
    with eight digits. *)
Lemma release_date_of_prefix b rest :
  Str.remove_char "." b = String.append "20231008" rest ->
  release_date (PStr b) = PStr "20231008".
Proof.
  intros Hb. unfold release_date.
  destruct (Re.compile "\d{8}") as [p |] eqn:Hp; vm_compute in Hp; [| discriminate].
  injection Hp as <-. rewrite Hb.
  unfold Re.match_, Re.match_at, Str.chars. cbn [String.append list_ascii_of_string].
  cbn [Re.body Re.run Re.class_matches existsb Re.item_matches xorb].
  change (Str.is_digit "2") with true. change (Str.is_digit "0") with true.
  change (Str.is_digit "3") with true. change (Str.is_digit "1") with true.
  change (Str.is_digit "8") with true.
  cbn [orb xorb Re.matched List.length].
  match goal with
  | |- context [(?a - ?b)%nat] => replace (a - b)%nat with 8%nat by lia
  end.
  reflexivity.
Qed.

(** The id, the duration and the release date of the record. *)
Lemma record_fields host metadata vid duration formats subtitles :
  release_date (Obj.traverse_key (Obj.traverse_key metadata "vodDetail") "broadcastDate")
  = PStr "20231008" ->
  let record := PDict
    (Py.update
       (Py.update [(PStr "id", vid)] (vod_detail host metadata))
       [(PStr "duration", duration); (PStr "formats", formats);
        (PStr "subtitles", subtitles)]) in
  Py.field record "id" = Some vid
  /\ Py.field record "duration" = Some duration
  /\ Py.field record "release_date" = Some (PStr "20231008").
Proof.
  intros Hdate. unfold vod_detail. rewrite Hdate.
  generalize (Obj.traverse_key (Obj.traverse_key metadata "vodDetail") "vodTitleView").
  generalize (Obj.traverse_key (Obj.traverse_key metadata "vodDetail") "programTitle").
  generalize (Obj.of_int (int_or_none host
                (Obj.traverse_key (Obj.traverse_key metadata "vodDetail") "watchAge"))).
  generalize (Obj.traverse_key (Obj.traverse_key metadata "vodDetail") "episodeContents").
  generalize (Obj.of_str (url_or_none host
                (Obj.traverse_key (Obj.traverse_key metadata "vodDetail") "imgFileUrl"))).
  intros thumbnail description age series title.
  unfold template. cbn [filter fst snd negb Obj.is_nothing].
  destruct (Obj.is_nothing title); destruct (Obj.is_nothing series);
    destruct (Obj.is_nothing age); destruct (Obj.is_nothing description);
    destruct (Obj.is_nothing thumbnail); repeat split; reflexivity.
Qed.

End JTBCFacts.

(** C1: for the JTBC sample url, against upstream responses in which the
    page carries a vod id, the playback data are well formed with a play
    time that parses to 3770.0, and the broadcast date reads 20231008 once
    its dots are removed, the extraction returns a record whose id is
    'ep20216321', whose duration is 3770.0 and whose release_date is
    '20231008'. *)
Theorem jtbc_sample_record host st page file_id metadata playback_data broadcast rest :
  (forall h, http_page host h (GET Sample.jtbc_url) = inr page) ->
  IE.search_regex JTBCIE.vod_pattern (PStr page) "vod id" None = inr (PStr file_id) ->
  (forall h, http_json host h (GET (String.append JTBCIE.detail_api file_id))
             = inr metadata) ->
  (forall h, http_json host h (GET (String.append JTBCIE.vod_api file_id))
             = inr playback_data) ->
  JTBCIE.playback_well_formed playback_data = true ->
  parse_duration host (Obj.traverse_key playback_data "playTime") = Some 3770%float ->
  Obj.traverse_key (Obj.traverse_key metadata "vodDetail") "broadcastDate"
  = PStr broadcast ->
  Str.remove_char "." broadcast = String.append "20231008" rest ->
  In (JTBCIE.mkTest Sample.jtbc_url "ep20216321" 3770%float "20231008") JTBCIE._TESTS
  /\ exists record,
       fst (JTBCIE._real_extract host Sample.jtbc_url st) = inr record
       /\ Py.field record "id" = Some (PStr "ep20216321")
       /\ Py.field record "duration" = Some (PFloat 3770%float)
       /\ Py.field record "release_date" = Some (PStr "20231008").
Proof.
  intros Hpage Hvod Hmeta Hplay Hwf Hdur Hdate Hprefix.
  split; [left; reflexivity |].
  assert (Hid : IE.match_id JTBCIE._VALID_URL Sample.jtbc_url = inr (PStr "ep20216321"))
    by (vm_compute; reflexivity).
  destruct playback_data as [ | | | | | | pd | ]; try discriminate Hwf.
  unfold JTBCIE.playback_well_formed in Hwf.
  apply andb_prop in Hwf. destruct Hwf as [Htracks Hstreams].
  unfold JTBCIE._real_extract, IE._match_id. rewrite Hid, bind_lift.
  rewrite (bind_val _ _ _ _ _ (download_webpage_run _ _ _ _ (Hpage _))).
  unfold IE._search_regex. rewrite Hvod, bind_lift. cbn [py_str].
  rewrite (bind_val _ _ _ _ _ (download_json_nonfatal_run _ _ _ _ (Hmeta _))).
  rewrite (bind_val _ _ _ _ _ (download_json_run _ _ _ _ (Hplay _))).
  match goal with
  | |- context [bind (fold_m JTBCIE.add_track ?l (PDict [])) _ ?s] =>
    destruct (JTBCFacts.tracks_loop_returns l [] s
                (JTBCFacts.with_file_has_file _) Htracks (Forall_nil _))
      as (subtitles & Hsubs & _)
  end.
  rewrite (bind_val _ _ _ _ _ Hsubs).
  match goal with
  | |- context [bind (fold_m (JTBCIE.add_stream host) ?l []) _ ?s] =>
    destruct (JTBCFacts.streams_loop_returns host l [] s Hstreams)
      as (formats & st' & Hformats)
  end.
  rewrite (bind_val _ _ _ _ _ Hformats).
  cbn [Obj.get]. rewrite bind_lift. unfold ret.
  eexists. split; [reflexivity |].
  fold (Obj.traverse_key (PDict pd) "playTime"). rewrite Hdur.
  apply JTBCFacts.record_fields.
  rewrite Hdate. eapply JTBCFacts.release_date_of_prefix. exact Hprefix.
Qed.

Lemma jtbc_sample_record_witness :
  exists record,
    fst (JTBCIE._real_extract Sample.jtbc_server Sample.jtbc_url initial) = inr record
    /\ Py.field record "id" = Some (PStr "ep20216321")
    /\ Py.field record "duration" = Some (PFloat 3770%float)
    /\ Py.field record "release_date" = Some (PStr "20231008").
Proof.
  eapply proj2.
  eapply (jtbc_sample_record Sample.jtbc_server initial Sample.jtbc_page "VO10721270").
  - intros h. reflexivity.
  - vm_compute. reflexivity.
  - intros h. vm_compute. reflexivity.
  - intros h. vm_compute. reflexivity.
  - vm_compute. reflexivity.
  - vm_compute. reflexivity.
  - vm_compute. reflexivity.
  - vm_compute. reflexivity.
Defined.

(* ================================================================== *)
(** * Further properties of the extractors *)

(** ** Rules for [behaves] *)

Module Behaviour.

Section Rules.

Context {A B : Type}.
Variable b : bool.
Variable P : event -> Prop.
Variable E : exn -> Prop.

Lemma same_state st : _authenticated st = b -> st = mkState (log st ++ []) b.
Proof. intros <-. rewrite app_nil_r. destruct st; reflexivity. Qed.

Lemma of_ret (Q : A -> Prop) a : Q a -> behaves b P Q E (ret a).
Proof.
  intros Ha st Hst. exists []. cbn. split; [apply same_state; exact Hst | auto].
Qed.

Lemma of_raise (Q : A -> Prop) e : E e -> behaves b P Q E (raise e).
Proof.
  intros He st Hst. exists []. cbn. split; [apply same_state; exact Hst | auto].
Qed.

Lemma of_lift (Q : A -> Prop) (x : exn + A) :
  match x with inr a => Q a | inl e => E e end -> behaves b P Q E (lift x).
Proof. destruct x; [apply of_raise | apply of_ret]. Qed.

Lemma of_bind (Q : A -> Prop) (R : B -> Prop) (m : M A) (f : A -> M B) :
  behaves b P Q E m ->
  (forall a, Q a -> behaves b P R E (f a)) ->
  behaves b P R E (bind m f).
Proof.
  intros Hm Hf st Hst. destruct (Hm st Hst) as (new & Hs & Hnew & Hres).
  unfold bind. destruct (m st) as [[e | a] st1]; cbn [fst snd] in *.
  - exists new. auto.
  - subst st1. destruct (Hf a Hres (mkState (log st ++ new) b) eq_refl)
      as (new' & Hs' & Hnew' & Hres').
    exists (new ++ new'). cbn [log] in Hs'. rewrite app_assoc.
    split; [exact Hs' | split; [apply Forall_app; auto | exact Hres']].
Qed.

End Rules.

Section Steps.

Variable host : Host.
Variable b : bool.
Variable P : event -> Prop.
Variable E : exn -> Prop.

Lemma of_emit e : P e -> behaves b P (@anything unit) E (emit e).
Proof.
  intros He st Hst. exists [e]. cbn. rewrite Hst. repeat split. auto.
Qed.

Lemma of_get_authenticated : behaves b P (fun a => a = b) E get_authenticated.
Proof. intros st Hst. exists []. cbn. split; [apply same_state; exact Hst | auto]. Qed.

(** A download adds its request to the log; what comes back is up to the
    host, errors included. *)
Lemma of_download_json r :
  P (Requested r) -> (forall h e, http_json host h r = inl e -> E e) ->
  behaves b P (@anything pyval) E (IE._download_json host r).
Proof.
  intros Hr He st Hst. exists [Requested r].
  unfold IE._download_json, history, emit, bind, lift. cbn [log _authenticated].
  rewrite Hst. destruct (http_json host (log st) r) as [e | v] eqn:Hj; cbn;
    repeat split; auto. exact (He _ _ Hj).
Qed.

(** A manifest whose failure is not fatal: the failure shows as a warning. *)
Lemma of_extract_manifest kind url :
  P (Manifest kind url) -> (forall msg, P (Warning msg)) ->
  behaves b P (@anything (list pyval * pyval)) E (IE._extract_manifest host kind url false).
Proof.
  intros Hm Hw st Hst.
  unfold IE._extract_manifest, history, emit, bind, IE.report_warning, emit, ret.
  cbn [log _authenticated]. rewrite Hst.
  destruct (manifest host (log st) kind url) as [e | fs]; cbn.
  - exists [Manifest kind url; Warning (error_text host e)].
    rewrite <- app_assoc. repeat split; auto.
  - exists [Manifest kind url]. repeat split; auto.
Qed.

Lemma of_fold_m {A C} (Q : A -> Prop) (f : A -> C -> M A) l :
  (forall a x, Q a -> behaves b P Q E (f a x)) ->
  forall a, Q a -> behaves b P Q E (fold_m f l a).
Proof.
  intros Hf. induction l as [| x l IH]; intros a Ha; cbn.
  - apply of_ret. exact Ha.
  - eapply of_bind; [apply Hf; exact Ha | exact IH].
Qed.

Lemma of_for_each {C} (f : C -> M unit) l :
  (forall x, behaves b P (@anything unit) E (f x)) ->
  behaves b P (@anything unit) E (for_each f l).
Proof.
  intros Hf. induction l as [| x l IH]; cbn.
  - apply of_ret. exact I.
  - eapply of_bind; [apply Hf | intros; exact IH].
Qed.

End Steps.

Lemma no_events l : Forall no_event l -> l = [].
Proof. destruct l as [| e l]; [reflexivity |]. intros H. inversion H as [| ? ? []]. Qed.

End Behaviour.

(** A statement that may raise anything and returns anything. *)
Tactic Notation "any_lift_as" ident(x) :=
  eapply Behaviour.of_bind;
  [ apply Behaviour.of_lift with (Q := anything);
    match goal with |- match ?y with _ => _ end => destruct y; exact I end
  | intros x _; cbv zeta ].

Ltac any_lift := let x := fresh "x" in any_lift_as x.

(** A statement that may raise, but no extraction error, and returns
    anything. *)
Ltac destruct_scrutinee :=
  match goal with
  | |- context [match ?x with _ => _ end] =>
    lazymatch x with
    | context [match _ with _ => _ end] => fail
    | _ => destruct x
    end
  end.

Ltac by_cases :=
  cbv beta delta [Obj.item Obj.get Obj.get_default Obj.contains Py.contains Obj.iterate
                  Obj.concat anything nothing not_extraction_error];
  repeat first [exact I | reflexivity | destruct_scrutinee].

Tactic Notation "interpreter_lift_as" ident(x) :=
  eapply Behaviour.of_bind;
  [ apply Behaviour.of_lift with (Q := anything); by_cases
  | intros x _; cbv zeta ].

(** The state after a run that logs nothing. *)
Ltac silent_run Hrun lemma :=
  match type of Hrun with
  | ?m ?s = (_, ?s') =>
    let new := fresh "new" in
    let Hs := fresh "Hs" in
    let Hn := fresh "Hn" in
    destruct (lemma s eq_refl) as (new & Hs & Hn & _);
    rewrite Hrun in Hs; cbn [snd log _authenticated] in Hs;
    rewrite (Behaviour.no_events _ Hn), app_nil_r in Hs; subst s'
  end.

(** Peel the first statement off a run that returned, naming its value. *)
Tactic Notation "step_as" hyp(H) ident(a) ident(E) :=
  let s := fresh "s" in
  apply bind_ok in H; destruct H as (a & s & E & H); cbv beta zeta in H.

Lemma download_json_at host r h b v :
  http_json host h r = inr v ->
  IE._download_json host r (mkState h b) = (inr v, mkState (h ++ [Requested r]) b).
Proof. intros H. apply (download_json_run host r (mkState h b) v H). Qed.

Lemma extract_manifest_fatal_ok host kind url st fs st' :
  IE._extract_manifest host kind url true st = (inr fs, st') ->
  manifest host (log st) kind url = inr fs
  /\ st' = mkState (log st ++ [Manifest kind url]) (_authenticated st).
Proof.
  unfold IE._extract_manifest, history, emit, bind, ret, raise.
  cbn [log _authenticated].
  destruct (manifest host (log st) kind url) as [e | r]; intros H; inversion H; auto.
Qed.

Lemma extract_manifest_returns host kind url st :
  exists fs st', IE._extract_manifest host kind url false st = (inr fs, st').
Proof.
  unfold IE._extract_manifest, history, emit, bind, IE.report_warning, emit, ret.
  cbn [log _authenticated].
  destruct (manifest host (log st) kind url); eauto.
Qed.

(** ** The matcher against what a pattern matches *)

Module ReFacts.

Import Re ReSem.

Lemma run_star g r s c k :
  run (Star g r) s c k = star_loop g (run r) k (List.length s) s c.
Proof. reflexivity. Qed.

(** Whatever the matcher finds is a match of the pattern. *)
Lemma run_sound r : forall s c k res,
  run r s c k = Some res ->
  exists s' c', matches r s c s' c' /\ k s' c' = Some res.
Proof.
  induction r as [| a | | neg items | r1 IH1 r2 IH2 | r1 IH1 r2 IH2 | g r1 IH1 | n r1 IH1 |];
    intros s c k res H; [simpl in H .. | | simpl in H | simpl in H].
  - exists s, c. split; [constructor | exact H].
  - destruct s as [| x s']; [discriminate |].
    destruct (Ascii.eqb x a) eqn:E; [| discriminate].
    apply Ascii.eqb_eq in E. subst x. exists s', c. split; [constructor | exact H].
  - destruct s as [| x s']; [discriminate |].
    destruct (Ascii.eqb x Str.LF) eqn:E; [discriminate |].
    exists s', c. split; [constructor; exact E | exact H].
  - destruct s as [| x s']; [discriminate |].
    destruct (class_matches neg items x) eqn:E; [| discriminate].
    exists s', c. split; [constructor; exact E | exact H].
  - apply IH1 in H. destruct H as (s1 & c1 & H1 & H).
    apply IH2 in H. destruct H as (s2 & c2 & H2 & H).
    exists s2, c2. split; [econstructor; eassumption | exact H].
  - destruct (run r1 s c k) as [m |] eqn:E.
    + injection H as <-. apply IH1 in E. destruct E as (s' & c' & H1 & Hk).
      exists s', c'. split; [apply m_alt_l; exact H1 | exact Hk].
    + apply IH2 in H. destruct H as (s' & c' & H2 & Hk).
      exists s', c'. split; [apply m_alt_r; exact H2 | exact Hk].
  - rewrite run_star in H. revert H. generalize (List.length s). intros n. revert s c res.
    induction n as [| n IHn]; intros s c res H.
    + exists s, c. split; [constructor | exact H].
    + assert (Hagain : forall m,
                run r1 s c (fun s' c' =>
                  if (List.length s' <? List.length s)%nat
                  then star_loop g (run r1) k n s' c' else None) = Some m ->
                exists s' c', matches (Star g r1) s c s' c' /\ k s' c' = Some m).
      { intros m E. apply IH1 in E. destruct E as (s1 & c1 & H1 & E).
        destruct (List.length s1 <? List.length s)%nat; [| discriminate].
        apply IHn in E. destruct E as (s2 & c2 & H2 & E).
        exists s2, c2. split; [eapply m_star_more; eassumption | exact E]. }
      cbn [star_loop] in H. cbv zeta in H. destruct g.
      * match type of H with
        | match ?x with _ => _ end = _ => destruct x as [m |] eqn:E
        end.
        -- injection H as <-. apply Hagain. reflexivity.
        -- exists s, c. split; [constructor | exact H].
      * destruct (k s c) as [m |] eqn:E.
        -- injection H as <-. exists s, c. split; [constructor | exact E].
        -- apply Hagain. exact H.
  - apply IH1 in H. destruct H as (s' & c' & H1 & H).
    exists s', ((n, firstn (List.length s - List.length s') s) :: c').
    split; [constructor; exact H1 | exact H].
  - destruct s as [| x [| y s']].
    + exists [], c. split; [constructor | exact H].
    + destruct (Ascii.eqb x Str.LF) eqn:E; [| discriminate].
      exists [x], c. split; [constructor; exact E | exact H].
    + discriminate.
Qed.

Lemma firstn_consumed {A} (d s' : list A) :
  firstn (List.length (d ++ s') - List.length s') (d ++ s') = d.
Proof.
  rewrite length_app. replace (List.length d + List.length s' - List.length s')%nat
    with (List.length d + 0)%nat by lia.
  rewrite firstn_app_2. cbn. apply app_nil_r.
Qed.

(** A repetition of a class consumes characters of the class and captures
    nothing. *)
Lemma star_class g neg items s c s' c' :
  matches (Star g (Cls neg items)) s c s' c' ->
  exists d, s = d ++ s' /\ forallb (class_matches neg items) d = true /\ c' = c.
Proof.
  intros H. remember (Star g (Cls neg items)) as r eqn:Hr.
  induction H; try discriminate Hr.
  - exists []. auto.
  - injection Hr as -> ->. inversion H; subst.
    destruct (IHmatches2 eq_refl) as (d & -> & Hd & ->).
    exists (x :: d). cbn.
    match goal with Hc : class_matches _ _ _ = true |- _ => rewrite Hc end.
    rewrite Hd. auto.
Qed.

(** A part of a pattern without a group leaves the captures as they are. *)
Lemma no_group_caps r s c s' c' : matches r s c s' c' -> no_group r = true -> c' = c.
Proof.
  induction 1; cbn; intros Hn; try reflexivity; try discriminate Hn;
    try (apply andb_prop in Hn; destruct Hn as [Hn1 Hn2]); auto.
  - rewrite IHmatches2, IHmatches1; auto.
  - rewrite IHmatches2, IHmatches1; auto.
Qed.

Lemma chars_of_chars l : Str.chars (Str.of_chars l) = l.
Proof. apply list_ascii_of_string_of_list_ascii. Qed.

Lemma of_chars_chars s : Str.of_chars (Str.chars s) = s.
Proof. apply string_of_list_ascii_of_string. Qed.

Lemma chars_append s t : Str.chars (String.append s t) = Str.chars s ++ Str.chars t.
Proof. induction s as [| c s IH]; cbn; [reflexivity | f_equal; exact IH]. Qed.

Lemma range_is_digit x : class_matches false [CRange "0" "9"] x = Str.is_digit x.
Proof. unfold class_matches. cbn. rewrite orb_false_r. reflexivity. Qed.

Lemma class_is_digit x : class_matches false [CDigit] x = Str.is_digit x.
Proof. unfold class_matches. cbn. rewrite orb_false_r. reflexivity. Qed.

Lemma forallb_ext_eq {A} (f g : A -> bool) l :
  (forall x, f x = g x) -> forallb f l = forallb g l.
Proof. intros E. induction l; cbn; [reflexivity | rewrite E, IHl; reflexivity]. Qed.

Lemma isdigit_cons x d :
  Str.is_digit x = true -> forallb Str.is_digit d = true ->
  Str.isdigit (Str.of_chars (x :: d)) = true.
Proof.
  intros Hx Hd. unfold Str.isdigit. rewrite chars_of_chars. cbn. rewrite Hx, Hd. reflexivity.
Qed.

Lemma isdigit_chars d :
  Str.isdigit d = true ->
  exists x l, Str.chars d = x :: l /\ forallb Str.is_digit (x :: l) = true.
Proof.
  unfold Str.isdigit. destruct (Str.chars d) as [| x l]; [discriminate |].
  intros H. exists x, l. auto.
Qed.

Lemma uint_digits u : forallb Str.is_digit (Str.chars (NilEmpty.string_of_uint u)) = true.
Proof. induction u; cbn; auto. Qed.

(** [str(n)] of a natural number is a non-empty text of digits. *)
Lemma of_Z_isdigit z : (0 <= z)%Z -> Str.isdigit (Str.of_Z z) = true.
Proof.
  intros Hz. unfold Str.of_Z, Str.isdigit.
  destruct z as [| p | p]; [reflexivity | | lia].
  cbn [Z.to_int NilZero.string_of_int NilZero.string_of_uint].
  pose proof (DecimalPos.Unsigned.to_uint_nonnil p) as Hnil.
  pose proof (uint_digits (Pos.to_uint p)) as Hall.
  destruct (Pos.to_uint p) as [| u | u | u | u | u | u | u | u | u | u];
    [congruence | exact Hall ..].
Qed.

(** What [_match_id] returns, in terms of the matcher. *)
Lemma match_id_inv pat url id p :
  Re.compile pat = Some p ->
  IE.match_id pat url = inr id ->
  exists c rest n,
    run (body p) (Str.chars url) [] (fun s' c' => Some (c', s')) = Some (c, rest)
    /\ find (fun x => String.eqb (fst x) "id") (names p) = Some ("id", n)
    /\ id = match cap_lookup c n with Some g => PStr g | None => PNone end.
Proof.
  intros Hp H. unfold IE.match_id in H. rewrite Hp in H.
  unfold match_, match_at in H.
  destruct (run (body p) (Str.chars url) [] _) as [[c rest] |] eqn:E; [| discriminate H].
  destruct (find _ (names p)) as [[nm n] |] eqn:F; [| discriminate H].
  injection H as <-.
  exists c, rest, n. split; [reflexivity | split; [| reflexivity]].
  pose proof (find_some _ _ F) as [_ Hn]. cbn in Hn. apply String.eqb_eq in Hn. subst nm.
  reflexivity.
Qed.

Lemma search_from_sound p : forall s m,
  search_from p s = Some m -> exists s', match_at p s' = Some m.
Proof.
  induction s as [| x s IH]; intros m H; cbn [search_from] in H.
  - destruct (match_at p []) eqn:E; [| discriminate H]. injection H as <-. eauto.
  - destruct (match_at p (x :: s)) eqn:E.
    + injection H as <-. eauto.
    + apply IH. exact H.
Qed.

(** A greedy repetition of a class over a text made of characters of the
    class takes the whole text when what follows the repetition accepts
    the end of the text. *)
Lemma greedy_star_all neg items k m : forall d c n,
  forallb (class_matches neg items) d = true ->
  (List.length d <= n)%nat ->
  k [] c = Some m ->
  star_loop true (run (Cls neg items)) k n d c = Some m.
Proof.
  induction d as [| x d IH]; intros c n Hd Hn Hk.
  - destruct n; cbn; [exact Hk |]. rewrite Hk. reflexivity.
  - cbn in Hd. apply andb_prop in Hd. destruct Hd as [Hx Hd].
    destruct n as [| n]; [cbn in Hn; lia |].
    cbn [star_loop run]. rewrite Hx.
    replace (List.length d <? List.length (x :: d))%nat with true
      by (symmetry; apply Nat.ltb_lt; cbn; lia).
    rewrite IH; auto. cbn in Hn. lia.
Qed.

(** [\d+] in front of the end of the text: the whole of it is taken. *)
Lemma plus_class_end neg items x d c k m :
  forallb (class_matches neg items) (x :: d) = true ->
  k [] c = Some m ->
  run (Seq (Cls neg items) (Star true (Cls neg items))) (x :: d) c k = Some m.
Proof.
  intros Hd Hk. cbn in Hd. apply andb_prop in Hd. destruct Hd as [Hx Hd].
  cbn [run]. rewrite Hx.
  change (star_loop true (run (Cls neg items)) k (List.length d) d c = Some m).
  apply greedy_star_all; auto.
Qed.

End ReFacts.

Ltac inv H := inversion H; subst; clear H.

(** Take a match of a concrete pattern apart, down to its repetitions. *)
Ltac invert_matches :=
  repeat match goal with
  | H : ReSem.matches Re.Eps _ _ _ _ |- _ => inv H
  | H : ReSem.matches (Re.Lit _) _ _ _ _ |- _ => inv H
  | H : ReSem.matches Re.Any _ _ _ _ |- _ => inv H
  | H : ReSem.matches (Re.Cls _ _) _ _ _ _ |- _ => inv H
  | H : ReSem.matches (Re.Seq _ _) _ _ _ _ |- _ => inv H
  | H : ReSem.matches (Re.Alt _ _) _ _ _ _ |- _ => inv H
  | H : ReSem.matches (Re.Group _ _) _ _ _ _ |- _ => inv H
  | H : ReSem.matches Re.Eos _ _ _ _ |- _ => inv H
  end.

(** Take a match apart as far as its groups. *)
Ltac split_at_groups :=
  repeat match goal with
  | H : ReSem.matches ?r _ _ _ _ |- _ =>
    lazymatch eval cbv in (ReSem.no_group r) with
    | true => apply ReFacts.no_group_caps in H; [subst | reflexivity]
    | false =>
      lazymatch r with
      | Re.Seq _ _ => inv H
      | Re.Alt _ _ => inv H
      end
    end
  end.

Ltac open_groups :=
  repeat match goal with
  | H : ReSem.matches (Re.Group _ _) _ _ _ _ |- _ => inv H
  end.

Ltac star_classes :=
  repeat match goal with
  | Hs : ReSem.matches (Re.Star _ (Re.Cls _ _)) _ _ _ _ |- _ =>
    apply ReFacts.star_class in Hs; let d := fresh "d" in let Hd := fresh "Hd" in
    destruct Hs as (d & -> & Hd & ->)
  end.

(** The text is made of digits. *)
Ltac digits :=
  apply ReFacts.isdigit_cons;
  [ first [rewrite <- ReFacts.class_is_digit | rewrite <- ReFacts.range_is_digit];
    assumption
  | match goal with
    | Hd : forallb _ ?d = true |- forallb _ ?d = true =>
      rewrite <- Hd; apply ReFacts.forallb_ext_eq; intros; symmetry;
      first [apply ReFacts.class_is_digit | apply ReFacts.range_is_digit]
    end ].

(** From [_match_id pat url = id] to what the group [id] of [pat] holds. *)
Ltac captured pat H :=
  let p := fresh "p" in let Hp := fresh "Hp" in
  let c := fresh "c" in let rest := fresh "rest" in let n := fresh "n" in
  let Hrun := fresh "Hrun" in let Hfind := fresh "Hfind" in
  let s' := fresh "s'" in let c' := fresh "c'" in let Hm := fresh "Hm" in
  let Hk := fresh "Hk" in
  destruct (Re.compile pat) as [p |] eqn:Hp; [| vm_compute in Hp; discriminate Hp];
  destruct (ReFacts.match_id_inv _ _ _ _ Hp H) as (c & rest & n & Hrun & Hfind & ->);
  vm_compute in Hp; injection Hp as <-;
  cbn [Re.body Re.names] in Hrun, Hfind; cbn in Hfind; injection Hfind as <-;
  apply ReFacts.run_sound in Hrun; destruct Hrun as (s' & c' & Hm & Hk);
  injection Hk as <- <-;
  split_at_groups; open_groups; invert_matches; star_classes;
  cbn [Re.cap_lookup Nat.eqb].

(** ** The ids of the url patterns *)

Module IdFacts.

Import Re ReSem ReFacts.

Lemma manoto_episode_id url id :
  IE.match_id ManotoTVIE._VALID_URL url = inr id ->
  exists d, id = PStr d /\ Str.isdigit d = true.
Proof.
  intros H. captured ManotoTVIE._VALID_URL H.
  all: eexists; split; [reflexivity |].
  all: change (?x :: ?d ++ ?r) with ((x :: d) ++ r); rewrite firstn_consumed.
  all: digits.
Qed.

Lemma manoto_show_id url id :
  IE.match_id ManotoTVShowIE._VALID_URL url = inr id ->
  exists d, id = PStr d /\ Str.isdigit d = true.
Proof.
  intros H. captured ManotoTVShowIE._VALID_URL H.
  all: eexists; split; [reflexivity |].
  all: change (?x :: ?d ++ ?r) with ((x :: d) ++ r); rewrite firstn_consumed.
  all: digits.
Qed.

Lemma kanal2_id url id :
  IE.match_id Kanal2IE._VALID_URL url = inr id ->
  exists d, id = PStr d /\ Str.isdigit d = true.
Proof.
  intros H. captured Kanal2IE._VALID_URL H.
  all: eexists; split; [reflexivity |].
  all: change (?x :: ?d ++ ?r) with ((x :: d) ++ r); rewrite firstn_consumed.
  all: digits.
Qed.

Lemma jtbc_id url id :
  IE.match_id JTBCIE._VALID_URL url = inr id ->
  exists prefix d,
    id = PStr (String.append prefix d)
    /\ (prefix = "ep" \/ prefix = "vo") /\ Str.isdigit d = true.
Proof.
  intros H. captured JTBCIE._VALID_URL H.
  all: match goal with
       | |- context [firstn _ (?a :: ?b :: ?x :: ?d ++ ?r)] =>
         change (a :: b :: x :: d ++ r) with ((a :: b :: x :: d) ++ r);
         rewrite firstn_consumed;
         exists (String a (String b EmptyString)), (Str.of_chars (x :: d))
       end.
  all: split; [reflexivity | split; [auto |]].
  all: digits.
Qed.

Lemma jtbc_program_id url id :
  IE.match_id JTBCProgramIE._VALID_URL url = inr id ->
  exists d, id = PStr (String.append "pr" d) /\ Str.isdigit d = true.
Proof.
  intros H. captured JTBCProgramIE._VALID_URL H.
  all: match goal with
       | |- context [firstn _ (?a :: ?b :: ?x :: ?d ++ ?r)] =>
         change (a :: b :: x :: d ++ r) with ((a :: b :: x :: d) ++ r);
         rewrite firstn_consumed;
         exists (Str.of_chars (x :: d))
       end.
  all: split; [reflexivity |].
  all: digits.
Qed.

(** The url the show extractor builds for an episode is a url of the
    episode extractor, with the same id. *)
Lemma manoto_round_trip d :
  Str.isdigit d = true ->
  IE.match_id ManotoTVIE._VALID_URL (ManotoTVShowIE.episode_url d) = inr (PStr d).
Proof.
  intros Hd. destruct (isdigit_chars d Hd) as (x & l & Hc & Hl).
  unfold IE.match_id.
  destruct (Re.compile ManotoTVIE._VALID_URL) as [p |] eqn:Hp; vm_compute in Hp;
    [| discriminate Hp].
  injection Hp as <-.
  unfold match_, match_at, ManotoTVShowIE.episode_url. cbn [body names].
  set (T := Seq (Group 1 _) Eps).
  assert (HT : run T (x :: l) [] (fun s' c' => Some (c', s')) = Some ([(1%nat, x :: l)], [])).
  { subst T. cbn [run]. apply plus_class_end.
    - rewrite (forallb_ext_eq _ _ _ range_is_digit). exact Hl.
    - cbn [List.length]. rewrite Nat.sub_0_r.
      change (S (List.length l)) with (List.length (x :: l)). rewrite firstn_all. reflexivity. }
  clearbody T.
  cbn [Str.chars list_ascii_of_string String.append run Ascii.eqb Bool.eqb].
  fold (Str.chars d). rewrite Hc, HT. cbn [find fst snd String.eqb Ascii.eqb Bool.eqb].
  cbn [group captures cap_lookup Nat.eqb]. rewrite <- Hc, of_chars_chars. reflexivity.
Qed.

(** The url the program extractor builds for an episode is a url of the
    episode extractor, with the same id. *)
Lemma jtbc_round_trip prefix d :
  prefix = "ep" \/ prefix = "vo" ->
  Str.isdigit d = true ->
  IE.match_id JTBCIE._VALID_URL (JTBCProgramIE.episode_url (String.append prefix d))
  = inr (PStr (String.append prefix d)).
Proof.
  intros Hpre Hd. destruct (isdigit_chars d Hd) as (x & l & Hc & Hl).
  unfold IE.match_id.
  destruct (Re.compile JTBCIE._VALID_URL) as [p |] eqn:Hp; vm_compute in Hp;
    [| discriminate Hp].
  injection Hp as <-.
  unfold match_, match_at, JTBCProgramIE.episode_url. cbn [body names].
  set (T := Seq (Seq (Cls false [CDigit]) (Star true (Cls false [CDigit]))) Eps).
  assert (HT : forall c k m, k [] c = Some m -> run T (x :: l) c k = Some m).
  { intros c k m Hk. subst T. cbn [run]. apply plus_class_end.
    - rewrite (forallb_ext_eq _ _ _ class_is_digit). exact Hl.
    - exact Hk. }
  clearbody T.
  destruct Hpre as [-> | ->];
    cbn [Str.chars list_ascii_of_string String.append run Ascii.eqb Bool.eqb];
    fold (Str.chars d); rewrite Hc;
    erewrite HT by reflexivity;
    cbn [find fst snd String.eqb Ascii.eqb Bool.eqb List.length Nat.sub firstn];
    cbn [group captures cap_lookup Nat.eqb];
    change (S (List.length l)) with (List.length (x :: l)); rewrite firstn_all;
    rewrite <- Hc; cbn [Str.of_chars string_of_list_ascii]; fold (Str.of_chars (Str.chars d));
    rewrite of_chars_chars; reflexivity.
Qed.

End IdFacts.

(** ** manoto.py, further *)

(** X1: every url the Manoto episode pattern accepts carries an id that is
    a non-empty text of decimal digits, and so does every url the show
    pattern accepts; this is the text the extractors append to the urls of
    the API. *)
Theorem manoto_ids_are_digits :
  (forall url id, IE.match_id ManotoTVIE._VALID_URL url = inr id ->
     exists d, id = PStr d /\ Str.isdigit d = true) /\
  (forall url id, IE.match_id ManotoTVShowIE._VALID_URL url = inr id ->
     exists d, id = PStr d /\ Str.isdigit d = true).
Proof.
  split; [exact IdFacts.manoto_episode_id | exact IdFacts.manoto_show_id].
Qed.

Module ManotoMore.

Import ManotoTVIE.

Lemma ext_is_unbound : ext = raise (NameError "ext").
Proof. reflexivity. Qed.

End ManotoMore.

(** X2: whatever the host answers, the episode extractor logs at most one
    event: the request for the details of the episode, made when the url
    matches.  It never asks for a manifest, logs no warning and makes no
    further request. *)
Theorem manoto_episode_log host url st :
  log (snd (ManotoTVIE._real_extract host url st))
  = log st ++ match IE.match_id ManotoTVIE._VALID_URL url with
              | inr (PStr id) => [Requested (GET (String.append ManotoTVIE.api id))]
              | _ => []
              end.
Proof.
  unfold ManotoTVIE._real_extract, IE._match_id.
  destruct (IE.match_id ManotoTVIE._VALID_URL url) as [e | v];
    [cbn; rewrite app_nil_r; reflexivity |].
  rewrite bind_lift.
  destruct v as [ | | | | id | | | ]; try (cbn; rewrite app_nil_r; reflexivity).
  cbn [Obj.concat]. rewrite bind_lift.
  unfold IE._download_json at 1, history, emit. unfold bind at 1 2 3.
  cbn [log _authenticated].
  destruct (http_json host (log st) _) as [e | episode_json]; [reflexivity |].
  unfold lift at 1, ret at 1.
  match goal with
  | |- log (snd (?m ?s)) = _ =>
    assert (Hb : behaves (_authenticated st) no_event (@nothing pyval) anything m);
    [| destruct (Hb s eq_refl) as (new & Hs & Hnew & _) ]
  end.
  - do 15 any_lift. rewrite ManotoMore.ext_is_unbound.
    eapply Behaviour.of_bind;
      [apply Behaviour.of_raise with (Q := nothing); exact I | intros ? []].
  - rewrite Hs, (Behaviour.no_events _ Hnew), app_nil_r. reflexivity.
Qed.

(** X3: whenever the live extractor returns, for any url, the record is
    {id: 'live', title: 'Manoto TV Live', ext: 'mp4', formats}, where the
    formats are those of the m3u8 manifest at details.liveUrl of the one
    JSON document it requested; nothing else is logged.  Here [ext] is
    assigned before it is used. *)
Theorem manoto_live_record host url st record st' :
  ManotoTVLiveIE._real_extract host url st = (inr record, st') ->
  exists json video_url formats subtitles,
    http_json host (log st) ManotoLive.details_request = inr json
    /\ video_url = Obj.traverse_key (Obj.traverse_key json "details") "liveUrl"
    /\ manifest host (log st ++ [Requested ManotoLive.details_request]) "m3u8" video_url
       = inr (formats, subtitles)
    /\ record = Py.dict [("id", PStr "live"); ("title", PStr "Manoto TV Live");
                         ("ext", PStr "mp4"); ("formats", PList formats)]
    /\ log st' = log st ++ [Requested ManotoLive.details_request;
                            Manifest "m3u8" video_url].
Proof.
  intros H. unfold ManotoTVLiveIE._real_extract in H. cbv zeta in H.
  fold ManotoLive.details_request in H.
  step_as H json Hjson. apply download_json_ok in Hjson. destruct Hjson as [Hjson ->].
  step_as H details Hdetails. apply lift_ok in Hdetails. destruct Hdetails as [Hdetails ->].
  step_as H video_url Hurl. apply lift_ok in Hurl. destruct Hurl as [Hurl ->].
  step_as H fs Hfs. apply extract_manifest_fatal_ok in Hfs. destruct Hfs as [Hm ->].
  cbn [log] in Hm.
  unfold ret in H. injection H as <- <-.
  destruct fs as [formats subtitles].
  exists json, video_url, formats, subtitles. cbn [fst log]. rewrite <- app_assoc.
  repeat split; auto.
  destruct json as [ | | | | | | d | ]; try discriminate Hdetails.
  cbn in Hdetails. cbn [Obj.traverse_key].
  destruct (Py.lookup d (PStr "details")) as [v |]; injection Hdetails as <-.
  - destruct v; try discriminate Hurl. cbn in Hurl. injection Hurl as <-. reflexivity.
  - cbn in Hurl. injection Hurl as <-. reflexivity.
Qed.

Lemma manoto_live_record_witness :
  exists json video_url formats subtitles,
    http_json Cases.manoto_live (log initial) ManotoLive.details_request = inr json
    /\ video_url = Obj.traverse_key (Obj.traverse_key json "details") "liveUrl"
    /\ manifest Cases.manoto_live (log initial ++ [Requested ManotoLive.details_request])
         "m3u8" video_url = inr (formats, subtitles)
    /\ Sample.returned (ManotoTVLiveIE._real_extract Cases.manoto_live Cases.manoto_live_url)
       = Py.dict [("id", PStr "live"); ("title", PStr "Manoto TV Live");
                  ("ext", PStr "mp4"); ("formats", PList formats)]
    /\ log (snd (ManotoTVLiveIE._real_extract Cases.manoto_live Cases.manoto_live_url
                   initial))
       = log initial ++ [Requested ManotoLive.details_request; Manifest "m3u8" video_url].
Proof.
  apply (manoto_live_record Cases.manoto_live Cases.manoto_live_url initial).
  vm_compute. reflexivity.
Defined.

(** X4: when the list of series of a show is missing or empty, the show
    extractor ends with an IndexError that nothing catches, after the
    requests for the show and for its series and before any request for
    episodes. *)
Theorem manoto_show_without_series host url_result playlist_result url st id show_json
  series_json :
  let show_request := GET (String.append ManotoTVShowIE.details_api id) in
  let series_request := GET (String.append ManotoTVShowIE.serieslist_api id) in
  IE.match_id ManotoTVShowIE._VALID_URL url = inr (PStr id) ->
  http_json host (log st) show_request = inr show_json ->
  ManotoShow.has_details show_json = true ->
  http_json host (log st ++ [Requested show_request]) series_request = inr series_json ->
  ManotoShow.no_series series_json = true ->
  ManotoTVShowIE._real_extract host url_result playlist_result url st
  = (inl IndexError,
     mkState (log st ++ [Requested show_request; Requested series_request])
       (_authenticated st)).
Proof.
  intros show_request series_request Hid Hshow Hdetails Hseries Hnone.
  unfold ManotoTVShowIE._real_extract, IE._match_id. rewrite Hid, bind_lift.
  cbn [Obj.concat]. rewrite bind_lift.
  rewrite (bind_val _ _ _ _ _ (download_json_run _ _ _ _ Hshow)).
  unfold ManotoShow.has_details in Hdetails.
  destruct (Obj.get_default show_json "details" (PDict [])) as [e | [ | | | | | | d | ]];
    try discriminate Hdetails.
  rewrite bind_lift. cbn [Obj.get]. rewrite !bind_lift.
  rewrite (bind_val _ _ _ _ _ (download_json_at _ _ _ _ _ Hseries)).
  unfold ManotoShow.no_series in Hnone.
  destruct (Obj.get_default series_json "details" (PDict [])) as [e | details];
    try discriminate Hnone.
  rewrite bind_lift.
  destruct (Obj.get_default details "list" (PList [])) as [e | [ | | | | | [| x l] | | ]];
    try discriminate Hnone.
  rewrite bind_lift. cbn [log _authenticated]. rewrite <- app_assoc. reflexivity.
Qed.

Lemma manoto_show_without_series_witness :
  ManotoTVShowIE._real_extract (Cases.manoto_server Cases.manoto_no_series)
    Cases.url_entry Cases.playlist Cases.manoto_show_url initial
  = (inl IndexError,
     mkState [Requested (GET (String.append ManotoTVShowIE.details_api "2526"));
              Requested (GET (String.append ManotoTVShowIE.serieslist_api "2526"))] false).
Proof.
  apply (manoto_show_without_series (Cases.manoto_server Cases.manoto_no_series)
           Cases.url_entry Cases.playlist Cases.manoto_show_url initial "2526"
           Cases.manoto_show_json Cases.manoto_no_series).
  - vm_compute. reflexivity.
  - vm_compute. reflexivity.
  - vm_compute. reflexivity.
  - vm_compute. reflexivity.
  - vm_compute. reflexivity.
Defined.

(** ** Reading a field of a decoded object *)

Module FieldFacts.

Lemma get_default o k v default :
  Py.field o k = Some v -> Obj.get_default o k default = inr v.
Proof. destruct o; try discriminate. cbn. intros ->. reflexivity. Qed.

Lemma item o k v : Py.field o k = Some v -> Obj.item o k = inr v.
Proof. destruct o; try discriminate. cbn. intros ->. reflexivity. Qed.

Lemma traverse_key o k v : Py.field o k = Some v -> Obj.traverse_key o k = v.
Proof. destruct o; try discriminate. cbn. intros ->. reflexivity. Qed.

End FieldFacts.

Module ManotoShowFacts.

Import ManotoTVShowIE.

(** The comprehension over items that all have a slide id. *)
Lemma entries_of_items host url_result items slide_ids st :
  Forall2 (fun item sid => Py.field item "slideID" = Some sid) items slide_ids ->
  map_m (entry host url_result) items st
  = (inr (map (fun sid => url_result (episode_url (py_str host sid)) "ManotoTVIE" sid)
              slide_ids),
     st).
Proof.
  induction 1 as [| item sid items slide_ids Hsid _ IH]; [reflexivity |].
  cbn [map_m map].
  assert (Hentry : entry host url_result item st
                   = (inr (url_result (episode_url (py_str host sid)) "ManotoTVIE" sid), st)).
  { unfold entry. rewrite (FieldFacts.item _ _ _ Hsid), !bind_lift. reflexivity. }
  rewrite (bind_val _ _ _ _ _ Hentry), (bind_val _ _ _ _ _ IH). reflexivity.
Qed.

Lemma episode_round_trip host sid :
  ManotoShow.is_episode_id sid = true ->
  IE.match_id ManotoTVIE._VALID_URL (episode_url (py_str host sid))
  = inr (PStr (py_str host sid)).
Proof.
  intros H. apply IdFacts.manoto_round_trip.
  destruct sid; try discriminate H; cbn [py_str ManotoShow.is_episode_id] in *.
  - apply ReFacts.of_Z_isdigit. apply Z.leb_le. exact H.
  - exact H.
Qed.

End ManotoShowFacts.

(** X5: the show extractor, against a site that answers its three requests:
    the show, with its details; the list of series, with a first series;
    and the episode list of that series, every item of which has a slideID.
    It returns the playlist, under the id of the url and with the title and
    synopsis of the show, of exactly one entry for each item of the episode
    list, in the order of the list: the entry of the slide id s is addressed
    to the episode extractor at https://www.manototv.com/episode/<s>, with
    the id s.  It has made the three requests and nothing else; and for
    every slide id that is a natural number or a non-empty text of digits,
    the url of its entry is one the episode extractor accepts, with the id
    <s>. *)
Theorem manoto_show_entries_are_episode_urls host url_result playlist_result url st
  id show_json show_details series_json series_details first_series others
  playlist_json playlist_details items slide_ids :
  let show_request := GET (String.append ManotoTVShowIE.details_api id) in
  let series_request := GET (String.append ManotoTVShowIE.serieslist_api id) in
  let episodes_request :=
    GET (String.append ManotoTVShowIE.episodelist_api
           (py_str host (Json.get first_series "id"))) in
  let episode_url sid :=
    String.append "https://www.manototv.com/episode/" (py_str host sid) in
  IE.match_id ManotoTVShowIE._VALID_URL url = inr (PStr id) ->
  http_json host (log st) show_request = inr show_json ->
  Py.field show_json "details" = Some (PDict show_details) ->
  http_json host (log st ++ [Requested show_request]) series_request = inr series_json ->
  Py.field series_json "details" = Some series_details ->
  Py.field series_details "list" = Some (PList (PDict first_series :: others)) ->
  http_json host (log st ++ [Requested show_request; Requested series_request])
    episodes_request = inr playlist_json ->
  Py.field playlist_json "details" = Some playlist_details ->
  Py.field playlist_details "list" = Some (PList items) ->
  Forall2 (fun item sid => Py.field item "slideID" = Some sid) items slide_ids ->
  ManotoTVShowIE._real_extract host url_result playlist_result url st
  = (inr (playlist_result
            (map (fun sid => url_result (episode_url sid) "ManotoTVIE" sid) slide_ids)
            (PStr id)
            (Json.get show_details "showTitle")
            (Json.get show_details "showSynopsis")),
     mkState (log st ++ [Requested show_request; Requested series_request;
                         Requested episodes_request])
       (_authenticated st))
  /\ forall sid, In sid slide_ids -> ManotoShow.is_episode_id sid = true ->
       IE.match_id ManotoTVIE._VALID_URL (episode_url sid) = inr (PStr (py_str host sid)).
Proof.
  intros show_request series_request episodes_request episode_url
    Hid Hshow Hdetails Hseries Hsdetails Hlist Hepisodes Hpdetails Hitems Hslides.
  split.
  - unfold ManotoTVShowIE._real_extract, IE._match_id. rewrite Hid, bind_lift.
    cbn [Obj.concat]. rewrite bind_lift.
    rewrite (bind_val _ _ _ _ _ (download_json_run _ _ _ _ Hshow)).
    rewrite (FieldFacts.get_default _ _ _ _ Hdetails), bind_lift.
    cbn [Obj.get]. rewrite !bind_lift.
    rewrite (bind_val _ _ _ _ _ (download_json_at _ _ _ _ _ Hseries)).
    rewrite (FieldFacts.get_default _ _ _ _ Hsdetails), bind_lift.
    rewrite (FieldFacts.get_default _ _ _ _ Hlist), bind_lift.
    cbn [Obj.index nth_error]. rewrite bind_lift. cbn [Obj.get]. rewrite bind_lift.
    fold (Json.get first_series "id"). fold episodes_request.
    rewrite <- app_assoc. cbn [app].
    rewrite (bind_val _ _ _ _ _ (download_json_at _ _ _ _ _ Hepisodes)).
    rewrite (FieldFacts.get_default _ _ _ _ Hpdetails), bind_lift.
    rewrite (FieldFacts.get_default _ _ _ _ Hitems), bind_lift.
    cbn [Obj.iterate]. rewrite bind_lift.
    rewrite (bind_val _ _ _ _ _
               (ManotoShowFacts.entries_of_items host url_result _ _ _ Hslides)).
    unfold ret. rewrite <- app_assoc. reflexivity.
  - intros sid _ Hsid. apply ManotoShowFacts.episode_round_trip. exact Hsid.
Qed.

Lemma manoto_show_entries_are_episode_urls_witness :
  ManotoTVShowIE._real_extract (Cases.manoto_server Cases.manoto_one_series)
    Cases.url_entry Cases.playlist Cases.manoto_show_url initial
  = (inr (Cases.playlist
            (map (fun sid =>
                    Cases.url_entry
                      (String.append "https://www.manototv.com/episode/"
                         (py_str (Cases.manoto_server Cases.manoto_one_series) sid))
                      "ManotoTVIE" sid)
                 [PInt 12576; PStr "12577"])
            (PStr "2526") (PStr "Films") (PStr "Classics")),
     mkState
       (log initial
        ++ [Requested (GET (String.append ManotoTVShowIE.details_api "2526"));
            Requested (GET (String.append ManotoTVShowIE.serieslist_api "2526"));
            Requested (GET (String.append ManotoTVShowIE.episodelist_api "7"))])
       (_authenticated initial))
  /\ forall sid, In sid [PInt 12576; PStr "12577"] -> ManotoShow.is_episode_id sid = true ->
       IE.match_id ManotoTVIE._VALID_URL
         (String.append "https://www.manototv.com/episode/"
            (py_str (Cases.manoto_server Cases.manoto_one_series) sid))
       = inr (PStr (py_str (Cases.manoto_server Cases.manoto_one_series) sid)).
Proof.
  apply (manoto_show_entries_are_episode_urls
           (Cases.manoto_server Cases.manoto_one_series) Cases.url_entry Cases.playlist
           Cases.manoto_show_url initial "2526"
           Cases.manoto_show_json
           [(PStr "showTitle", PStr "Films"); (PStr "showSynopsis", PStr "Classics")]
           Cases.manoto_one_series
           (Sample.obj [("list", PList [Sample.obj [("id", PInt 7)]])])
           [(PStr "id", PInt 7)] []
           (Sample.obj [("details", Sample.obj [("list", PList [
              Sample.obj [("slideID", PInt 12576)]; Sample.obj [("slideID", PStr "12577")]])])])
           (Sample.obj [("list", PList [
              Sample.obj [("slideID", PInt 12576)]; Sample.obj [("slideID", PStr "12577")]])])
           [Sample.obj [("slideID", PInt 12576)]; Sample.obj [("slideID", PStr "12577")]]
           [PInt 12576; PStr "12577"]).
  - vm_compute. reflexivity.
  - reflexivity.
  - reflexivity.
  - reflexivity.
  - reflexivity.
  - reflexivity.
  - reflexivity.
  - reflexivity.
  - reflexivity.
  - repeat constructor.
Defined.

(** ** jtbc.py, further *)

Module JTBCRecord.

Import JTBCIE Re ReSem ReFacts.

(** [release_date] yields [None] or eight digits. *)
Lemma release_date_shape x :
  release_date x = PNone
  \/ exists d, release_date x = PStr d /\ String.length d = 8%nat /\ Str.isdigit d = true.
Proof.
  destruct x as [ | | | | s | | | ]; try (left; reflexivity).
  unfold release_date.
  destruct (Re.compile "\d{8}") as [p |] eqn:Hp; [| left; reflexivity].
  vm_compute in Hp. injection Hp as <-.
  unfold match_, match_at. cbn [body].
  destruct (run _ (Str.chars (Str.remove_char "." s)) [] _) as [[c rest] |] eqn:Hrun;
    [| left; reflexivity].
  right. apply run_sound in Hrun. destruct Hrun as (s' & c' & Hm & Hk).
  injection Hk as <- <-. invert_matches.
  cbn [matched].
  match goal with
  | |- context [firstn _ (?a :: ?b :: ?c :: ?d :: ?e :: ?f :: ?g :: ?h :: ?r)] =>
    change (a :: b :: c :: d :: e :: f :: g :: h :: r)
      with ([a; b; c; d; e; f; g; h] ++ r);
    rewrite firstn_consumed
  end.
  eexists. split; [reflexivity | split; [reflexivity |]].
  unfold Str.isdigit. rewrite chars_of_chars. cbn [forallb].
  repeat match goal with
  | Hc : class_matches false [CDigit] _ = true |- _ =>
    rewrite class_is_digit in Hc; rewrite Hc; clear Hc
  end.
  reflexivity.
Qed.

(** The fields of the record that the playback data do not set. *)
Lemma fields host metadata vid duration formats subtitles :
  let record := PDict
    (Py.update
       (Py.update [(PStr "id", vid)] (vod_detail host metadata))
       [(PStr "duration", duration); (PStr "formats", formats);
        (PStr "subtitles", subtitles)]) in
  Py.field record "id" = Some vid
  /\ forall v, Py.field record "release_date" = Some v ->
       v = release_date
             (Obj.traverse_key (Obj.traverse_key metadata "vodDetail") "broadcastDate")
       /\ v <> PNone.
Proof.
  unfold vod_detail.
  generalize (release_date
                (Obj.traverse_key (Obj.traverse_key metadata "vodDetail") "broadcastDate")).
  generalize (Obj.traverse_key (Obj.traverse_key metadata "vodDetail") "vodTitleView").
  generalize (Obj.traverse_key (Obj.traverse_key metadata "vodDetail") "programTitle").
  generalize (Obj.of_int (int_or_none host
                (Obj.traverse_key (Obj.traverse_key metadata "vodDetail") "watchAge"))).
  generalize (Obj.traverse_key (Obj.traverse_key metadata "vodDetail") "episodeContents").
  generalize (Obj.of_str (url_or_none host
                (Obj.traverse_key (Obj.traverse_key metadata "vodDetail") "imgFileUrl"))).
  intros thumbnail description age series title date.
  unfold template. cbn [filter fst snd negb Obj.is_nothing].
  destruct (Obj.is_nothing title); destruct (Obj.is_nothing series);
    destruct (Obj.is_nothing age); destruct (Obj.is_nothing description);
    destruct (Obj.is_nothing thumbnail); destruct (Obj.is_nothing date) eqn:Hdate;
    (split; [reflexivity |]); cbn; intros v Hv;
    try discriminate Hv; injection Hv as <-;
    (split; [reflexivity | intros ->; discriminate Hdate]).
Qed.

End JTBCRecord.

(** X6: whenever the JTBC extractor returns a record, the record's id is
    the text the url pattern captured, 'ep' or 'vo' followed by digits:
    nothing in the metadata or in the playback data can replace it. *)
Theorem jtbc_record_id_comes_from_the_url host url st record st' :
  JTBCIE._real_extract host url st = (inr record, st') ->
  exists prefix digits,
    IE.match_id JTBCIE._VALID_URL url = inr (PStr (String.append prefix digits))
    /\ (prefix = "ep" \/ prefix = "vo")
    /\ Str.isdigit digits = true
    /\ Py.field record "id" = Some (PStr (String.append prefix digits)).
Proof.
  intros H. unfold JTBCIE._real_extract in H.
  step_as H video_id Hid. apply lift_ok in Hid. destruct Hid as [Hid _].
  destruct (IdFacts.jtbc_id _ _ Hid) as (prefix & digits & -> & Hprefix & Hdigits).
  do 7 step H. unfold ret in H. injection H as <- _.
  exists prefix, digits. repeat split; auto.
  apply JTBCRecord.fields.
Qed.

Lemma jtbc_record_id_comes_from_the_url_witness :
  exists prefix digits,
    IE.match_id JTBCIE._VALID_URL Sample.jtbc_url = inr (PStr (String.append prefix digits))
    /\ (prefix = "ep" \/ prefix = "vo")
    /\ Str.isdigit digits = true
    /\ Py.field (Sample.returned (JTBCIE._real_extract Sample.jtbc_server Sample.jtbc_url)) "id"
       = Some (PStr (String.append prefix digits)).
Proof.
  apply (jtbc_record_id_comes_from_the_url Sample.jtbc_server Sample.jtbc_url initial
           (Sample.returned (JTBCIE._real_extract Sample.jtbc_server Sample.jtbc_url))
           (snd (JTBCIE._real_extract Sample.jtbc_server Sample.jtbc_url initial))).
  vm_compute. reflexivity.
Defined.

(** X7: whenever the JTBC extractor returns a record that has a
    release_date, the release_date is a text of exactly eight digits,
    whatever the broadcast date of the metadata looks like. *)
Theorem jtbc_release_date_is_eight_digits host url st record st' v :
  JTBCIE._real_extract host url st = (inr record, st') ->
  Py.field record "release_date" = Some v ->
  exists d, v = PStr d /\ String.length d = 8%nat /\ Str.isdigit d = true.
Proof.
  intros H Hv. unfold JTBCIE._real_extract in H.
  do 8 step H. unfold ret in H. injection H as <- _.
  apply JTBCRecord.fields in Hv. destruct Hv as [-> Hnone].
  match type of Hnone with
  | JTBCIE.release_date ?x <> _ =>
    destruct (JTBCRecord.release_date_shape x) as [Hshape | Hshape];
      [contradiction | exact Hshape]
  end.
Qed.

Lemma jtbc_release_date_is_eight_digits_witness :
  exists d, PStr "20231008" = PStr d /\ String.length d = 8%nat /\ Str.isdigit d = true.
Proof.
  apply (jtbc_release_date_is_eight_digits Sample.jtbc_server Sample.jtbc_url initial
           (Sample.returned (JTBCIE._real_extract Sample.jtbc_server Sample.jtbc_url))
           (snd (JTBCIE._real_extract Sample.jtbc_server Sample.jtbc_url initial))).
  - vm_compute. reflexivity.
  - vm_compute. reflexivity.
Defined.

Module JTBCProgramFacts.

Import JTBCProgramIE JTBCRequests.

(** The traversal of a replay list whose items all carry an episode id. *)
Lemma episode_ids_of_items vod_list items ids :
  Py.field vod_list "programReplayVodList" = Some (PList items) ->
  Forall2 has_episode_id items ids ->
  episode_ids vod_list = ids.
Proof.
  intros Hlist Hids. unfold episode_ids.
  rewrite (FieldFacts.traverse_key _ _ _ Hlist). cbn [each]. clear Hlist.
  induction Hids as [| item id items ids (Hid & Hnone & Hempty) _ IH]; [reflexivity |].
  cbn [map filter]. rewrite (FieldFacts.traverse_key _ _ _ Hid).
  replace (is_nothing id) with false; [cbn [negb]; rewrite IH; reflexivity |].
  destruct id as [ | | | | | | [| kv d] | ]; try reflexivity; contradiction.
Qed.

End JTBCProgramFacts.

(** X8: the JTBC program extractor, against a site that answers its request
    with a replay list every item of which carries an episode id.  It makes
    that one request, for the list of the program 'pr<digits>' of the url
    with rowCount 10000, and returns the playlist, under the id of the
    program, of exactly one entry for each item of the list, in the order of
    the list: the entry of the episode id e is addressed to the episode
    extractor at https://vod.jtbc.co.kr/player/program/<e>, with the id e.
    For every episode id of the form ep<digits> or vo<digits> that url is
    one the episode extractor accepts, with the same id. *)
Theorem jtbc_program_entries_are_episode_urls host url_result playlist_result url st
  program_id vod_list items ids :
  let request :=
    mkRequest "https://now-api.jtbc.co.kr/v1/vodClip/programHome/programReplayVodList"
      [("programId", program_id); ("rowCount", PStr "10000")] [] None in
  let episode_url id :=
    String.append "https://vod.jtbc.co.kr/player/program/" (py_str host id) in
  IE.match_id JTBCProgramIE._VALID_URL url = inr program_id ->
  http_json host (log st) request = inr vod_list ->
  Py.field vod_list "programReplayVodList" = Some (PList items) ->
  Forall2 JTBCRequests.has_episode_id items ids ->
  JTBCProgramIE._real_extract host url_result playlist_result url st
  = (inr (playlist_result
            (map (fun id => url_result (episode_url id) "JTBCIE" id) ids) program_id),
     mkState (log st ++ [Requested request]) (_authenticated st))
  /\ (exists program,
        program_id = PStr (String.append "pr" program) /\ Str.isdigit program = true)
  /\ forall prefix d,
       In (PStr (String.append prefix d)) ids ->
       prefix = "ep" \/ prefix = "vo" -> Str.isdigit d = true ->
       IE.match_id JTBCIE._VALID_URL (episode_url (PStr (String.append prefix d)))
       = inr (PStr (String.append prefix d)).
Proof.
  intros request episode_url Hid Hlist Hitems Hids.
  split; [| split].
  - unfold JTBCProgramIE._real_extract, IE._match_id. rewrite Hid, bind_lift.
    change (mkRequest JTBCProgramIE.vod_list_api
              [("programId", program_id); ("rowCount", PStr "10000")] [] None)
      with request.
    rewrite (bind_val _ _ _ _ _ (download_json_run _ _ _ _ Hlist)).
    rewrite (JTBCProgramFacts.episode_ids_of_items _ _ _ Hitems Hids). reflexivity.
  - destruct (IdFacts.jtbc_program_id _ _ Hid) as (program & -> & Hprogram).
    exists program. split; [reflexivity | exact Hprogram].
  - intros prefix d _ Hprefix Hd. subst episode_url. cbn [py_str].
    apply IdFacts.jtbc_round_trip; assumption.
Qed.

Lemma jtbc_program_entries_are_episode_urls_witness :
  JTBCProgramIE._real_extract Cases.jtbc_program Cases.url_entry Cases.playlist_of
    Cases.jtbc_program_url initial
  = (inr (Cases.playlist_of
            (map (fun id =>
                    Cases.url_entry
                      (String.append "https://vod.jtbc.co.kr/player/program/"
                         (py_str Cases.jtbc_program id))
                      "JTBCIE" id)
                 [PStr "ep20216733"; PStr "ep20216321"])
            (PStr "pr10011491")),
     mkState
       (log initial
        ++ [Requested
              (mkRequest
                 "https://now-api.jtbc.co.kr/v1/vodClip/programHome/programReplayVodList"
                 [("programId", PStr "pr10011491"); ("rowCount", PStr "10000")] [] None)])
       (_authenticated initial))
  /\ (exists program,
        PStr "pr10011491" = PStr (String.append "pr" program)
        /\ Str.isdigit program = true)
  /\ forall prefix d,
       In (PStr (String.append prefix d)) [PStr "ep20216733"; PStr "ep20216321"] ->
       prefix = "ep" \/ prefix = "vo" -> Str.isdigit d = true ->
       IE.match_id JTBCIE._VALID_URL
         (String.append "https://vod.jtbc.co.kr/player/program/"
            (py_str Cases.jtbc_program (PStr (String.append prefix d))))
       = inr (PStr (String.append prefix d)).
Proof.
  apply (jtbc_program_entries_are_episode_urls Cases.jtbc_program Cases.url_entry
           Cases.playlist_of Cases.jtbc_program_url
           initial (PStr "pr10011491") Cases.jtbc_vod_list
           [Sample.obj [("episodeId", PStr "ep20216733")];
            Sample.obj [("episodeId", PStr "ep20216321")]]
           [PStr "ep20216733"; PStr "ep20216321"]).
  - vm_compute. reflexivity.
  - reflexivity.
  - reflexivity.
  - repeat constructor; discriminate.
Defined.

(** ** kanal2.py, further *)

Module FloatFacts.

Lemma normalize_not_negative_zero m :
  (0 <= m)%Z -> binary_normalize prec emax m 0 false <> S754_zero true.
Proof.
  intros Hm. unfold binary_normalize. destruct m as [| p | p]; try lia; try discriminate.
  unfold binary_round.
  destruct (shl_align p 0 _) as [mz ez].
  unfold binary_round_aux.
  destruct (shr_fexp prec emax (Z.pos mz) ez loc_Exact) as [mrs' e'].
  destruct (shr_fexp prec emax _ e' loc_Exact) as [mrs'' e''].
  destruct (shr_m mrs''); try discriminate.
  destruct (Z.leb e'' _); discriminate.
Qed.

(** [x + 0] is [x] for the float of a natural number: it is not [-0.0]. *)
Lemma add_zero z :
  (0 <= z)%Z -> PrimFloat.add (float_of_Z z) (float_of_Z 0) = float_of_Z z.
Proof.
  intros Hz. apply Prim2SF_inj. rewrite add_spec.
  assert (H0 : Prim2SF (float_of_Z 0) = S754_zero false) by (vm_compute; reflexivity).
  rewrite H0.
  assert (Hx : Prim2SF (float_of_Z z) <> S754_zero true).
  { unfold float_of_Z. destruct (Z.ltb_spec z 0); [lia |].
    rewrite of_uint63_spec. apply normalize_not_negative_zero.
    apply Uint63.to_Z_bounded. }
  destruct (Prim2SF (float_of_Z z)) as [[|] | | |]; try reflexivity.
  congruence.
Qed.

End FloatFacts.

Module Kanal2More.

Import Kanal2IE Kanal2Requests Behaviour Re ReSem ReFacts.

Lemma get_title_silent b info :
  behaves b no_event (@anything pyval) anything (get_title info).
Proof.
  unfold get_title. any_lift_as title. any_lift_as subtitle.
  destruct (Py.truthy subtitle); [| apply of_ret; exact I].
  do 2 any_lift. apply of_lift. destruct (Obj.iadd_str _ _); exact I.
Qed.

Lemma get_timestamp_silent host b subtitle :
  behaves b no_event (@anything pyval) anything (get_timestamp host subtitle).
Proof.
  unfold get_timestamp.
  destruct (negb (Py.truthy subtitle)); [apply of_ret; exact I |].
  unfold IE._search_regex. any_lift_as found.
  destruct found as [ | | | | text | | | ]; try (apply of_ret; exact I).
  destruct (String.eqb text ""); [apply of_ret; exact I |].
  any_lift.
  destruct (pytz_tallinn_utcoffset host) as [f |]; [| apply of_ret; exact I].
  any_lift. apply of_ret. exact I.
Qed.

Lemma add_stream_silent host b sid formats stream :
  behaves b no_event (@anything (list pyval)) anything (add_stream host sid formats stream).
Proof.
  unfold add_stream. any_lift_as file.
  destruct (negb (Py.truthy file)); [apply of_ret; exact I |].
  do 3 any_lift. apply of_ret. exact I.
Qed.

(** What [get_formats] has done when it returns. *)
Lemma get_formats_run host playlist st formats st' :
  get_formats host playlist st = (inr formats, st') ->
  exists session,
    http_json host (log st) (session_request playlist) = inr session
    /\ Obj.item session "reason" = inr (PStr "OK")
    /\ st' = mkState (log st ++ [Requested (session_request playlist)]) (_authenticated st).
Proof.
  intros H. unfold get_formats in H.
  step_as H session Hsession. unfold get_session in Hsession.
  step_as Hsession session' Hdl. apply download_json_ok in Hdl. destruct Hdl as [Hdl ->].
  step_as Hsession reason Hreason. apply lift_ok in Hreason. destruct Hreason as [Hreason ->].
  destruct (Py.eq_str reason "OK") eqn:Hok; cbn [negb] in Hsession;
    [| exfalso; exact (raise_not_ok _ _ _ _ Hsession)].
  unfold ret in Hsession. injection Hsession as <- <-.
  exists session'. split; [exact Hdl |]. split.
  - destruct reason; try discriminate Hok. cbn in Hok. apply String.eqb_eq in Hok.
    subst. exact Hreason.
  - match type of H with
    | ?m ?s = _ =>
      assert (Hb : behaves (_authenticated st) no_event (@anything pyval) anything m);
      [| destruct (Hb s eq_refl) as (new & Hs & Hnew & _) ]
    end.
    + do 2 any_lift.
      eapply of_bind with (Q := anything);
        [apply of_fold_m; [intros; apply add_stream_silent | exact I] | intros ? _].
      any_lift. apply of_ret. exact I.
    + rewrite H in Hs. cbn [snd log] in Hs. rewrite (no_events _ Hnew), app_nil_r in Hs.
      exact Hs.
Qed.

(** What the pattern of the subtitle captures is sixteen characters long:
    dd.dd.dddd dd:dd. *)
Lemma date_text subtitle text :
  IE.search_regex SUBTITLE_DATE_RE subtitle "dateandtime" (Some PNone) = inr (PStr text) ->
  String.length text = 16%nat.
Proof.
  unfold IE.search_regex.
  destruct (Re.compile SUBTITLE_DATE_RE) as [p |] eqn:Hp; [| discriminate].
  vm_compute in Hp. injection Hp as <-.
  destruct subtitle as [ | | | | s | | | ]; try discriminate.
  unfold search.
  match goal with
  | |- context [search_from ?p ?l] => destruct (search_from p l) as [m |] eqn:Hs
  end; [| discriminate].
  apply search_from_sound in Hs. destruct Hs as (s' & Hs).
  unfold match_at in Hs. cbn [body] in Hs.
  destruct (run _ s' [] _) as [[c rest] |] eqn:Hrun; [| discriminate Hs].
  injection Hs as <-.
  apply run_sound in Hrun. destruct Hrun as (s1 & c1 & Hm & Hk). injection Hk as <- <-.
  split_at_groups; open_groups; invert_matches.
  all: match goal with
       | |- context [firstn _ (?a1 :: ?a2 :: ?a3 :: ?a4 :: ?a5 :: ?a6 :: ?a7 :: ?a8 :: ?a9
                               :: ?a10 :: ?a11 :: ?a12 :: ?a13 :: ?a14 :: ?a15 :: ?a16 :: ?r)] =>
         change (a1 :: a2 :: a3 :: a4 :: a5 :: a6 :: a7 :: a8 :: a9
                 :: a10 :: a11 :: a12 :: a13 :: a14 :: a15 :: a16 :: r)
           with ([a1; a2; a3; a4; a5; a6; a7; a8; a9; a10; a11; a12; a13; a14; a15; a16] ++ r);
         rewrite firstn_consumed
       end.
  all: cbn [first_group group captures cap_lookup ngroups Nat.eqb].
  all: intros H; injection H as <-.
  all: reflexivity.
Qed.

Lemma date_text_not_empty subtitle text :
  IE.search_regex SUBTITLE_DATE_RE subtitle "dateandtime" (Some PNone) = inr (PStr text) ->
  String.eqb text "" = false.
Proof.
  intros H. apply date_text in H. destruct text; [discriminate H | reflexivity].
Qed.

Lemma subtitle_not_empty subtitle text :
  IE.search_regex SUBTITLE_DATE_RE subtitle "dateandtime" (Some PNone) = inr (PStr text) ->
  Py.truthy subtitle = true.
Proof.
  intros H.
  destruct subtitle as [ | | | | s | | | ]; try (vm_compute in H; discriminate H).
  destruct s; [vm_compute in H; discriminate H | reflexivity].
Qed.

End Kanal2More.

(** X9: whenever the Kanal2 extractor returns a record, its id is the
    non-empty text of digits captured from the url, and exactly two requests
    were made: the one for the playlist of that id and the one that
    registers the session, which answered with the reason 'OK'. *)
Theorem kanal2_record_needs_a_session host url st record st' :
  Kanal2IE._real_extract host url st = (inr record, st') ->
  exists id playlist session,
    IE.match_id Kanal2IE._VALID_URL url = inr (PStr id)
    /\ Str.isdigit id = true
    /\ Py.field record "id" = Some (PStr id)
    /\ http_json host (log st) (Kanal2Requests.playlist_request host (PStr id))
       = inr playlist
    /\ http_json host (log st ++ [Requested (Kanal2Requests.playlist_request host (PStr id))])
         (Kanal2Requests.session_request playlist) = inr session
    /\ Obj.item session "reason" = inr (PStr "OK")
    /\ log st' = log st ++ [Requested (Kanal2Requests.playlist_request host (PStr id));
                            Requested (Kanal2Requests.session_request playlist)].
Proof.
  intros H. unfold Kanal2IE._real_extract in H.
  step_as H video_id Hid. apply lift_ok in Hid. destruct Hid as [Hid ->].
  destruct (IdFacts.kanal2_id _ _ Hid) as (id & -> & Hdigits).
  step_as H playlist Hplaylist. apply download_json_ok in Hplaylist.
  destruct Hplaylist as [Hplaylist ->].
  step_as H info Hinfo. apply lift_ok in Hinfo. destruct Hinfo as [_ ->].
  step_as H title Htitle.
  silent_run Htitle (Kanal2More.get_title_silent (_authenticated st) info).
  step_as H formats Hformats. apply Kanal2More.get_formats_run in Hformats.
  destruct Hformats as (session & Hsession & Hreason & ->). cbn [log _authenticated] in *.
  step_as H timestamp Htimestamp.
  silent_run Htimestamp
    (Kanal2More.get_timestamp_silent host (_authenticated st)
       (Obj.found (Obj.traverse_key (Obj.traverse_key playlist "info") "subtitle"))).
  unfold ret in H. injection H as <- <-.
  exists id, playlist, session. cbn [log]. rewrite <- app_assoc.
  repeat split; auto.
Qed.

Lemma kanal2_record_needs_a_session_witness :
  exists id playlist session,
    IE.match_id Kanal2IE._VALID_URL Sample.kanal2_url = inr (PStr id)
    /\ Str.isdigit id = true
    /\ Py.field (Sample.returned (Kanal2IE._real_extract (Sample.kanal2_server 0 None)
                                    Sample.kanal2_url)) "id" = Some (PStr id)
    /\ http_json (Sample.kanal2_server 0 None) (log initial)
         (Kanal2Requests.playlist_request (Sample.kanal2_server 0 None) (PStr id))
       = inr playlist
    /\ http_json (Sample.kanal2_server 0 None)
         (log initial ++ [Requested
            (Kanal2Requests.playlist_request (Sample.kanal2_server 0 None) (PStr id))])
         (Kanal2Requests.session_request playlist) = inr session
    /\ Obj.item session "reason" = inr (PStr "OK")
    /\ log (snd (Kanal2IE._real_extract (Sample.kanal2_server 0 None) Sample.kanal2_url
                   initial))
       = log initial ++ [Requested
                           (Kanal2Requests.playlist_request (Sample.kanal2_server 0 None)
                              (PStr id));
                         Requested (Kanal2Requests.session_request playlist)].
Proof.
  apply (kanal2_record_needs_a_session (Sample.kanal2_server 0 None) Sample.kanal2_url
           initial).
  vm_compute. reflexivity.
Defined.

(** X10: when the session service answers with a reason other than 'OK',
    [get_formats] raises the ExtractorError 'Kanal2: Unable to obtain
    session', which is not marked as expected, right after the request for
    the session: no stream is looked at. *)
Theorem kanal2_session_refused host playlist st session reason :
  http_json host (log st) (Kanal2Requests.session_request playlist) = inr session ->
  Obj.item session "reason" = inr reason ->
  Py.eq_str reason "OK" = false ->
  Kanal2IE.get_formats host playlist st
  = (inl Kanal2Requests.no_session,
     mkState (log st ++ [Requested (Kanal2Requests.session_request playlist)])
       (_authenticated st)).
Proof.
  intros Hsession Hreason Hok.
  unfold Kanal2IE.get_formats, Kanal2IE.get_session.
  fold (Kanal2Requests.session_request playlist).
  unfold bind at 1. unfold bind at 1.
  rewrite (download_json_run _ _ _ _ Hsession).
  rewrite Hreason, bind_lift, Hok. reflexivity.
Qed.

Lemma kanal2_session_refused_witness :
  Kanal2IE.get_formats Cases.kanal2_refused Sample.kanal2_playlist initial
  = (inl (ExtractorError (PStr "Kanal2: Unable to obtain session") false NoCause),
     mkState (log initial ++ [Requested (Kanal2Requests.session_request
                                           Sample.kanal2_playlist)])
       (_authenticated initial)).
Proof.
  apply (kanal2_session_refused Cases.kanal2_refused Sample.kanal2_playlist initial
           (Sample.obj [("reason", PStr "DENIED")]) (PStr "DENIED")).
  - vm_compute. reflexivity.
  - vm_compute. reflexivity.
  - vm_compute. reflexivity.
Defined.

(** X11: when the playlist JSON has no 'info' (or a null one), the
    Kanal2 extractor ends with a TypeError that nothing catches, right after
    the request for the playlist: [get_title] indexes [None]. *)
Theorem kanal2_playlist_without_info host url st id playlist :
  IE.match_id Kanal2IE._VALID_URL url = inr (PStr id) ->
  http_json host (log st) (Kanal2Requests.playlist_request host (PStr id)) = inr playlist ->
  Obj.get playlist "info" = inr PNone ->
  Kanal2IE._real_extract host url st
  = (inl TypeError,
     mkState (log st ++ [Requested (Kanal2Requests.playlist_request host (PStr id))])
       (_authenticated st)).
Proof.
  intros Hid Hplaylist Hinfo.
  unfold Kanal2IE._real_extract, IE._match_id, Kanal2IE.get_playlist.
  rewrite Hid, bind_lift.
  fold (Kanal2Requests.playlist_request host (PStr id)).
  rewrite (bind_val _ _ _ _ _ (download_json_run _ _ _ _ Hplaylist)).
  rewrite Hinfo, bind_lift. reflexivity.
Qed.

Lemma kanal2_playlist_without_info_witness :
  Kanal2IE._real_extract (Sample.always (Sample.obj [])) Sample.kanal2_url initial
  = (inl TypeError,
     mkState (log initial ++ [Requested
                (Kanal2Requests.playlist_request (Sample.always (Sample.obj []))
                   (PStr "40792"))])
       (_authenticated initial)).
Proof.
  apply (kanal2_playlist_without_info (Sample.always (Sample.obj [])) Sample.kanal2_url
           initial "40792" (Sample.obj [])).
  - vm_compute. reflexivity.
  - reflexivity.
  - reflexivity.
Defined.

(** X12: the time stamp of a subtitle that carries a date is the seconds
    from the epoch to that wall-clock time read in the local zone of the
    machine, with pytz and without: for a date from 1970 on, adding the
    microseconds of the Tallinn offset changes nothing. *)
Theorem kanal2_timestamp_ignores_pytz host subtitle text date st :
  IE.search_regex Kanal2IE.SUBTITLE_DATE_RE subtitle "dateandtime" (Some PNone)
  = inr (PStr text) ->
  Calendar.strptime text = inr date ->
  let naive := Calendar.timegm date in
  let unixtime := (naive - local_utcoffset host naive)%Z in
  (forall utcoffset, pytz_tallinn_utcoffset host = Some utcoffset ->
     (0 <= unixtime)%Z /\ exists offset, utcoffset naive = inr offset) ->
  Kanal2IE.get_timestamp host subtitle st = (inr (PFloat (float_of_Z unixtime)), st).
Proof.
  intros Hsearch Hdate naive unixtime Hpytz.
  unfold Kanal2IE.get_timestamp, IE._search_regex.
  rewrite (Kanal2More.subtitle_not_empty _ _ Hsearch). cbn [negb].
  rewrite Hsearch, bind_lift, (Kanal2More.date_text_not_empty _ _ Hsearch).
  rewrite Hdate, bind_lift. cbv zeta. fold naive. fold unixtime.
  destruct (pytz_tallinn_utcoffset host) as [utcoffset |]; [| reflexivity].
  destruct (Hpytz utcoffset eq_refl) as (Hpos & offset & Hoffset).
  rewrite Hoffset, bind_lift. cbn [Calendar.microseconds Calendar.timedelta_of_seconds].
  rewrite FloatFacts.add_zero by exact Hpos. reflexivity.
Qed.

Lemma kanal2_timestamp_ignores_pytz_witness :
  Kanal2IE.get_timestamp (Sample.kanal2_server 10800 (Some Sample.eest))
    (PStr "Osa 53  (05.08.2016 20:00)") initial
  = (inr (PFloat (float_of_Z (1470427200 - 10800))), initial).
Proof.
  apply (kanal2_timestamp_ignores_pytz (Sample.kanal2_server 10800 (Some Sample.eest))
           (PStr "Osa 53  (05.08.2016 20:00)") "05.08.2016 20:00"
           (Calendar.mkDatetime 2016 8 5 20 0) initial).
  - vm_compute. reflexivity.
  - vm_compute. reflexivity.
  - intros utcoffset H. injection H as <-. split; [vm_compute; discriminate |].
    exists 10800%Z. reflexivity.
Defined.

(** X13: a subtitle whose date the pattern accepts (sixteen characters,
    dd.dd.dddd dd:dd) and [strptime] rejects, such as the 31st of February,
    makes [get_timestamp] raise the error of [strptime], which nothing
    catches. *)
Theorem kanal2_impossible_date_raises host subtitle text e st :
  IE.search_regex Kanal2IE.SUBTITLE_DATE_RE subtitle "dateandtime" (Some PNone)
  = inr (PStr text) ->
  Calendar.strptime text = inl e ->
  String.length text = 16%nat
  /\ Kanal2IE.get_timestamp host subtitle st = (inl e, st).
Proof.
  intros Hsearch Hdate. split; [exact (Kanal2More.date_text _ _ Hsearch) |].
  unfold Kanal2IE.get_timestamp, IE._search_regex.
  rewrite (Kanal2More.subtitle_not_empty _ _ Hsearch). cbn [negb].
  rewrite Hsearch, bind_lift, (Kanal2More.date_text_not_empty _ _ Hsearch).
  rewrite Hdate. reflexivity.
Qed.

Lemma kanal2_impossible_date_raises_witness :
  String.length "31.02.2016 20:00" = 16%nat
  /\ Kanal2IE.get_timestamp (Sample.kanal2_server 0 None) Cases.kanal2_february_31 initial
     = (inl ValueError, initial).
Proof.
  apply (kanal2_impossible_date_raises (Sample.kanal2_server 0 None)
           Cases.kanal2_february_31 "31.02.2016 20:00" ValueError initial).
  - vm_compute. reflexivity.
  - vm_compute. reflexivity.
Defined.

(** ** servus.py, further *)

Module ServusMore.

Import ServusIE Behaviour.

Lemma ExtractorError_is_unbound : ExtractorError_name = raise (NameError "ExtractorError").
Proof. reflexivity. Qed.

Lemma report_error host b video error :
  behaves b is_warning (@anything unit) not_extraction_error (_report_error host video error).
Proof.
  unfold _report_error.
  destruct (Py.eq_str error "FSK_BLOCKED").
  - interpreter_lift_as all_details. interpreter_lift_as details.
    interpreter_lift_as has_hour.
    destruct has_hour; [| apply of_ret; exact I].
    rewrite ExtractorError_is_unbound.
    eapply of_bind; [apply of_raise with (Q := nothing); reflexivity | intros ? []].
  - destruct (Py.eq_str error "NOT_YET_AVAILABLE").
    + interpreter_lift_as sunrise. interpreter_lift_as msg.
      apply of_emit. exists msg. reflexivity.
    + apply of_emit. eexists. reflexivity.
Qed.

Lemma report_errors host b video :
  behaves b is_warning (@anything unit) not_extraction_error (_report_errors host video).
Proof.
  unfold _report_errors.
  interpreter_lift_as has_errors.
  eapply of_bind with (Q := anything).
  { destruct (negb has_errors); [apply of_emit; eexists; reflexivity | apply of_ret; exact I]. }
  intros _ _.
  interpreter_lift_as errors. interpreter_lift_as items.
  apply of_for_each. intros error. apply report_error.
Qed.

End ServusMore.

(** X14: [_report_errors] makes no request and logs nothing but warnings,
    and whatever it raises is not an ExtractorError: the message 'Only
    playable from ...' of the age restriction can never reach the user,
    because the name ExtractorError is not bound in servus.py. *)
Theorem servus_report_errors_raises_no_extraction_error host video st :
  exists new,
    snd (ServusIE._report_errors host video st)
    = mkState (log st ++ new) (_authenticated st)
    /\ Forall is_warning new
    /\ forall e, fst (ServusIE._report_errors host video st) = inl e ->
                 is_ExtractorError e = false.
Proof.
  destruct (ServusMore.report_errors host (_authenticated st) video st eq_refl)
    as (new & Hs & Hnew & Hres).
  exists new. split; [exact Hs | split; [exact Hnew |]].
  intros e He. rewrite He in Hres. exact Hres.
Qed.

(** X15: when the video JSON has no 'videoUrl', the Servus extractor never
    returns a record and never raises an ExtractorError: it ends with an
    error of the interpreter that nothing catches, having made the one
    request for the video JSON and logged nothing else but warnings; no
    manifest is asked for. *)
Theorem servus_without_video_url host url st id video :
  IE.match_id ServusIE._VALID_URL url = inr (PStr id) ->
  http_json host (log st) (ServusRequests.video_request (Str.upper id)) = inr video ->
  Py.contains video "videoUrl" = Some false ->
  exists e new,
    fst (ServusIE._real_extract host url st) = inl e
    /\ is_ExtractorError e = false
    /\ log (snd (ServusIE._real_extract host url st))
       = log st ++ Requested (ServusRequests.video_request (Str.upper id)) :: new
    /\ Forall is_warning new.
Proof.
  intros Hid Hjson Hno.
  unfold ServusIE._real_extract, IE._match_id. rewrite Hid, bind_lift.
  cbn [Obj.upper]. rewrite bind_lift.
  fold (ServusRequests.video_request (Str.upper id)).
  rewrite (bind_val _ _ _ _ _ (download_json_run _ _ _ _ Hjson)).
  unfold Obj.contains. rewrite Hno, bind_lift. cbn [negb].
  match goal with
  | |- exists e new, fst (?m ?s) = inl e /\ _ =>
    assert (Hb : behaves (_authenticated st) is_warning (@nothing pyval)
                   not_extraction_error m);
    [| destruct (Hb s eq_refl) as (new & Hs & Hnew & Hres);
       destruct (m s) as [[e | r] s'] eqn:Hrun; cbn [fst snd] in *; [| destruct Hres];
       exists e, new ]
  end.
  - eapply Behaviour.of_bind; [apply ServusMore.report_errors | intros _ _].
    eapply Behaviour.of_bind; [apply Behaviour.of_lift with (Q := nothing) | intros ? []].
    unfold Py.contains in Hno. unfold Obj.item.
    destruct video as [ | | | | text | items | d | name]; try reflexivity.
    destruct (Py.lookup d (PStr "videoUrl")); [discriminate Hno | reflexivity].
  - subst s'. cbn [log]. rewrite <- app_assoc. auto.
Qed.

Lemma servus_without_video_url_witness :
  exists e new,
    fst (ServusIE._real_extract Sample.servus_not_yet_available Sample.servus_url initial)
    = inl e
    /\ is_ExtractorError e = false
    /\ log (snd (ServusIE._real_extract Sample.servus_not_yet_available Sample.servus_url
                   initial))
       = log initial
         ++ Requested (ServusRequests.video_request (Str.upper "aa-28bycqnh92111")) :: new
    /\ Forall is_warning new.
Proof.
  apply (servus_without_video_url Sample.servus_not_yet_available Sample.servus_url initial
           "aa-28bycqnh92111"
           (Sample.obj [
              ("playabilityErrors", PList [PStr "NOT_YET_AVAILABLE"]);
              ("currentSunrise", PStr "2022-06-20T19:12:13Z")])).
  - vm_compute. reflexivity.
  - vm_compute. reflexivity.
  - vm_compute. reflexivity.
Defined.

(** X16: a video that is blocked for its age rating, with the hours at
    which it may be played, ends the extraction with NameError
    'ExtractorError' right after the request for the video JSON, instead of
    the ExtractorError 'Only playable from ...:00 to ...:00' that
    [_report_errors] means to raise. *)
Theorem servus_age_block_raises_NameError host url st id video rest all_details details :
  IE.match_id ServusIE._VALID_URL url = inr (PStr id) ->
  http_json host (log st) (ServusRequests.video_request (Str.upper id)) = inr video ->
  Py.contains video "videoUrl" = Some false ->
  Obj.get video "playabilityErrors" = inr (PList (PStr "FSK_BLOCKED" :: rest)) ->
  Obj.item video "playabilityErrorDetails" = inr all_details ->
  Obj.item all_details "FSK_BLOCKED" = inr details ->
  Obj.contains details "minEveningHour" = inr true ->
  ServusIE._real_extract host url st
  = (inl (NameError "ExtractorError"),
     mkState (log st ++ [Requested (ServusRequests.video_request (Str.upper id))])
       (_authenticated st)).
Proof.
  intros Hid Hjson Hno Herrors Hall Hdetails Hhour.
  unfold ServusIE._real_extract, IE._match_id. rewrite Hid, bind_lift.
  cbn [Obj.upper]. rewrite bind_lift.
  fold (ServusRequests.video_request (Str.upper id)).
  rewrite (bind_val _ _ _ _ _ (download_json_run _ _ _ _ Hjson)).
  unfold Obj.contains at 1. rewrite Hno, bind_lift. cbn [negb].
  apply bind_err.
  unfold ServusIE._report_errors.
  assert (Hhas : Obj.contains video "playabilityErrors" = inr true).
  { destruct video as [ | | | | text | items | d | name]; try discriminate Herrors.
    unfold Obj.contains, Py.contains. cbn in Herrors.
    destruct (Py.lookup d (PStr "playabilityErrors")); [reflexivity | discriminate Herrors]. }
  rewrite Hhas, bind_lift. cbn [negb].
  unfold bind at 1. unfold ret at 1.
  rewrite Herrors, bind_lift. cbn [Obj.iterate]. rewrite bind_lift.
  cbn [for_each]. apply bind_err.
  unfold ServusIE._report_error. cbn [Py.eq_str String.eqb Ascii.eqb Bool.eqb].
  rewrite Hall, bind_lift, Hdetails, bind_lift, Hhour, bind_lift.
  rewrite ServusMore.ExtractorError_is_unbound. reflexivity.
Qed.

Lemma servus_age_block_raises_NameError_witness :
  ServusIE._real_extract Cases.servus_age_blocked Sample.servus_url initial
  = (inl (NameError "ExtractorError"),
     mkState (log initial
              ++ [Requested (ServusRequests.video_request (Str.upper "aa-28bycqnh92111"))])
       (_authenticated initial)).
Proof.
  apply (servus_age_block_raises_NameError Cases.servus_age_blocked Sample.servus_url
           initial "aa-28bycqnh92111" Cases.servus_age_blocked_json []
           (Sample.obj [("FSK_BLOCKED",
                         Sample.obj [("minEveningHour", PInt 22);
                                     ("maxMorningHour", PInt 6)])])
           (Sample.obj [("minEveningHour", PInt 22); ("maxMorningHour", PInt 6)])).
  - vm_compute. reflexivity.
  - vm_compute. reflexivity.
  - vm_compute. reflexivity.
  - vm_compute. reflexivity.
  - vm_compute. reflexivity.
  - vm_compute. reflexivity.
  - vm_compute. reflexivity.
Defined.

(** ** vrt.py, further *)

Module VRTMore.

Import VRTIE VRTFacts VRTRequests Behaviour.

(** No round of the loop lets a 401 out. *)
Lemma loop_no_401 host auth_info k : forall n st e,
  (attempts_left n <= k)%nat ->
  fst (login_loop host auth_info n st) = inl e -> is_401 e = false.
Proof.
  induction k as [| k IH]; intros n st e Hk; rewrite loop_unfold;
    destruct (Z.leb_spec n 3) as [Hle | Hgt]; try discriminate.
  - unfold attempts_left in Hk. lia.
  - destruct (login_attempt_body host auth_info st) as [[e' | []] st2] eqn:Hbody.
    + destruct (is_401 e') eqn:He.
      * rewrite (bind_val _ _ _ _ _ (round_401 _ _ _ _ _ Hbody He)).
        apply IH. pose proof (attempts_left_decreases n Hle). lia.
      * rewrite (bind_err _ _ _ _ _ (round_error _ _ _ _ _ Hbody He)).
        cbn [fst]. intros E. injection E as <-. exact He.
    + rewrite (bind_val _ _ _ _ _ (round_ok _ _ _ _ Hbody)). discriminate.
Qed.

(** The loop leaves the flag alone. *)
Lemma loop_flag host auth_info k : forall n st,
  (attempts_left n <= k)%nat ->
  _authenticated (snd (login_loop host auth_info n st)) = _authenticated st.
Proof.
  induction k as [| k IH]; intros n st Hk; rewrite loop_unfold;
    destruct (Z.leb_spec n 3) as [Hle | Hgt]; try reflexivity.
  - unfold attempts_left in Hk. lia.
  - destruct (body_trace host auth_info st) as (evs & res & Hbody & _).
    destruct res as [e | []].
    + destruct (is_401 e) eqn:He.
      * rewrite (bind_val _ _ _ _ _ (round_401 _ _ _ _ _ Hbody He)).
        rewrite IH; [reflexivity |]. pose proof (attempts_left_decreases n Hle). lia.
      * rewrite (bind_err _ _ _ _ _ (round_error _ _ _ _ _ Hbody He)). reflexivity.
    + rewrite (bind_val _ _ _ _ _ (round_ok _ _ _ _ Hbody)). reflexivity.
Qed.

Lemma model_is_not_refresh url : model_request url <> refresh_request.
Proof.
  unfold model_request, refresh_request, GET. intros H.
  injection H as H. apply (f_equal (fun t => rev (Str.chars t))) in H.
  rewrite ReFacts.chars_append, rev_app_distr in H. cbn in H. discriminate H.
Qed.

Lemma anonymous_is_not_refresh host url e :
  anonymous_event host url e -> e <> Requested refresh_request.
Proof.
  destruct e as [r | | |]; cbn; try discriminate.
  intros [-> | [-> | (video_id & player_token & ->)]] H.
  - apply (model_is_not_refresh url). congruence.
  - unfold token_request, refresh_request, GET in H. discriminate H.
  - unfold media_request, refresh_request, GET in H. discriminate H.
Qed.

Lemma add_target_behaves host url acc target :
  behaves false (anonymous_event host url) (@anything (list pyval * pyval)) anything
    (add_target host acc target).
Proof.
  unfold add_target. destruct acc as [formats subtitles].
  any_lift_as target_url. any_lift_as type.
  destruct (str_or_none host type) as [format_type |]; [| apply of_ret; exact I].
  destruct (negb _ || _); [apply of_ret; exact I |].
  cbv zeta.
  repeat match goal with
  | |- behaves _ _ _ _ (if ?c then _ else _) => destruct c
  end;
  try (eapply of_bind;
       [apply of_extract_manifest; [exact I | intros; exact I] | intros fs _]);
  apply of_ret; exact I.
Qed.

Lemma add_subtitle_behaves host url subtitles subtitle :
  behaves false (anonymous_event host url) (@anything pyval) anything
    (add_subtitle subtitles subtitle).
Proof.
  unfold add_subtitle. any_lift_as subtitle_url.
  destruct (Py.truthy subtitle_url); [| apply of_ret; exact I].
  any_lift_as type.
  destruct (Py.eq_str type "CLOSED"); [| apply of_ret; exact I].
  apply of_lift. destruct (Obj.setdefault_append _ _ _); exact I.
Qed.

Lemma check_playable_behaves host url video_info :
  behaves false (anonymous_event host url) (@anything unit) anything
    (check_playable video_info).
Proof.
  unfold check_playable. any_lift_as has_title.
  destruct (negb has_title); [| apply of_ret; exact I].
  any_lift_as code.
  eapply of_bind with (Q := anything).
  { unfold IE.raise_login_required, IE.raise_geo_restricted.
    destruct (Py.eq_str code "AUTHENTICATION_REQUIRED"); [apply of_raise; exact I |].
    destruct (Py.eq_str code "INVALID_LOCATION"); [apply of_raise; exact I |].
    apply of_ret. exact I. }
  intros _ _. any_lift_as message. apply of_raise. exact I.
Qed.

Lemma download_video_info_behaves host url :
  behaves false (anonymous_event host url) (@anything locals) anything
    (download_video_info host url).
Proof.
  unfold download_video_info, IE._match_id. any_lift_as matched.
  eapply of_bind with (Q := anything).
  { apply of_download_json; [left; reflexivity | intros; exact I]. }
  intros model_json _.
  do 33 any_lift.
  eapply of_bind; [apply of_get_authenticated | intros authenticated ->].
  eapply of_bind with (Q := fun token => token = PStr "").
  { apply of_ret. reflexivity. }
  intros vrtnutoken ->. cbv zeta.
  eapply of_bind with (Q := anything).
  { apply of_download_json; [right; left; reflexivity | intros; exact I]. }
  intros token_json _. any_lift_as player_token.
  eapply of_bind with (Q := anything).
  { apply of_download_json; [right; right; eexists; eexists; reflexivity | intros; exact I]. }
  intros info _. apply of_ret. exact I.
Qed.

Lemma real_extract_behaves host url :
  behaves false (anonymous_event host url) (@anything pyval) anything
    (_real_extract host url).
Proof.
  unfold _real_extract.
  eapply of_bind; [apply download_video_info_behaves | intros v _]. cbv zeta.
  eapply of_bind; [apply check_playable_behaves | intros _ _].
  any_lift_as targets. any_lift_as target_list.
  eapply of_bind with (Q := anything).
  { apply of_fold_m; [intros; apply add_target_behaves | exact I]. }
  intros [formats subtitles] _.
  any_lift_as subtitle_urls.
  eapply of_bind with (Q := anything).
  { destruct subtitle_urls; try (apply of_ret; exact I).
    apply of_fold_m; [intros; apply add_subtitle_behaves | exact I]. }
  intros subtitles' _.
  do 2 any_lift. apply of_ret. exact I.
Qed.

Lemma add_target_returns host formats subtitles d st :
  exists more subtitles' st',
    add_target host (formats, subtitles) (PDict d) st
    = (inr (formats ++ more, subtitles'), st').
Proof.
  unfold add_target. cbn [Obj.get]. rewrite !bind_lift.
  assert (Hsame : exists more subtitles' st',
            @ret (list pyval * pyval) (formats, subtitles) st
            = (inr (formats ++ more, subtitles'), st')).
  { exists [], subtitles, st. rewrite app_nil_r. reflexivity. }
  destruct (str_or_none host _) as [format_type |]; [| exact Hsame].
  destruct (negb _ || _); [exact Hsame |].
  cbv zeta.
  repeat match goal with
  | |- context [if ?c then _ else _] => destruct c
  end;
  try match goal with
  | |- context [bind (IE._extract_manifest host ?kind ?u false) _ ?s] =>
    destruct (extract_manifest_returns host kind u s) as (fs & st' & Hm);
    rewrite (bind_val _ _ _ _ _ Hm)
  end;
  unfold ret; eauto.
Qed.

End VRTMore.

(** X17: once the Gigya login has returned, [_perform_login] never fails
    with an HTTP 401: such an error of the login requests is retried and in
    the end dropped, never passed on. *)
Theorem vrt_login_never_fails_with_401 host username password st auth_info e :
  gigya_login host (log st) (VRTRequests.login_data username password) = inr auth_info ->
  fst (VRTIE._perform_login host username password st) = inl e ->
  VRTIE.is_401 e = false.
Proof.
  intros Hgigya. unfold VRTIE._perform_login, history. unfold bind at 1.
  fold (VRTRequests.login_data username password). rewrite Hgigya, bind_lift.
  destruct (Obj.get auth_info "errorDetails") as [e' | details] eqn:Hdetails.
  { destruct auth_info; try discriminate Hdetails; cbn in Hdetails;
      injection Hdetails as <-; cbn; intros E; injection E as <-; reflexivity. }
  rewrite bind_lift.
  destruct (Py.truthy details).
  - unfold bind at 1. unfold bind at 1.
    destruct (Obj.concat (PStr "Unable to login: VrtNU said: ") details) as [e' | msg] eqn:Hmsg.
    + destruct details; try discriminate Hmsg; cbn in Hmsg; injection Hmsg as <-;
        cbn; intros E; injection E as <-; reflexivity.
    + cbn. intros E. injection E as <-. reflexivity.
  - unfold bind at 1. unfold ret at 1. unfold bind at 1.
    destruct (VRTIE.login_loop host auth_info 1 st) as [[e' | []] st2] eqn:Hloop.
    + cbn [fst]. intros E. injection E as <-.
      apply (VRTMore.loop_no_401 host auth_info 3 1 st); [reflexivity |].
      rewrite Hloop. reflexivity.
    + cbn. discriminate.
Qed.

Lemma vrt_login_never_fails_with_401_witness :
  VRTIE.is_401 Sample.server_error = false.
Proof.
  apply (vrt_login_never_fails_with_401 (Sample.login_server [inl Sample.server_error])
           "user" "password" initial Sample.auth_info).
  - reflexivity.
  - vm_compute. reflexivity.
Defined.

(** X18: [_perform_login] marks the instance as authenticated exactly when
    it returns; when it raises, the flag is what it was. *)
Theorem vrt_login_sets_the_flag_only_on_return host username password st :
  _authenticated (snd (VRTIE._perform_login host username password st))
  = match fst (VRTIE._perform_login host username password st) with
    | inr _ => true
    | inl _ => _authenticated st
    end.
Proof.
  destruct (VRTIE._perform_login host username password st) as [res st'] eqn:Hrun.
  cbn [fst snd]. revert Hrun.
  unfold VRTIE._perform_login, history. unfold bind at 1. unfold bind at 1.
  destruct (gigya_login host (log st) _) as [e | auth_info];
    [intros H; injection H as <- <-; reflexivity |].
  unfold lift at 1, ret at 1. unfold bind at 1.
  destruct (Obj.get auth_info "errorDetails") as [e | details];
    [intros H; injection H as <- <-; reflexivity |].
  unfold lift at 1, ret at 1. unfold bind at 1.
  destruct (Py.truthy details).
  - unfold bind at 1.
    destruct (Obj.concat (PStr "Unable to login: VrtNU said: ") details);
      intros H; injection H as <- <-; reflexivity.
  - unfold ret at 1. unfold bind.
    pose proof (VRTMore.loop_flag host auth_info 3 1%Z st (Nat.le_refl _)) as Hflag.
    destruct (VRTIE.login_loop host auth_info 1 st) as [[e | []] st2]; cbn [fst snd] in *;
      intros H; injection H as <- <-; [exact Hflag | reflexivity].
Qed.

(** X19: when the Gigya login answers with errorDetails, a non-empty text,
    [_perform_login] raises the ExtractorError 'Unable to login: VrtNU
    said: <errorDetails>', marked as expected, without any request and
    without touching the flag. *)
Theorem vrt_login_rejected_by_gigya host username password st auth_info details :
  gigya_login host (log st) (VRTRequests.login_data username password) = inr auth_info ->
  Obj.get auth_info "errorDetails" = inr (PStr details) ->
  details <> "" ->
  VRTIE._perform_login host username password st
  = (inl (ExtractorError
            (PStr (String.append "Unable to login: VrtNU said: " details)) true NoCause),
     st).
Proof.
  intros Hgigya Hdetails Hne.
  unfold VRTIE._perform_login, history. unfold bind at 1.
  fold (VRTRequests.login_data username password). rewrite Hgigya, bind_lift.
  rewrite Hdetails, bind_lift. cbn [Py.truthy].
  destruct (String.eqb_spec details ""); [contradiction |]. reflexivity.
Qed.

Lemma vrt_login_rejected_by_gigya_witness :
  VRTIE._perform_login Cases.vrt_rejected "user" "password" initial
  = (inl (ExtractorError
            (PStr (String.append "Unable to login: VrtNU said: "
                     "invalid loginID or password")) true NoCause),
     initial).
Proof.
  apply (vrt_login_rejected_by_gigya Cases.vrt_rejected "user" "password" initial
           (Sample.obj [("errorDetails", PStr "invalid loginID or password")])).
  - reflexivity.
  - reflexivity.
  - discriminate.
Defined.

(** X20: when the login site sets no OIDCXSRF cookie, the login ends with
    an AttributeError that nothing catches, after the one request that
    should have set the cookie: no login POST is sent and nothing is
    retried. *)
Theorem vrt_login_without_xsrf_cookie host auth_info n st page uid signature timestamp :
  (n <= 3)%Z ->
  http_page host (log st) VRTIE.xsrf_request = inr page ->
  Obj.item auth_info "UID" = inr uid ->
  Obj.item auth_info "UIDSignature" = inr signature ->
  Obj.item auth_info "signatureTimestamp" = inr timestamp ->
  cookie host (log st ++ [Requested VRTIE.xsrf_request]) "https://login.vrt.be" "OIDCXSRF"
  = None ->
  VRTIE.login_loop host auth_info n st
  = (inl (AttributeError "value"),
     mkState (log st ++ [Requested VRTIE.xsrf_request]) (_authenticated st)).
Proof.
  intros Hn Hpage Huid Hsig Hts Hcookie.
  rewrite VRTFacts.loop_unfold. destruct (Z.leb_spec n 3); [| lia].
  apply bind_err. apply VRTFacts.round_error; [| reflexivity].
  unfold VRTIE.login_attempt_body, IE._request_webpage, history, emit, bind, lift.
  cbn [log _authenticated]. rewrite Hpage. unfold ret at 1 2.
  rewrite Huid, Hsig, Hts. unfold ret at 1 2 3. cbn [log]. rewrite Hcookie. reflexivity.
Qed.

Lemma vrt_login_without_xsrf_cookie_witness :
  VRTIE.login_loop Cases.vrt_no_cookie Sample.auth_info 1 initial
  = (inl (AttributeError "value"),
     mkState (log initial ++ [Requested VRTIE.xsrf_request]) (_authenticated initial)).
Proof.
  apply (vrt_login_without_xsrf_cookie Cases.vrt_no_cookie Sample.auth_info 1 initial ""
           (PStr "uid") (PStr "sig") (PStr "1673905125")).
  - lia.
  - reflexivity.
  - reflexivity.
  - reflexivity.
  - reflexivity.
  - reflexivity.
Defined.

(** X21: on an instance that has not logged in, an extraction requests
    only the model JSON of the page, a player token with the empty identity
    token, and a media item; besides that it logs only manifests and
    warnings.  It never asks for a refresh token, never pauses and leaves
    the flag unset. *)
Theorem vrt_without_login_never_refreshes_the_token host url st :
  _authenticated st = false ->
  exists new,
    snd (VRTIE._real_extract host url st) = mkState (log st ++ new) false
    /\ Forall (VRTRequests.anonymous_event host url) new
    /\ ~ In (Requested VRTRequests.refresh_request) new.
Proof.
  intros Hst.
  destruct (VRTMore.real_extract_behaves host url st Hst) as (new & Hs & Hnew & _).
  exists new. split; [exact Hs | split; [exact Hnew |]].
  intros Hin. rewrite Forall_forall in Hnew.
  exact (VRTMore.anonymous_is_not_refresh host url _ (Hnew _ Hin) eq_refl).
Qed.

Lemma vrt_without_login_never_refreshes_the_token_witness :
  exists new,
    snd (VRTIE._real_extract (Sample.vrt_server Sample.vrt_model_json Sample.vrt_geo_blocked)
           Sample.vrt_url initial)
    = mkState (log initial ++ new) false
    /\ Forall (VRTRequests.anonymous_event
                 (Sample.vrt_server Sample.vrt_model_json Sample.vrt_geo_blocked)
                 Sample.vrt_url) new
    /\ ~ In (Requested VRTRequests.refresh_request) new.
Proof.
  apply (vrt_without_login_never_refreshes_the_token
           (Sample.vrt_server Sample.vrt_model_json Sample.vrt_geo_blocked)
           Sample.vrt_url initial).
  reflexivity.
Defined.

(** X22: the loop over the target urls never raises when every target is
    an object, whatever the manifests do (their failures are not fatal), and
    it only ever adds formats: those collected so far stay, in their
    order. *)
Theorem vrt_targets_loop_keeps_every_format host targets : forall formats subtitles st,
  Forall is_object targets ->
  exists more subtitles' st',
    fold_m (VRTIE.add_target host) targets (formats, subtitles) st
    = (inr (formats ++ more, subtitles'), st').
Proof.
  induction targets as [| target targets IH]; intros formats subtitles st Hall.
  - exists [], subtitles, st. cbn. rewrite app_nil_r. reflexivity.
  - inversion Hall as [| ? ? [d ->] Hrest]; subst. cbn [fold_m].
    destruct (VRTMore.add_target_returns host formats subtitles d st)
      as (more & subtitles1 & st1 & Hone).
    rewrite (bind_val _ _ _ _ _ Hone).
    destruct (IH (formats ++ more) subtitles1 st1 Hrest) as (more' & subtitles2 & st2 & Hall').
    exists (more ++ more'), subtitles2, st2. rewrite app_assoc. exact Hall'.
Qed.

Lemma vrt_targets_loop_keeps_every_format_witness :
  exists more subtitles' st',
    fold_m (VRTIE.add_target Sample.servus_playable) Cases.vrt_targets
      ([PStr "first"], PDict []) initial
    = (inr ([PStr "first"] ++ more, subtitles'), st').
Proof.
  apply (vrt_targets_loop_keeps_every_format Sample.servus_playable Cases.vrt_targets).
  repeat constructor; eexists; reflexivity.
Defined.

(** ** vrt.py: an extraction after a login *)

(** Peel a statement of the interpreter off a run that returned: it leaves
    the state as it is. *)
Ltac lift_step H :=
  let a := fresh "v" in
  let s := fresh "s" in
  let E := fresh "E" in
  apply bind_ok in H; destruct H as (a & s & E & H);
  apply lift_ok in E; destruct E as [_ ->]; cbv beta zeta in H.

(** X23: on an instance that has logged in, an extraction that gets as far
    as the video JSON has made exactly four requests, in this order: the
    model JSON of the page, the refresh token, a player token whose
    identity token is the 'vrtnutoken' of the answer to the refresh, and
    the media item of the video id with that player token. *)
Theorem vrt_after_login_sends_the_refreshed_token host url st v st' :
  _authenticated st = true ->
  VRTIE.download_video_info host url st = (inr v, st') ->
  exists refresh_json token player_json player_token,
    http_json host (log st ++ [Requested (VRTRequests.model_request url)])
      VRTRequests.refresh_request = inr refresh_json
    /\ Obj.item refresh_json "vrtnutoken" = inr token
    /\ http_json host
         (log st ++ [Requested (VRTRequests.model_request url);
                     Requested VRTRequests.refresh_request])
         (VRTRequests.token_request host token) = inr player_json
    /\ Obj.item player_json "vrtPlayerToken" = inr player_token
    /\ log st'
       = log st ++ [Requested (VRTRequests.model_request url);
                    Requested VRTRequests.refresh_request;
                    Requested (VRTRequests.token_request host token);
                    Requested (VRTRequests.media_request (VRTIE.video_id v) player_token)].
Proof.
  intros Hauth H. unfold VRTIE.download_video_info in H.
  lift_step H.
  step_as H model_json Hmodel. apply download_json_ok in Hmodel. destruct Hmodel as [_ ->].
  fold (VRTRequests.model_request url) in H.
  do 33 lift_step H.
  step_as H authenticated Hflag. unfold get_authenticated in Hflag.
  injection Hflag as <- <-. cbn [_authenticated] in H. rewrite Hauth in H.
  step_as H token Htoken.
  step_as Htoken refresh_json Hrefresh. apply download_json_ok in Hrefresh.
  destruct Hrefresh as [Hrefresh ->].
  apply lift_ok in Htoken. destruct Htoken as [Htoken ->].
  step_as H player_json Hplayer. apply download_json_ok in Hplayer.
  destruct Hplayer as [Hplayer ->].
  step_as H player_token Hptoken. apply lift_ok in Hptoken. destruct Hptoken as [Hptoken ->].
  step_as H video_info Hinfo. apply download_json_ok in Hinfo. destruct Hinfo as [_ ->].
  unfold ret in H. injection H as <- <-.
  cbn [log _authenticated VRTIE.video_id] in *.
  rewrite <- !app_assoc in *. cbn [app] in *.
  exists refresh_json, token, player_json, player_token.
  repeat split; assumption || reflexivity.
Qed.

Lemma vrt_after_login_sends_the_refreshed_token_witness :
  exists refresh_json token player_json player_token,
    http_json Cases.vrt_member
      (log Cases.logged_in ++ [Requested (VRTRequests.model_request Sample.vrt_url)])
      VRTRequests.refresh_request = inr refresh_json
    /\ Obj.item refresh_json "vrtnutoken" = inr token
    /\ http_json Cases.vrt_member
         (log Cases.logged_in ++ [Requested (VRTRequests.model_request Sample.vrt_url);
                                  Requested VRTRequests.refresh_request])
         (VRTRequests.token_request Cases.vrt_member token) = inr player_json
    /\ Obj.item player_json "vrtPlayerToken" = inr player_token
    /\ log (snd (VRTIE.download_video_info Cases.vrt_member Sample.vrt_url Cases.logged_in))
       = log Cases.logged_in
         ++ [Requested (VRTRequests.model_request Sample.vrt_url);
             Requested VRTRequests.refresh_request;
             Requested (VRTRequests.token_request Cases.vrt_member token);
             Requested (VRTRequests.media_request
                          (VRTIE.video_id Cases.vrt_member_locals) player_token)].
Proof.
  apply (vrt_after_login_sends_the_refreshed_token Cases.vrt_member Sample.vrt_url
           Cases.logged_in Cases.vrt_member_locals).
  - reflexivity.
  - vm_compute. reflexivity.
Defined.

(** ** servus.py: a playable video *)

Module ServusPlayable.

Import ServusIE ServusRequests.

(** [_get_description] never raises: it makes its request and logs at most
    one warning, the one of a request that failed. *)
Lemma get_description_run host video_id st :
  exists description warnings,
    _get_description host video_id st
    = (inr description,
       mkState (log st ++ Requested (description_request video_id) :: warnings)
         (_authenticated st))
    /\ (warnings = [] \/ exists msg, warnings = [Warning msg])
    /\ (forall e, http_json host (log st) (description_request video_id) = inl e ->
        description = PNone /\ warnings = [Warning (error_text host e)]).
Proof.
  unfold _get_description, IE._download_json_nonfatal, history, emit, bind,
    IE.report_warning, emit, ret.
  cbn [log _authenticated]. fold (description_request video_id).
  destruct (http_json host (log st) (description_request video_id)) as [e | info].
  - cbn [log _authenticated]. rewrite <- app_assoc.
    eexists. exists [Warning (error_text host e)].
    split; [reflexivity | split].
    + right. eexists. reflexivity.
    + intros e' He. injection He as <-. split; reflexivity.
  - eexists. exists []. split; [reflexivity | split; [left; reflexivity | discriminate]].
Qed.

(** A search that returned was made in a text. *)
Lemma searched pat value name v :
  IE.search_regex pat (Py.or_ value (PStr "")) name (Some PNone) = inr v ->
  searchable value = true.
Proof.
  unfold IE.search_regex, searchable, Py.or_.
  destruct (Re.compile pat); [| discriminate].
  destruct (Py.truthy value) eqn:Htruthy; [| reflexivity].
  destruct value; try discriminate; try reflexivity.
Qed.

End ServusPlayable.

(** X24: whenever the Servus extractor returns a record, the video JSON had
    a 'videoUrl', whose m3u8 manifest was read, and its 'season' and
    'chapter' were each falsy or a str; the run requested the video JSON,
    read the manifest and requested the description, in this order, and
    logged nothing else but at most one warning; the record has the
    upper-cased id of the url and the formats and subtitles of the manifest.
    A failure of the request for the description is not fatal: it is the
    warning, and the description of the record is then the one of the
    video JSON. *)
Theorem servus_record_of_a_playable_video host url st record st' :
  ServusIE._real_extract host url st = (inr record, st') ->
  exists id video video_url fs warnings,
    let video_request := ServusRequests.video_request (Str.upper id) in
    let description_request := ServusRequests.description_request (Str.upper id) in
    IE.match_id ServusIE._VALID_URL url = inr (PStr id)
    /\ http_json host (log st) video_request = inr (PDict video)
    /\ Py.lookup video (PStr "videoUrl") = Some video_url
    /\ manifest host (log st ++ [Requested video_request]) "m3u8" video_url = inr fs
    /\ ServusRequests.searchable (Json.get video "season") = true
    /\ ServusRequests.searchable (Json.get video "chapter") = true
    /\ st' = mkState (log st ++ [Requested video_request; Manifest "m3u8" video_url;
                                 Requested description_request] ++ warnings)
               (_authenticated st)
    /\ (warnings = [] \/ exists msg, warnings = [Warning msg])
    /\ Py.field record "id" = Some (PStr (Str.upper id))
    /\ Py.field record "formats" = Some (PList (fst fs))
    /\ Py.field record "subtitles" = Some (snd fs)
    /\ (forall e,
          http_json host
            (log st ++ [Requested video_request; Manifest "m3u8" video_url])
            description_request = inl e ->
          warnings = [Warning (error_text host e)]
          /\ Py.field record "description" = Some (Json.get video "description")).
Proof.
  intros H. unfold ServusIE._real_extract in H.
  step_as H matched Hid. apply lift_ok in Hid. destruct Hid as [Hid ->].
  step_as H video_id Hupper. apply lift_ok in Hupper. destruct Hupper as [Hupper ->].
  destruct matched as [ | | | | id | | | ]; try discriminate Hupper.
  cbn [Obj.upper] in Hupper. injection Hupper as <-.
  fold (ServusRequests.video_request (Str.upper id)) in H.
  step_as H video Hvideo. apply download_json_ok in Hvideo. destruct Hvideo as [Hvideo ->].
  step_as H has_url Hhas. apply lift_ok in Hhas. destruct Hhas as [Hhas ->].
  step_as H reported Hreported.
  step_as H video_url Hurl. apply lift_ok in Hurl. destruct Hurl as [Hurl ->].
  destruct video as [ | | | | | | d | ]; try discriminate Hurl.
  cbn [Obj.item] in Hurl.
  destruct (Py.lookup d (PStr "videoUrl")) as [u |] eqn:Hlookup; [| discriminate Hurl].
  injection Hurl as ->.
  unfold Obj.contains, Py.contains in Hhas. rewrite Hlookup in Hhas. injection Hhas as <-.
  cbn [negb] in Hreported. unfold ret in Hreported. injection Hreported as _ <-.
  step_as H fs Hmanifest. apply extract_manifest_fatal_ok in Hmanifest.
  destruct Hmanifest as [Hmanifest ->]. cbn [log _authenticated] in *.
  step_as H season Hseason. apply lift_ok in Hseason. destruct Hseason as [Hseason ->].
  cbn [Obj.get] in Hseason. injection Hseason as <-. fold (Json.get d "season") in H.
  step_as H season_match Hsm. apply lift_ok in Hsm. destruct Hsm as [Hsm ->].
  apply ServusPlayable.searched in Hsm.
  step_as H episode Hepisode. apply lift_ok in Hepisode. destruct Hepisode as [Hepisode ->].
  cbn [Obj.get] in Hepisode. injection Hepisode as <-. fold (Json.get d "chapter") in H.
  step_as H episode_match Hem. apply lift_ok in Hem. destruct Hem as [Hem ->].
  apply ServusPlayable.searched in Hem.
  step_as H title Htitle. apply lift_ok in Htitle. destruct Htitle as [_ ->].
  step_as H long_description Hlong.
  match type of Hlong with
  | ServusIE._get_description host ?i ?s = _ =>
    destruct (ServusPlayable.get_description_run host i s)
      as (description & warnings & Hrun & Hwarn & Hfail)
  end.
  rewrite Hrun in Hlong. injection Hlong as <- <-.
  cbn [log _authenticated] in *. rewrite <- !app_assoc in *. cbn [app] in *.
  exists id, d, video_url, fs, warnings. cbv zeta.
  assert (Hdesc : forall e,
             http_json host
               (log st ++ [Requested (ServusRequests.video_request (Str.upper id));
                           Manifest "m3u8" video_url])
               (ServusRequests.description_request (Str.upper id)) = inl e ->
             warnings = [Warning (error_text host e)] /\ description = PNone).
  { intros e He. destruct (Hfail e He) as [-> ->]. split; reflexivity. }
  clear Hfail Hrun.
  step_as H chosen Hchosen.
  assert (Hfallback : forall e,
             http_json host
               (log st ++ [Requested (ServusRequests.video_request (Str.upper id));
                           Manifest "m3u8" video_url])
               (ServusRequests.description_request (Str.upper id)) = inl e ->
             chosen = Json.get d "description").
  { intros e He. destruct (Hdesc e He) as [_ ->]. cbn [Py.truthy] in Hchosen.
    apply lift_ok in Hchosen. destruct Hchosen as [Hchosen _].
    cbn [Obj.get] in Hchosen. injection Hchosen as <-. reflexivity. }
  assert (Hstate : s = mkState (log st ++ Requested (ServusRequests.video_request (Str.upper id))
                                  :: Manifest "m3u8" video_url
                                  :: Requested (ServusRequests.description_request (Str.upper id))
                                  :: warnings) (_authenticated st)).
  { destruct (Py.truthy description).
    - unfold ret in Hchosen. injection Hchosen as _ <-. reflexivity.
    - apply lift_ok in Hchosen. destruct Hchosen as [_ ->]. reflexivity. }
  subst s. clear Hchosen.
  step_as H thumbnail Hthumbnail. apply lift_ok in Hthumbnail. destruct Hthumbnail as [_ ->].
  step_as H duration Hduration. apply lift_ok in Hduration. destruct Hduration as [_ ->].
  step_as H sunrise Hsunrise. apply lift_ok in Hsunrise. destruct Hsunrise as [_ ->].
  unfold ret in H. injection H as <- <-.
  repeat (split; [assumption || reflexivity |]).
  intros e He. split; [exact (proj1 (Hdesc e He)) |].
  rewrite (Hfallback e He). reflexivity.
Qed.

Lemma servus_record_of_a_playable_video_witness :
  exists id video video_url fs warnings,
    IE.match_id ServusIE._VALID_URL Sample.servus_url = inr (PStr id)
    /\ http_json Cases.servus_without_description (log initial)
         (ServusRequests.video_request (Str.upper id)) = inr (PDict video)
    /\ Py.lookup video (PStr "videoUrl") = Some video_url
    /\ manifest Cases.servus_without_description
         (log initial ++ [Requested (ServusRequests.video_request (Str.upper id))])
         "m3u8" video_url = inr fs
    /\ ServusRequests.searchable (Json.get video "season") = true
    /\ ServusRequests.searchable (Json.get video "chapter") = true
    /\ snd (ServusIE._real_extract Cases.servus_without_description Sample.servus_url initial)
       = mkState (log initial
                  ++ [Requested (ServusRequests.video_request (Str.upper id));
                      Manifest "m3u8" video_url;
                      Requested (ServusRequests.description_request (Str.upper id))]
                  ++ warnings)
           (_authenticated initial)
    /\ (warnings = [] \/ exists msg, warnings = [Warning msg])
    /\ Py.field (Sample.returned (ServusIE._real_extract Cases.servus_without_description
                                    Sample.servus_url)) "id"
       = Some (PStr (Str.upper id))
    /\ Py.field (Sample.returned (ServusIE._real_extract Cases.servus_without_description
                                    Sample.servus_url)) "formats"
       = Some (PList (fst fs))
    /\ Py.field (Sample.returned (ServusIE._real_extract Cases.servus_without_description
                                    Sample.servus_url)) "subtitles"
       = Some (snd fs)
    /\ (forall e,
          http_json Cases.servus_without_description
            (log initial ++ [Requested (ServusRequests.video_request (Str.upper id));
                             Manifest "m3u8" video_url])
            (ServusRequests.description_request (Str.upper id)) = inl e ->
          warnings = [Warning (error_text Cases.servus_without_description e)]
          /\ Py.field (Sample.returned (ServusIE._real_extract
                                          Cases.servus_without_description
                                          Sample.servus_url)) "description"
             = Some (Json.get video "description")).
Proof.
  apply (servus_record_of_a_playable_video Cases.servus_without_description
           Sample.servus_url initial).
  vm_compute. reflexivity.
Defined.

(** ** kanal2.py: the formats *)

Module Kanal2Formats.

Import Kanal2IE Kanal2Requests.

(** The loop over the streams, when it comes to its end: it has added one
    format for each stream with a file, in their order. *)
Lemma streams_loop host sid streams : forall formats st formats' st',
  fold_m (add_stream host sid) streams formats st = (inr formats', st') ->
  exists built,
    formats' = formats ++ built
    /\ Forall2 (is_format_of host sid) (files streams) built.
Proof.
  induction streams as [| stream streams IH]; intros formats st formats' st' H.
  - cbn in H. unfold ret in H. injection H as <- <-.
    exists []. rewrite app_nil_r. split; [reflexivity | constructor].
  - cbn [fold_m] in H. step_as H formats1 Hone.
    apply IH in H. destruct H as (built & -> & Hbuilt).
    unfold add_stream in Hone.
    step_as Hone file Hfile. apply lift_ok in Hfile. destruct Hfile as [Hfile ->].
    assert (Hkey : Obj.traverse_key stream "file" = file).
    { destruct stream; try discriminate Hfile. cbn in *. congruence. }
    unfold files. cbn [map filter]. rewrite Hkey. fold (files streams).
    destruct (Py.truthy file) eqn:Htruthy; cbn [negb] in Hone.
    + step_as Hone file' Hfile'. apply lift_ok in Hfile'. destruct Hfile' as [Hfile' ->].
      assert (file' = file) by congruence. subst file'.
      step_as Hone with_s Hwith. apply lift_ok in Hwith. destruct Hwith as [Hwith ->].
      step_as Hone full Hfull. apply lift_ok in Hfull. destruct Hfull as [Hfull ->].
      unfold ret in Hone. injection Hone as <- <-.
      destruct file as [ | | | | f | | | ]; try discriminate Hwith.
      destruct sid as [ | | | | s | | | ]; try discriminate Hfull.
      cbn in Hwith, Hfull. injection Hwith as <-. injection Hfull as <-.
      eexists. rewrite <- app_assoc. split; [reflexivity |].
      cbn [app]. constructor; [| exact Hbuilt].
      exists s, f. repeat split.
    + unfold ret in Hone. injection Hone as <- <-.
      exists built. split; [reflexivity | exact Hbuilt].
Qed.

End Kanal2Formats.

(** X25: when [get_formats] returns, the list it returns is what
    [_sort_formats] made of one format for each stream that has a file, in
    the order of the streams: a stream without a file gives no format, and
    the url of a format is the file of its stream followed by '&s=' and the
    session id, as [url_or_none] passes it. *)
Theorem kanal2_one_format_for_each_stream_with_a_file host playlist streams st formats st' :
  Obj.traverse_key (Obj.traverse_key playlist "data") "streams" = PList streams ->
  Kanal2IE.get_formats host playlist st = (inr formats, st') ->
  exists session built sorted,
    http_json host (log st) (Kanal2Requests.session_request playlist) = inr session
    /\ Forall2 (Kanal2Requests.is_format_of host (Obj.traverse_key session "session"))
         (Kanal2Requests.files streams) built
    /\ sort_formats host built = inr sorted
    /\ formats = PList sorted.
Proof.
  intros Hstreams H. unfold Kanal2IE.get_formats in H.
  step_as H session Hsession. unfold Kanal2IE.get_session in Hsession.
  step_as Hsession session' Hdl. apply download_json_ok in Hdl. destruct Hdl as [Hdl ->].
  step_as Hsession reason Hreason. apply lift_ok in Hreason. destruct Hreason as [Hreason ->].
  destruct (negb (Py.eq_str reason "OK"));
    [exfalso; exact (raise_not_ok _ _ _ _ Hsession) |].
  unfold ret in Hsession. injection Hsession as <- <-.
  step_as H sid Hsid. apply lift_ok in Hsid. destruct Hsid as [Hsid ->].
  assert (Hkey : Obj.traverse_key session' "session" = sid).
  { destruct session'; try discriminate Hsid. cbn in *. congruence. }
  rewrite Hstreams in H. cbn [Obj.is_None Obj.iterate] in H.
  step_as H items Hitems. apply lift_ok in Hitems. destruct Hitems as [Hitems ->].
  injection Hitems as <-.
  step_as H built Hloop. apply Kanal2Formats.streams_loop in Hloop.
  destruct Hloop as (built' & -> & Hbuilt). cbn [app] in H.
  step_as H sorted Hsort. apply lift_ok in Hsort. destruct Hsort as [Hsort ->].
  unfold ret in H. injection H as <- <-.
  exists session', built', sorted. rewrite Hkey.
  repeat split; assumption.
Qed.

Lemma kanal2_one_format_for_each_stream_with_a_file_witness :
  exists session built sorted,
    http_json (Sample.kanal2_server 0 None) (log initial)
      (Kanal2Requests.session_request Cases.kanal2_two_streams) = inr session
    /\ Forall2 (Kanal2Requests.is_format_of (Sample.kanal2_server 0 None)
                  (Obj.traverse_key session "session"))
         (Kanal2Requests.files Cases.kanal2_streams) built
    /\ sort_formats (Sample.kanal2_server 0 None) built = inr sorted
    /\ match fst (Kanal2IE.get_formats (Sample.kanal2_server 0 None)
                    Cases.kanal2_two_streams initial) with
       | inr formats => formats
       | inl _ => PNone
       end = PList sorted.
Proof.
  apply (kanal2_one_format_for_each_stream_with_a_file (Sample.kanal2_server 0 None)
           Cases.kanal2_two_streams Cases.kanal2_streams initial _
           (snd (Kanal2IE.get_formats (Sample.kanal2_server 0 None)
                   Cases.kanal2_two_streams initial))).
  - reflexivity.
  - vm_compute. reflexivity.
Defined.
